(** * excalidraw-tools: the element graph, synthesis, extraction and edits

    A shallow embedding of [lib.py], [build.py], [spec.py] and [edit.py].

    Conventions of the embedding.
    - A Python number (int or float) of a coordinate is an exact rational in
      lowest terms ([Qc]); Python's numeric equality is then Leibniz
      equality.  Integer-only fields ([strokeWidth], [version], ...) are [Z].
    - An element dict is a flat record; a key that [dict.get] may find absent
      or [None] is an [option].
    - The element list is the store.  A Python reference to an element dict
      is the position of that element in the list, and an in-place mutation
      is an update at that position.
    - [random.Random] is an interface ([RandomGen]); the wall clock is the
      sequence of values successive [now_ms()] calls return.
    - A raised exception is [Raise]; the unbounded resampling loop of
      [random_id] runs on fuel and reports [OutOfFuel] when it is used up. *)

From Stdlib Require Import ZArith QArith Qabs Qcanon List String Ascii Bool Lia Lqa Arith.
Import ListNotations.
Open Scope string_scope.
Open Scope Z_scope.

Set Implicit Arguments.

(** ** Outcomes of fallible code *)

Inductive result (A : Type) : Type :=
| Ok (a : A)
| Raise (msg : string)
| OutOfFuel.
Arguments Ok {A} a.
Arguments Raise {A} msg.
Arguments OutOfFuel {A}.

Definition bind {A B} (m : result A) (k : A -> result B) : result B :=
  match m with
  | Ok a => k a
  | Raise msg => Raise msg
  | OutOfFuel => OutOfFuel
  end.

Notation "'do' x <- m ; k" := (bind m (fun x => k))
  (at level 10, x pattern, m at level 100, k at level 200).

(** ** Numbers *)

Definition num := Qc.

Definition zq (z : Z) : num := Q2Qc (inject_Z z).
Definition half : num := Q2Qc (1 # 2).

Definition nadd (a b : num) : num := Qcplus a b.
Definition nsub (a b : num) : num := Qcminus a b.
Definition ndiv (a b : num) : num := Qcdiv a b.
Definition nabs (a : num) : num := Q2Qc (Qabs a).
Definition nltb (a b : num) : bool :=
  match Qccompare a b with Lt => true | _ => false end.
Definition nleb (a b : num) : bool :=
  match Qccompare a b with Gt => false | _ => true end.
Definition neqb (a b : num) : bool := Qeq_bool a b.
Definition nmax (a b : num) : num := if nltb a b then b else a.
Definition nmin (a b : num) : num := if nltb b a then b else a.

(** ** Order indices ([lib.py], [index_for_rank]) *)

Definition INDEX_CHARS : string :=
  "0123456789ABCDEFGHIJKLMNOPQRSTUVWXYZabcdefghijklmnopqrstuvwxyz".

Definition index_char (k : Z) : ascii :=
  match String.get (Z.to_nat k) INDEX_CHARS with
  | Some c => c
  | None => "0"%char
  end.

(** The [while n:] loop.  [out] is kept in the reversed order of the Python
    list, so that the final [reversed] is already done. *)
Fixpoint index_digits (fuel : nat) (n : Z) (out : string) : string :=
  match fuel with
  | O => out
  | S fuel' =>
      if n =? 0 then out
      else index_digits fuel' (n / 62) (String (index_char (n mod 62)) out)
  end.

Definition index_for_rank (rank : Z) : result string :=
  if rank <? 0 then Raise "rank must be non-negative"
  else if rank <? Z.of_nat (String.length INDEX_CHARS)
  then Ok (String "a" (String (index_char rank) EmptyString))
  else Ok (String "b" (index_digits (Z.to_nat rank) rank EmptyString)).

(** Ordinary lexicographic comparison of strings (by character code). *)
Definition str_lt (a b : string) : Prop := String.compare a b = Lt.

(** ** The element graph ([lib.py])

    One record for every element dict.  The first block is
    [BASE_REQUIRED_FIELDS]; the text block ([TEXT_REQUIRED_FIELDS]) and the
    arrow block ([ARROW_REQUIRED_FIELDS]) are [None] on an element that does
    not carry the key. *)

Definition point : Type := (num * num)%type.

Record bound_ref : Type := { br_id : string; br_type : string }.

Record binding : Type := {
  b_elementId : option string;
  b_focus : num;
  b_gap : num;
  b_fixedPoint : option (list num)
}.

Record element : Type := {
  e_id : string;
  e_type : string;
  e_x : num;
  e_y : num;
  e_width : num;
  e_height : num;
  e_angle : num;
  e_strokeColor : string;
  e_backgroundColor : string;
  e_fillStyle : string;
  e_strokeWidth : Z;
  e_strokeStyle : string;
  e_roughness : Z;
  e_opacity : Z;
  e_groupIds : list string;
  e_frameId : option string;
  e_index : string;
  e_roundness : option Z;
  e_seed : Z;
  e_version : Z;
  e_versionNonce : Z;
  e_isDeleted : bool;
  e_boundElements : option (list bound_ref);
  e_updated : Z;
  e_link : option string;
  e_locked : bool;
  e_text : option string;
  e_fontSize : option Z;
  e_fontFamily : option Z;
  e_textAlign : option string;
  e_verticalAlign : option string;
  e_containerId : option string;
  e_originalText : option string;
  e_autoResize : option bool;
  e_points : option (list point);
  e_startBinding : option binding;
  e_endBinding : option binding;
  e_startArrowhead : option string;
  e_endArrowhead : option string;
  e_elbowed : option bool
}.

(** Assignment to one key, [elem[key] = v]. *)

Definition set_x (v : num) (e : element) : element :=
  {| e_id := e_id e; e_type := e_type e; e_x := v; e_y := e_y e; e_width :=
     e_width e; e_height := e_height e; e_angle := e_angle e; e_strokeColor :=
     e_strokeColor e; e_backgroundColor := e_backgroundColor e; e_fillStyle :=
     e_fillStyle e; e_strokeWidth := e_strokeWidth e; e_strokeStyle :=
     e_strokeStyle e; e_roughness := e_roughness e; e_opacity := e_opacity e;
     e_groupIds := e_groupIds e; e_frameId := e_frameId e; e_index := e_index
     e; e_roundness := e_roundness e; e_seed := e_seed e; e_version :=
     e_version e; e_versionNonce := e_versionNonce e; e_isDeleted :=
     e_isDeleted e; e_boundElements := e_boundElements e; e_updated :=
     e_updated e; e_link := e_link e; e_locked := e_locked e; e_text := e_text
     e; e_fontSize := e_fontSize e; e_fontFamily := e_fontFamily e;
     e_textAlign := e_textAlign e; e_verticalAlign := e_verticalAlign e;
     e_containerId := e_containerId e; e_originalText := e_originalText e;
     e_autoResize := e_autoResize e; e_points := e_points e; e_startBinding :=
     e_startBinding e; e_endBinding := e_endBinding e; e_startArrowhead :=
     e_startArrowhead e; e_endArrowhead := e_endArrowhead e; e_elbowed :=
     e_elbowed e |}.

Definition set_y (v : num) (e : element) : element :=
  {| e_id := e_id e; e_type := e_type e; e_x := e_x e; e_y := v; e_width :=
     e_width e; e_height := e_height e; e_angle := e_angle e; e_strokeColor :=
     e_strokeColor e; e_backgroundColor := e_backgroundColor e; e_fillStyle :=
     e_fillStyle e; e_strokeWidth := e_strokeWidth e; e_strokeStyle :=
     e_strokeStyle e; e_roughness := e_roughness e; e_opacity := e_opacity e;
     e_groupIds := e_groupIds e; e_frameId := e_frameId e; e_index := e_index
     e; e_roundness := e_roundness e; e_seed := e_seed e; e_version :=
     e_version e; e_versionNonce := e_versionNonce e; e_isDeleted :=
     e_isDeleted e; e_boundElements := e_boundElements e; e_updated :=
     e_updated e; e_link := e_link e; e_locked := e_locked e; e_text := e_text
     e; e_fontSize := e_fontSize e; e_fontFamily := e_fontFamily e;
     e_textAlign := e_textAlign e; e_verticalAlign := e_verticalAlign e;
     e_containerId := e_containerId e; e_originalText := e_originalText e;
     e_autoResize := e_autoResize e; e_points := e_points e; e_startBinding :=
     e_startBinding e; e_endBinding := e_endBinding e; e_startArrowhead :=
     e_startArrowhead e; e_endArrowhead := e_endArrowhead e; e_elbowed :=
     e_elbowed e |}.

Definition set_width (v : num) (e : element) : element :=
  {| e_id := e_id e; e_type := e_type e; e_x := e_x e; e_y := e_y e; e_width
     := v; e_height := e_height e; e_angle := e_angle e; e_strokeColor :=
     e_strokeColor e; e_backgroundColor := e_backgroundColor e; e_fillStyle :=
     e_fillStyle e; e_strokeWidth := e_strokeWidth e; e_strokeStyle :=
     e_strokeStyle e; e_roughness := e_roughness e; e_opacity := e_opacity e;
     e_groupIds := e_groupIds e; e_frameId := e_frameId e; e_index := e_index
     e; e_roundness := e_roundness e; e_seed := e_seed e; e_version :=
     e_version e; e_versionNonce := e_versionNonce e; e_isDeleted :=
     e_isDeleted e; e_boundElements := e_boundElements e; e_updated :=
     e_updated e; e_link := e_link e; e_locked := e_locked e; e_text := e_text
     e; e_fontSize := e_fontSize e; e_fontFamily := e_fontFamily e;
     e_textAlign := e_textAlign e; e_verticalAlign := e_verticalAlign e;
     e_containerId := e_containerId e; e_originalText := e_originalText e;
     e_autoResize := e_autoResize e; e_points := e_points e; e_startBinding :=
     e_startBinding e; e_endBinding := e_endBinding e; e_startArrowhead :=
     e_startArrowhead e; e_endArrowhead := e_endArrowhead e; e_elbowed :=
     e_elbowed e |}.

Definition set_height (v : num) (e : element) : element :=
  {| e_id := e_id e; e_type := e_type e; e_x := e_x e; e_y := e_y e; e_width
     := e_width e; e_height := v; e_angle := e_angle e; e_strokeColor :=
     e_strokeColor e; e_backgroundColor := e_backgroundColor e; e_fillStyle :=
     e_fillStyle e; e_strokeWidth := e_strokeWidth e; e_strokeStyle :=
     e_strokeStyle e; e_roughness := e_roughness e; e_opacity := e_opacity e;
     e_groupIds := e_groupIds e; e_frameId := e_frameId e; e_index := e_index
     e; e_roundness := e_roundness e; e_seed := e_seed e; e_version :=
     e_version e; e_versionNonce := e_versionNonce e; e_isDeleted :=
     e_isDeleted e; e_boundElements := e_boundElements e; e_updated :=
     e_updated e; e_link := e_link e; e_locked := e_locked e; e_text := e_text
     e; e_fontSize := e_fontSize e; e_fontFamily := e_fontFamily e;
     e_textAlign := e_textAlign e; e_verticalAlign := e_verticalAlign e;
     e_containerId := e_containerId e; e_originalText := e_originalText e;
     e_autoResize := e_autoResize e; e_points := e_points e; e_startBinding :=
     e_startBinding e; e_endBinding := e_endBinding e; e_startArrowhead :=
     e_startArrowhead e; e_endArrowhead := e_endArrowhead e; e_elbowed :=
     e_elbowed e |}.

Definition set_strokeColor (v : string) (e : element) : element :=
  {| e_id := e_id e; e_type := e_type e; e_x := e_x e; e_y := e_y e; e_width
     := e_width e; e_height := e_height e; e_angle := e_angle e; e_strokeColor
     := v; e_backgroundColor := e_backgroundColor e; e_fillStyle :=
     e_fillStyle e; e_strokeWidth := e_strokeWidth e; e_strokeStyle :=
     e_strokeStyle e; e_roughness := e_roughness e; e_opacity := e_opacity e;
     e_groupIds := e_groupIds e; e_frameId := e_frameId e; e_index := e_index
     e; e_roundness := e_roundness e; e_seed := e_seed e; e_version :=
     e_version e; e_versionNonce := e_versionNonce e; e_isDeleted :=
     e_isDeleted e; e_boundElements := e_boundElements e; e_updated :=
     e_updated e; e_link := e_link e; e_locked := e_locked e; e_text := e_text
     e; e_fontSize := e_fontSize e; e_fontFamily := e_fontFamily e;
     e_textAlign := e_textAlign e; e_verticalAlign := e_verticalAlign e;
     e_containerId := e_containerId e; e_originalText := e_originalText e;
     e_autoResize := e_autoResize e; e_points := e_points e; e_startBinding :=
     e_startBinding e; e_endBinding := e_endBinding e; e_startArrowhead :=
     e_startArrowhead e; e_endArrowhead := e_endArrowhead e; e_elbowed :=
     e_elbowed e |}.

Definition set_backgroundColor (v : string) (e : element) : element :=
  {| e_id := e_id e; e_type := e_type e; e_x := e_x e; e_y := e_y e; e_width
     := e_width e; e_height := e_height e; e_angle := e_angle e; e_strokeColor
     := e_strokeColor e; e_backgroundColor := v; e_fillStyle := e_fillStyle e;
     e_strokeWidth := e_strokeWidth e; e_strokeStyle := e_strokeStyle e;
     e_roughness := e_roughness e; e_opacity := e_opacity e; e_groupIds :=
     e_groupIds e; e_frameId := e_frameId e; e_index := e_index e; e_roundness
     := e_roundness e; e_seed := e_seed e; e_version := e_version e;
     e_versionNonce := e_versionNonce e; e_isDeleted := e_isDeleted e;
     e_boundElements := e_boundElements e; e_updated := e_updated e; e_link :=
     e_link e; e_locked := e_locked e; e_text := e_text e; e_fontSize :=
     e_fontSize e; e_fontFamily := e_fontFamily e; e_textAlign := e_textAlign
     e; e_verticalAlign := e_verticalAlign e; e_containerId := e_containerId
     e; e_originalText := e_originalText e; e_autoResize := e_autoResize e;
     e_points := e_points e; e_startBinding := e_startBinding e; e_endBinding
     := e_endBinding e; e_startArrowhead := e_startArrowhead e; e_endArrowhead
     := e_endArrowhead e; e_elbowed := e_elbowed e |}.

Definition set_roundness (v : option Z) (e : element) : element :=
  {| e_id := e_id e; e_type := e_type e; e_x := e_x e; e_y := e_y e; e_width
     := e_width e; e_height := e_height e; e_angle := e_angle e; e_strokeColor
     := e_strokeColor e; e_backgroundColor := e_backgroundColor e; e_fillStyle
     := e_fillStyle e; e_strokeWidth := e_strokeWidth e; e_strokeStyle :=
     e_strokeStyle e; e_roughness := e_roughness e; e_opacity := e_opacity e;
     e_groupIds := e_groupIds e; e_frameId := e_frameId e; e_index := e_index
     e; e_roundness := v; e_seed := e_seed e; e_version := e_version e;
     e_versionNonce := e_versionNonce e; e_isDeleted := e_isDeleted e;
     e_boundElements := e_boundElements e; e_updated := e_updated e; e_link :=
     e_link e; e_locked := e_locked e; e_text := e_text e; e_fontSize :=
     e_fontSize e; e_fontFamily := e_fontFamily e; e_textAlign := e_textAlign
     e; e_verticalAlign := e_verticalAlign e; e_containerId := e_containerId
     e; e_originalText := e_originalText e; e_autoResize := e_autoResize e;
     e_points := e_points e; e_startBinding := e_startBinding e; e_endBinding
     := e_endBinding e; e_startArrowhead := e_startArrowhead e; e_endArrowhead
     := e_endArrowhead e; e_elbowed := e_elbowed e |}.

Definition set_version (v : Z) (e : element) : element :=
  {| e_id := e_id e; e_type := e_type e; e_x := e_x e; e_y := e_y e; e_width
     := e_width e; e_height := e_height e; e_angle := e_angle e; e_strokeColor
     := e_strokeColor e; e_backgroundColor := e_backgroundColor e; e_fillStyle
     := e_fillStyle e; e_strokeWidth := e_strokeWidth e; e_strokeStyle :=
     e_strokeStyle e; e_roughness := e_roughness e; e_opacity := e_opacity e;
     e_groupIds := e_groupIds e; e_frameId := e_frameId e; e_index := e_index
     e; e_roundness := e_roundness e; e_seed := e_seed e; e_version := v;
     e_versionNonce := e_versionNonce e; e_isDeleted := e_isDeleted e;
     e_boundElements := e_boundElements e; e_updated := e_updated e; e_link :=
     e_link e; e_locked := e_locked e; e_text := e_text e; e_fontSize :=
     e_fontSize e; e_fontFamily := e_fontFamily e; e_textAlign := e_textAlign
     e; e_verticalAlign := e_verticalAlign e; e_containerId := e_containerId
     e; e_originalText := e_originalText e; e_autoResize := e_autoResize e;
     e_points := e_points e; e_startBinding := e_startBinding e; e_endBinding
     := e_endBinding e; e_startArrowhead := e_startArrowhead e; e_endArrowhead
     := e_endArrowhead e; e_elbowed := e_elbowed e |}.

Definition set_versionNonce (v : Z) (e : element) : element :=
  {| e_id := e_id e; e_type := e_type e; e_x := e_x e; e_y := e_y e; e_width
     := e_width e; e_height := e_height e; e_angle := e_angle e; e_strokeColor
     := e_strokeColor e; e_backgroundColor := e_backgroundColor e; e_fillStyle
     := e_fillStyle e; e_strokeWidth := e_strokeWidth e; e_strokeStyle :=
     e_strokeStyle e; e_roughness := e_roughness e; e_opacity := e_opacity e;
     e_groupIds := e_groupIds e; e_frameId := e_frameId e; e_index := e_index
     e; e_roundness := e_roundness e; e_seed := e_seed e; e_version :=
     e_version e; e_versionNonce := v; e_isDeleted := e_isDeleted e;
     e_boundElements := e_boundElements e; e_updated := e_updated e; e_link :=
     e_link e; e_locked := e_locked e; e_text := e_text e; e_fontSize :=
     e_fontSize e; e_fontFamily := e_fontFamily e; e_textAlign := e_textAlign
     e; e_verticalAlign := e_verticalAlign e; e_containerId := e_containerId
     e; e_originalText := e_originalText e; e_autoResize := e_autoResize e;
     e_points := e_points e; e_startBinding := e_startBinding e; e_endBinding
     := e_endBinding e; e_startArrowhead := e_startArrowhead e; e_endArrowhead
     := e_endArrowhead e; e_elbowed := e_elbowed e |}.

Definition set_isDeleted (v : bool) (e : element) : element :=
  {| e_id := e_id e; e_type := e_type e; e_x := e_x e; e_y := e_y e; e_width
     := e_width e; e_height := e_height e; e_angle := e_angle e; e_strokeColor
     := e_strokeColor e; e_backgroundColor := e_backgroundColor e; e_fillStyle
     := e_fillStyle e; e_strokeWidth := e_strokeWidth e; e_strokeStyle :=
     e_strokeStyle e; e_roughness := e_roughness e; e_opacity := e_opacity e;
     e_groupIds := e_groupIds e; e_frameId := e_frameId e; e_index := e_index
     e; e_roundness := e_roundness e; e_seed := e_seed e; e_version :=
     e_version e; e_versionNonce := e_versionNonce e; e_isDeleted := v;
     e_boundElements := e_boundElements e; e_updated := e_updated e; e_link :=
     e_link e; e_locked := e_locked e; e_text := e_text e; e_fontSize :=
     e_fontSize e; e_fontFamily := e_fontFamily e; e_textAlign := e_textAlign
     e; e_verticalAlign := e_verticalAlign e; e_containerId := e_containerId
     e; e_originalText := e_originalText e; e_autoResize := e_autoResize e;
     e_points := e_points e; e_startBinding := e_startBinding e; e_endBinding
     := e_endBinding e; e_startArrowhead := e_startArrowhead e; e_endArrowhead
     := e_endArrowhead e; e_elbowed := e_elbowed e |}.

Definition set_boundElements (v : option (list bound_ref)) (e : element) : element :=
  {| e_id := e_id e; e_type := e_type e; e_x := e_x e; e_y := e_y e; e_width
     := e_width e; e_height := e_height e; e_angle := e_angle e; e_strokeColor
     := e_strokeColor e; e_backgroundColor := e_backgroundColor e; e_fillStyle
     := e_fillStyle e; e_strokeWidth := e_strokeWidth e; e_strokeStyle :=
     e_strokeStyle e; e_roughness := e_roughness e; e_opacity := e_opacity e;
     e_groupIds := e_groupIds e; e_frameId := e_frameId e; e_index := e_index
     e; e_roundness := e_roundness e; e_seed := e_seed e; e_version :=
     e_version e; e_versionNonce := e_versionNonce e; e_isDeleted :=
     e_isDeleted e; e_boundElements := v; e_updated := e_updated e; e_link :=
     e_link e; e_locked := e_locked e; e_text := e_text e; e_fontSize :=
     e_fontSize e; e_fontFamily := e_fontFamily e; e_textAlign := e_textAlign
     e; e_verticalAlign := e_verticalAlign e; e_containerId := e_containerId
     e; e_originalText := e_originalText e; e_autoResize := e_autoResize e;
     e_points := e_points e; e_startBinding := e_startBinding e; e_endBinding
     := e_endBinding e; e_startArrowhead := e_startArrowhead e; e_endArrowhead
     := e_endArrowhead e; e_elbowed := e_elbowed e |}.

Definition set_updated (v : Z) (e : element) : element :=
  {| e_id := e_id e; e_type := e_type e; e_x := e_x e; e_y := e_y e; e_width
     := e_width e; e_height := e_height e; e_angle := e_angle e; e_strokeColor
     := e_strokeColor e; e_backgroundColor := e_backgroundColor e; e_fillStyle
     := e_fillStyle e; e_strokeWidth := e_strokeWidth e; e_strokeStyle :=
     e_strokeStyle e; e_roughness := e_roughness e; e_opacity := e_opacity e;
     e_groupIds := e_groupIds e; e_frameId := e_frameId e; e_index := e_index
     e; e_roundness := e_roundness e; e_seed := e_seed e; e_version :=
     e_version e; e_versionNonce := e_versionNonce e; e_isDeleted :=
     e_isDeleted e; e_boundElements := e_boundElements e; e_updated := v;
     e_link := e_link e; e_locked := e_locked e; e_text := e_text e;
     e_fontSize := e_fontSize e; e_fontFamily := e_fontFamily e; e_textAlign
     := e_textAlign e; e_verticalAlign := e_verticalAlign e; e_containerId :=
     e_containerId e; e_originalText := e_originalText e; e_autoResize :=
     e_autoResize e; e_points := e_points e; e_startBinding := e_startBinding
     e; e_endBinding := e_endBinding e; e_startArrowhead := e_startArrowhead
     e; e_endArrowhead := e_endArrowhead e; e_elbowed := e_elbowed e |}.

Definition set_text (v : option string) (e : element) : element :=
  {| e_id := e_id e; e_type := e_type e; e_x := e_x e; e_y := e_y e; e_width
     := e_width e; e_height := e_height e; e_angle := e_angle e; e_strokeColor
     := e_strokeColor e; e_backgroundColor := e_backgroundColor e; e_fillStyle
     := e_fillStyle e; e_strokeWidth := e_strokeWidth e; e_strokeStyle :=
     e_strokeStyle e; e_roughness := e_roughness e; e_opacity := e_opacity e;
     e_groupIds := e_groupIds e; e_frameId := e_frameId e; e_index := e_index
     e; e_roundness := e_roundness e; e_seed := e_seed e; e_version :=
     e_version e; e_versionNonce := e_versionNonce e; e_isDeleted :=
     e_isDeleted e; e_boundElements := e_boundElements e; e_updated :=
     e_updated e; e_link := e_link e; e_locked := e_locked e; e_text := v;
     e_fontSize := e_fontSize e; e_fontFamily := e_fontFamily e; e_textAlign
     := e_textAlign e; e_verticalAlign := e_verticalAlign e; e_containerId :=
     e_containerId e; e_originalText := e_originalText e; e_autoResize :=
     e_autoResize e; e_points := e_points e; e_startBinding := e_startBinding
     e; e_endBinding := e_endBinding e; e_startArrowhead := e_startArrowhead
     e; e_endArrowhead := e_endArrowhead e; e_elbowed := e_elbowed e |}.

Definition set_fontSize (v : option Z) (e : element) : element :=
  {| e_id := e_id e; e_type := e_type e; e_x := e_x e; e_y := e_y e; e_width
     := e_width e; e_height := e_height e; e_angle := e_angle e; e_strokeColor
     := e_strokeColor e; e_backgroundColor := e_backgroundColor e; e_fillStyle
     := e_fillStyle e; e_strokeWidth := e_strokeWidth e; e_strokeStyle :=
     e_strokeStyle e; e_roughness := e_roughness e; e_opacity := e_opacity e;
     e_groupIds := e_groupIds e; e_frameId := e_frameId e; e_index := e_index
     e; e_roundness := e_roundness e; e_seed := e_seed e; e_version :=
     e_version e; e_versionNonce := e_versionNonce e; e_isDeleted :=
     e_isDeleted e; e_boundElements := e_boundElements e; e_updated :=
     e_updated e; e_link := e_link e; e_locked := e_locked e; e_text := e_text
     e; e_fontSize := v; e_fontFamily := e_fontFamily e; e_textAlign :=
     e_textAlign e; e_verticalAlign := e_verticalAlign e; e_containerId :=
     e_containerId e; e_originalText := e_originalText e; e_autoResize :=
     e_autoResize e; e_points := e_points e; e_startBinding := e_startBinding
     e; e_endBinding := e_endBinding e; e_startArrowhead := e_startArrowhead
     e; e_endArrowhead := e_endArrowhead e; e_elbowed := e_elbowed e |}.

Definition set_fontFamily (v : option Z) (e : element) : element :=
  {| e_id := e_id e; e_type := e_type e; e_x := e_x e; e_y := e_y e; e_width
     := e_width e; e_height := e_height e; e_angle := e_angle e; e_strokeColor
     := e_strokeColor e; e_backgroundColor := e_backgroundColor e; e_fillStyle
     := e_fillStyle e; e_strokeWidth := e_strokeWidth e; e_strokeStyle :=
     e_strokeStyle e; e_roughness := e_roughness e; e_opacity := e_opacity e;
     e_groupIds := e_groupIds e; e_frameId := e_frameId e; e_index := e_index
     e; e_roundness := e_roundness e; e_seed := e_seed e; e_version :=
     e_version e; e_versionNonce := e_versionNonce e; e_isDeleted :=
     e_isDeleted e; e_boundElements := e_boundElements e; e_updated :=
     e_updated e; e_link := e_link e; e_locked := e_locked e; e_text := e_text
     e; e_fontSize := e_fontSize e; e_fontFamily := v; e_textAlign :=
     e_textAlign e; e_verticalAlign := e_verticalAlign e; e_containerId :=
     e_containerId e; e_originalText := e_originalText e; e_autoResize :=
     e_autoResize e; e_points := e_points e; e_startBinding := e_startBinding
     e; e_endBinding := e_endBinding e; e_startArrowhead := e_startArrowhead
     e; e_endArrowhead := e_endArrowhead e; e_elbowed := e_elbowed e |}.

Definition set_textAlign (v : option string) (e : element) : element :=
  {| e_id := e_id e; e_type := e_type e; e_x := e_x e; e_y := e_y e; e_width
     := e_width e; e_height := e_height e; e_angle := e_angle e; e_strokeColor
     := e_strokeColor e; e_backgroundColor := e_backgroundColor e; e_fillStyle
     := e_fillStyle e; e_strokeWidth := e_strokeWidth e; e_strokeStyle :=
     e_strokeStyle e; e_roughness := e_roughness e; e_opacity := e_opacity e;
     e_groupIds := e_groupIds e; e_frameId := e_frameId e; e_index := e_index
     e; e_roundness := e_roundness e; e_seed := e_seed e; e_version :=
     e_version e; e_versionNonce := e_versionNonce e; e_isDeleted :=
     e_isDeleted e; e_boundElements := e_boundElements e; e_updated :=
     e_updated e; e_link := e_link e; e_locked := e_locked e; e_text := e_text
     e; e_fontSize := e_fontSize e; e_fontFamily := e_fontFamily e;
     e_textAlign := v; e_verticalAlign := e_verticalAlign e; e_containerId :=
     e_containerId e; e_originalText := e_originalText e; e_autoResize :=
     e_autoResize e; e_points := e_points e; e_startBinding := e_startBinding
     e; e_endBinding := e_endBinding e; e_startArrowhead := e_startArrowhead
     e; e_endArrowhead := e_endArrowhead e; e_elbowed := e_elbowed e |}.

Definition set_verticalAlign (v : option string) (e : element) : element :=
  {| e_id := e_id e; e_type := e_type e; e_x := e_x e; e_y := e_y e; e_width
     := e_width e; e_height := e_height e; e_angle := e_angle e; e_strokeColor
     := e_strokeColor e; e_backgroundColor := e_backgroundColor e; e_fillStyle
     := e_fillStyle e; e_strokeWidth := e_strokeWidth e; e_strokeStyle :=
     e_strokeStyle e; e_roughness := e_roughness e; e_opacity := e_opacity e;
     e_groupIds := e_groupIds e; e_frameId := e_frameId e; e_index := e_index
     e; e_roundness := e_roundness e; e_seed := e_seed e; e_version :=
     e_version e; e_versionNonce := e_versionNonce e; e_isDeleted :=
     e_isDeleted e; e_boundElements := e_boundElements e; e_updated :=
     e_updated e; e_link := e_link e; e_locked := e_locked e; e_text := e_text
     e; e_fontSize := e_fontSize e; e_fontFamily := e_fontFamily e;
     e_textAlign := e_textAlign e; e_verticalAlign := v; e_containerId :=
     e_containerId e; e_originalText := e_originalText e; e_autoResize :=
     e_autoResize e; e_points := e_points e; e_startBinding := e_startBinding
     e; e_endBinding := e_endBinding e; e_startArrowhead := e_startArrowhead
     e; e_endArrowhead := e_endArrowhead e; e_elbowed := e_elbowed e |}.

Definition set_containerId (v : option string) (e : element) : element :=
  {| e_id := e_id e; e_type := e_type e; e_x := e_x e; e_y := e_y e; e_width
     := e_width e; e_height := e_height e; e_angle := e_angle e; e_strokeColor
     := e_strokeColor e; e_backgroundColor := e_backgroundColor e; e_fillStyle
     := e_fillStyle e; e_strokeWidth := e_strokeWidth e; e_strokeStyle :=
     e_strokeStyle e; e_roughness := e_roughness e; e_opacity := e_opacity e;
     e_groupIds := e_groupIds e; e_frameId := e_frameId e; e_index := e_index
     e; e_roundness := e_roundness e; e_seed := e_seed e; e_version :=
     e_version e; e_versionNonce := e_versionNonce e; e_isDeleted :=
     e_isDeleted e; e_boundElements := e_boundElements e; e_updated :=
     e_updated e; e_link := e_link e; e_locked := e_locked e; e_text := e_text
     e; e_fontSize := e_fontSize e; e_fontFamily := e_fontFamily e;
     e_textAlign := e_textAlign e; e_verticalAlign := e_verticalAlign e;
     e_containerId := v; e_originalText := e_originalText e; e_autoResize :=
     e_autoResize e; e_points := e_points e; e_startBinding := e_startBinding
     e; e_endBinding := e_endBinding e; e_startArrowhead := e_startArrowhead
     e; e_endArrowhead := e_endArrowhead e; e_elbowed := e_elbowed e |}.

Definition set_originalText (v : option string) (e : element) : element :=
  {| e_id := e_id e; e_type := e_type e; e_x := e_x e; e_y := e_y e; e_width
     := e_width e; e_height := e_height e; e_angle := e_angle e; e_strokeColor
     := e_strokeColor e; e_backgroundColor := e_backgroundColor e; e_fillStyle
     := e_fillStyle e; e_strokeWidth := e_strokeWidth e; e_strokeStyle :=
     e_strokeStyle e; e_roughness := e_roughness e; e_opacity := e_opacity e;
     e_groupIds := e_groupIds e; e_frameId := e_frameId e; e_index := e_index
     e; e_roundness := e_roundness e; e_seed := e_seed e; e_version :=
     e_version e; e_versionNonce := e_versionNonce e; e_isDeleted :=
     e_isDeleted e; e_boundElements := e_boundElements e; e_updated :=
     e_updated e; e_link := e_link e; e_locked := e_locked e; e_text := e_text
     e; e_fontSize := e_fontSize e; e_fontFamily := e_fontFamily e;
     e_textAlign := e_textAlign e; e_verticalAlign := e_verticalAlign e;
     e_containerId := e_containerId e; e_originalText := v; e_autoResize :=
     e_autoResize e; e_points := e_points e; e_startBinding := e_startBinding
     e; e_endBinding := e_endBinding e; e_startArrowhead := e_startArrowhead
     e; e_endArrowhead := e_endArrowhead e; e_elbowed := e_elbowed e |}.

Definition set_autoResize (v : option bool) (e : element) : element :=
  {| e_id := e_id e; e_type := e_type e; e_x := e_x e; e_y := e_y e; e_width
     := e_width e; e_height := e_height e; e_angle := e_angle e; e_strokeColor
     := e_strokeColor e; e_backgroundColor := e_backgroundColor e; e_fillStyle
     := e_fillStyle e; e_strokeWidth := e_strokeWidth e; e_strokeStyle :=
     e_strokeStyle e; e_roughness := e_roughness e; e_opacity := e_opacity e;
     e_groupIds := e_groupIds e; e_frameId := e_frameId e; e_index := e_index
     e; e_roundness := e_roundness e; e_seed := e_seed e; e_version :=
     e_version e; e_versionNonce := e_versionNonce e; e_isDeleted :=
     e_isDeleted e; e_boundElements := e_boundElements e; e_updated :=
     e_updated e; e_link := e_link e; e_locked := e_locked e; e_text := e_text
     e; e_fontSize := e_fontSize e; e_fontFamily := e_fontFamily e;
     e_textAlign := e_textAlign e; e_verticalAlign := e_verticalAlign e;
     e_containerId := e_containerId e; e_originalText := e_originalText e;
     e_autoResize := v; e_points := e_points e; e_startBinding :=
     e_startBinding e; e_endBinding := e_endBinding e; e_startArrowhead :=
     e_startArrowhead e; e_endArrowhead := e_endArrowhead e; e_elbowed :=
     e_elbowed e |}.

Definition set_points (v : option (list point)) (e : element) : element :=
  {| e_id := e_id e; e_type := e_type e; e_x := e_x e; e_y := e_y e; e_width
     := e_width e; e_height := e_height e; e_angle := e_angle e; e_strokeColor
     := e_strokeColor e; e_backgroundColor := e_backgroundColor e; e_fillStyle
     := e_fillStyle e; e_strokeWidth := e_strokeWidth e; e_strokeStyle :=
     e_strokeStyle e; e_roughness := e_roughness e; e_opacity := e_opacity e;
     e_groupIds := e_groupIds e; e_frameId := e_frameId e; e_index := e_index
     e; e_roundness := e_roundness e; e_seed := e_seed e; e_version :=
     e_version e; e_versionNonce := e_versionNonce e; e_isDeleted :=
     e_isDeleted e; e_boundElements := e_boundElements e; e_updated :=
     e_updated e; e_link := e_link e; e_locked := e_locked e; e_text := e_text
     e; e_fontSize := e_fontSize e; e_fontFamily := e_fontFamily e;
     e_textAlign := e_textAlign e; e_verticalAlign := e_verticalAlign e;
     e_containerId := e_containerId e; e_originalText := e_originalText e;
     e_autoResize := e_autoResize e; e_points := v; e_startBinding :=
     e_startBinding e; e_endBinding := e_endBinding e; e_startArrowhead :=
     e_startArrowhead e; e_endArrowhead := e_endArrowhead e; e_elbowed :=
     e_elbowed e |}.

Definition set_startBinding (v : option binding) (e : element) : element :=
  {| e_id := e_id e; e_type := e_type e; e_x := e_x e; e_y := e_y e; e_width
     := e_width e; e_height := e_height e; e_angle := e_angle e; e_strokeColor
     := e_strokeColor e; e_backgroundColor := e_backgroundColor e; e_fillStyle
     := e_fillStyle e; e_strokeWidth := e_strokeWidth e; e_strokeStyle :=
     e_strokeStyle e; e_roughness := e_roughness e; e_opacity := e_opacity e;
     e_groupIds := e_groupIds e; e_frameId := e_frameId e; e_index := e_index
     e; e_roundness := e_roundness e; e_seed := e_seed e; e_version :=
     e_version e; e_versionNonce := e_versionNonce e; e_isDeleted :=
     e_isDeleted e; e_boundElements := e_boundElements e; e_updated :=
     e_updated e; e_link := e_link e; e_locked := e_locked e; e_text := e_text
     e; e_fontSize := e_fontSize e; e_fontFamily := e_fontFamily e;
     e_textAlign := e_textAlign e; e_verticalAlign := e_verticalAlign e;
     e_containerId := e_containerId e; e_originalText := e_originalText e;
     e_autoResize := e_autoResize e; e_points := e_points e; e_startBinding :=
     v; e_endBinding := e_endBinding e; e_startArrowhead := e_startArrowhead
     e; e_endArrowhead := e_endArrowhead e; e_elbowed := e_elbowed e |}.

Definition set_endBinding (v : option binding) (e : element) : element :=
  {| e_id := e_id e; e_type := e_type e; e_x := e_x e; e_y := e_y e; e_width
     := e_width e; e_height := e_height e; e_angle := e_angle e; e_strokeColor
     := e_strokeColor e; e_backgroundColor := e_backgroundColor e; e_fillStyle
     := e_fillStyle e; e_strokeWidth := e_strokeWidth e; e_strokeStyle :=
     e_strokeStyle e; e_roughness := e_roughness e; e_opacity := e_opacity e;
     e_groupIds := e_groupIds e; e_frameId := e_frameId e; e_index := e_index
     e; e_roundness := e_roundness e; e_seed := e_seed e; e_version :=
     e_version e; e_versionNonce := e_versionNonce e; e_isDeleted :=
     e_isDeleted e; e_boundElements := e_boundElements e; e_updated :=
     e_updated e; e_link := e_link e; e_locked := e_locked e; e_text := e_text
     e; e_fontSize := e_fontSize e; e_fontFamily := e_fontFamily e;
     e_textAlign := e_textAlign e; e_verticalAlign := e_verticalAlign e;
     e_containerId := e_containerId e; e_originalText := e_originalText e;
     e_autoResize := e_autoResize e; e_points := e_points e; e_startBinding :=
     e_startBinding e; e_endBinding := v; e_startArrowhead := e_startArrowhead
     e; e_endArrowhead := e_endArrowhead e; e_elbowed := e_elbowed e |}.

Definition set_startArrowhead (v : option string) (e : element) : element :=
  {| e_id := e_id e; e_type := e_type e; e_x := e_x e; e_y := e_y e; e_width
     := e_width e; e_height := e_height e; e_angle := e_angle e; e_strokeColor
     := e_strokeColor e; e_backgroundColor := e_backgroundColor e; e_fillStyle
     := e_fillStyle e; e_strokeWidth := e_strokeWidth e; e_strokeStyle :=
     e_strokeStyle e; e_roughness := e_roughness e; e_opacity := e_opacity e;
     e_groupIds := e_groupIds e; e_frameId := e_frameId e; e_index := e_index
     e; e_roundness := e_roundness e; e_seed := e_seed e; e_version :=
     e_version e; e_versionNonce := e_versionNonce e; e_isDeleted :=
     e_isDeleted e; e_boundElements := e_boundElements e; e_updated :=
     e_updated e; e_link := e_link e; e_locked := e_locked e; e_text := e_text
     e; e_fontSize := e_fontSize e; e_fontFamily := e_fontFamily e;
     e_textAlign := e_textAlign e; e_verticalAlign := e_verticalAlign e;
     e_containerId := e_containerId e; e_originalText := e_originalText e;
     e_autoResize := e_autoResize e; e_points := e_points e; e_startBinding :=
     e_startBinding e; e_endBinding := e_endBinding e; e_startArrowhead := v;
     e_endArrowhead := e_endArrowhead e; e_elbowed := e_elbowed e |}.

Definition set_endArrowhead (v : option string) (e : element) : element :=
  {| e_id := e_id e; e_type := e_type e; e_x := e_x e; e_y := e_y e; e_width
     := e_width e; e_height := e_height e; e_angle := e_angle e; e_strokeColor
     := e_strokeColor e; e_backgroundColor := e_backgroundColor e; e_fillStyle
     := e_fillStyle e; e_strokeWidth := e_strokeWidth e; e_strokeStyle :=
     e_strokeStyle e; e_roughness := e_roughness e; e_opacity := e_opacity e;
     e_groupIds := e_groupIds e; e_frameId := e_frameId e; e_index := e_index
     e; e_roundness := e_roundness e; e_seed := e_seed e; e_version :=
     e_version e; e_versionNonce := e_versionNonce e; e_isDeleted :=
     e_isDeleted e; e_boundElements := e_boundElements e; e_updated :=
     e_updated e; e_link := e_link e; e_locked := e_locked e; e_text := e_text
     e; e_fontSize := e_fontSize e; e_fontFamily := e_fontFamily e;
     e_textAlign := e_textAlign e; e_verticalAlign := e_verticalAlign e;
     e_containerId := e_containerId e; e_originalText := e_originalText e;
     e_autoResize := e_autoResize e; e_points := e_points e; e_startBinding :=
     e_startBinding e; e_endBinding := e_endBinding e; e_startArrowhead :=
     e_startArrowhead e; e_endArrowhead := v; e_elbowed := e_elbowed e |}.

Definition set_elbowed (v : option bool) (e : element) : element :=
  {| e_id := e_id e; e_type := e_type e; e_x := e_x e; e_y := e_y e; e_width
     := e_width e; e_height := e_height e; e_angle := e_angle e; e_strokeColor
     := e_strokeColor e; e_backgroundColor := e_backgroundColor e; e_fillStyle
     := e_fillStyle e; e_strokeWidth := e_strokeWidth e; e_strokeStyle :=
     e_strokeStyle e; e_roughness := e_roughness e; e_opacity := e_opacity e;
     e_groupIds := e_groupIds e; e_frameId := e_frameId e; e_index := e_index
     e; e_roundness := e_roundness e; e_seed := e_seed e; e_version :=
     e_version e; e_versionNonce := e_versionNonce e; e_isDeleted :=
     e_isDeleted e; e_boundElements := e_boundElements e; e_updated :=
     e_updated e; e_link := e_link e; e_locked := e_locked e; e_text := e_text
     e; e_fontSize := e_fontSize e; e_fontFamily := e_fontFamily e;
     e_textAlign := e_textAlign e; e_verticalAlign := e_verticalAlign e;
     e_containerId := e_containerId e; e_originalText := e_originalText e;
     e_autoResize := e_autoResize e; e_points := e_points e; e_startBinding :=
     e_startBinding e; e_endBinding := e_endBinding e; e_startArrowhead :=
     e_startArrowhead e; e_endArrowhead := e_endArrowhead e; e_elbowed := v |}.

(** String equality, Python's [==] on [str]. *)
Infix "==" := String.eqb (at level 70, no associativity).

(** ** Constants of [lib.py] *)

Definition ROUNDNESS_BY_TYPE (etype : string) : option Z :=
  if etype == "rectangle" then Some 3
  else if etype == "ellipse" then Some 2
  else if etype == "diamond" then Some 2
  else if etype == "text" then None
  else if etype == "line" then Some 2
  else None.

(** [EDGE_TO_FIXED_POINT.get(edge)]. *)
Definition EDGE_TO_FIXED_POINT (edge : string) : option (list num) :=
  if edge == "top" then Some [half; zq 0]
  else if edge == "bottom" then Some [half; zq 1]
  else if edge == "left" then Some [zq 0; half]
  else if edge == "right" then Some [zq 1; half]
  else None.

(** [FIXED_POINT_TO_EDGE.get(key)]. *)
Definition FIXED_POINT_TO_EDGE (key : num * num) : option string :=
  let (a, b) := key in
  if neqb a half && neqb b (zq 0) then Some "top"
  else if neqb a half && neqb b (zq 1) then Some "bottom"
  else if neqb a (zq 0) && neqb b half then Some "left"
  else if neqb a (zq 1) && neqb b half then Some "right"
  else None.

(** ** The store: positions as references *)

Definition mem (v : string) (l : list string) : bool := existsb (String.eqb v) l.

(** In-place mutation of the element a reference points to. *)
Fixpoint update_at (i : nat) (f : element -> element) (l : list element)
  : list element :=
  match l, i with
  | [], _ => []
  | e :: r, O => f e :: r
  | e :: r, S i' => e :: update_at i' f r
  end.

(** A Python truthiness test on an optional string. *)
Definition truthy (o : option string) : bool :=
  match o with
  | Some s => negb (s == "")
  | None => false
  end.

(** [element.get("boundElements") or []]. *)
Definition bound_list (e : element) : list bound_ref :=
  match e_boundElements e with
  | Some l => l
  | None => []
  end.

(** [normalize_bound_elements(element).append(item)]. *)
Definition append_bound (item : bound_ref) (e : element) : element :=
  set_boundElements (Some (bound_list e ++ [item])%list) e.

(** ** Randomness and time *)

(** [random.Random]: seeding and the primitive [_randbelow(n)], from which
    [randint(a, b) = a + _randbelow(b - a + 1)] and
    [choice(seq) = seq[_randbelow(len(seq))]] are derived. *)
Class RandomGen : Type := {
  rng_state : Type;
  rng_seed : Z -> rng_state;
  rng_below : rng_state -> Z -> Z * rng_state
}.

(** The value of the [k]-th call of [now_ms()]. *)
Definition clock : Type := nat -> Z.

Definition ID_CHARS : string := "abcdefghijklmnopqrstuvwxyz0123456789".

Definition id_char (k : Z) : ascii :=
  match String.get (Z.to_nat k) ID_CHARS with
  | Some c => c
  | None => "a"%char
  end.

Definition NONCE_MAX : Z := 2 ^ 31 - 1.

Section Core.

Context {G : RandomGen}.
Variable clk : clock.
Variable fuel : nat.

Definition randint (r : rng_state) (a b : Z) : Z * rng_state :=
  let (k, r') := rng_below r (b - a + 1) in (a + k, r').

(** The process: how many times the clock was read, and the module-level
    generator of [random]. *)
Record world : Type := { w_ticks : nat; w_random : rng_state }.

Definition now_ms (w : world) : Z * world :=
  (clk (w_ticks w), {| w_ticks := S (w_ticks w); w_random := w_random w |}).

(** *** [IdFactory] *)

Record IdFactory : Type := {
  f_rng : rng_state;
  f_next_rank : Z;
  f_ids : list string
}.

Definition IdFactory_init (seed : option Z) (start_index : Z)
  (existing_ids : list string) (w : world) : IdFactory * world :=
  let (seed_value, w') :=
    match seed with
    | Some v => (v, w)
    | None => now_ms w
    end in
  ({| f_rng := rng_seed seed_value; f_next_rank := start_index;
      f_ids := existing_ids |}, w').

Definition next_index (f : IdFactory) : result (string * IdFactory) :=
  do value <- index_for_rank (f_next_rank f);
  Ok (value, {| f_rng := f_rng f; f_next_rank := f_next_rank f + 1;
                f_ids := f_ids f |}).

Definition nonce (f : IdFactory) : Z * IdFactory :=
  let (v, r) := randint (f_rng f) 1 NONCE_MAX in
  (v, {| f_rng := r; f_next_rank := f_next_rank f; f_ids := f_ids f |}).

Fixpoint random_suffix (k : nat) (r : rng_state) : string * rng_state :=
  match k with
  | O => (EmptyString, r)
  | S k' =>
      let (i, r1) := rng_below r (Z.of_nat (String.length ID_CHARS)) in
      let (rest, r2) := random_suffix k' r1 in
      (String (id_char i) rest, r2)
  end.

(** [random_id]: the [while True] loop, one candidate per unit of fuel. *)
Fixpoint random_id_loop (n : nat) (prefix : string) (f : IdFactory)
  : result (string * IdFactory) :=
  match n with
  | O => OutOfFuel
  | S n' =>
      let (suffix, r) := random_suffix 12 (f_rng f) in
      let value := prefix ++ "-" ++ suffix in
      if mem value (f_ids f)
      then random_id_loop n' prefix
             {| f_rng := r; f_next_rank := f_next_rank f; f_ids := f_ids f |}
      else Ok (value, {| f_rng := r; f_next_rank := f_next_rank f;
                         f_ids := value :: f_ids f |})
  end.

Definition random_id (prefix : string) (f : IdFactory)
  : result (string * IdFactory) :=
  random_id_loop fuel prefix f.

Definition reserve_id (value : string) (f : IdFactory) : result IdFactory :=
  if mem value (f_ids f)
  then Raise ("duplicate element id: " ++ value)
  else Ok {| f_rng := f_rng f; f_next_rank := f_next_rank f;
             f_ids := value :: f_ids f |}.

(** *** The state a call works on: the element list, the factory, the process *)

Record state : Type := {
  st_elements : list element;
  st_ids : IdFactory;
  st_world : world
}.

Definition with_elements (els : list element) (s : state) : state :=
  {| st_elements := els; st_ids := st_ids s; st_world := st_world s |}.

(** Dereference.  The Python code only holds references to dicts that exist;
    [Raise] here is the embedding's answer to a position out of range. *)
Definition deref (els : list element) (i : nat) : result element :=
  match nth_error els i with
  | Some e => Ok e
  | None => Raise "invalid element reference"
  end.

(** *** [make_shape] *)

(** The dict literal of [make_shape], given the values its entries evaluate
    to. *)
Definition shape_dict (eid etype : string) (x y width height : num)
  (stroke background : string) (stroke_width : Z) (stroke_style : string)
  (roughness : Z) (idx : string) (roundness : option Z) (seed vnonce ts : Z)
  : element :=
  {| e_id := eid; e_type := etype; e_x := x; e_y := y;
     e_width := width; e_height := height; e_angle := zq 0;
     e_strokeColor := stroke; e_backgroundColor := background;
     e_fillStyle := "solid"; e_strokeWidth := stroke_width;
     e_strokeStyle := stroke_style; e_roughness := roughness;
     e_opacity := 100; e_groupIds := []; e_frameId := None;
     e_index := idx; e_roundness := roundness; e_seed := seed;
     e_version := 1; e_versionNonce := vnonce; e_isDeleted := false;
     e_boundElements := Some []; e_updated := ts; e_link := None;
     e_locked := false;
     e_text := None; e_fontSize := None; e_fontFamily := None;
     e_textAlign := None; e_verticalAlign := None; e_containerId := None;
     e_originalText := None; e_autoResize := None;
     e_points := None; e_startBinding := None; e_endBinding := None;
     e_startArrowhead := None; e_endArrowhead := None;
     e_elbowed := None |}.

Definition shape_roundness (etype : string) : option Z :=
  if etype == "arrow" then Some 2 else ROUNDNESS_BY_TYPE etype.

Definition make_shape (s : state) (etype : string) (x y width height : num)
  (stroke background : string) (stroke_width : Z) (stroke_style : string)
  (roughness : Z) (element_id : option string) : result (state * nat) :=
  let roundness := shape_roundness etype in
  do f0 <- match element_id with
           | Some v => reserve_id v (st_ids s)
           | None => Ok (st_ids s)
           end;
  do (eid, f1) <- match element_id with
                  | Some v => Ok (v, f0)
                  | None => random_id "el" f0
                  end;
  do (idx, f2) <- next_index f1;
  let (seed, f3) := nonce f2 in
  let (vnonce, f4) := nonce f3 in
  let (ts, w1) := now_ms (st_world s) in
  let elem :=
    shape_dict eid etype x y width height stroke background stroke_width
      stroke_style roughness idx roundness seed vnonce ts in
  Ok ({| st_elements := (st_elements s ++ [elem])%list; st_ids := f4;
         st_world := w1 |}, List.length (st_elements s)).

(** *** [make_text] *)

Definition make_text (s : state) (content : string) (x y width height : num)
  (container_id : option string) (font_size font_family : Z)
  (stroke : string) : result (state * nat) :=
  do (s1, t) <- make_shape s "text" x y width height stroke "transparent"
                  2 "solid" 1 None;
  let upd e :=
    set_autoResize (Some true)
      (set_originalText (Some content)
        (set_containerId container_id
          (set_verticalAlign
             (Some (if truthy container_id then "middle" else "top"))
            (set_textAlign (Some "center")
              (set_fontFamily (Some font_family)
                (set_fontSize (Some font_size)
                  (set_text (Some content)
                    (set_roundness None e)))))))) in
  Ok (with_elements (update_at t upd (st_elements s1)) s1, t).

(** *** [add_label] *)

Definition add_label (s : state) (shape : nat) (label : string)
  (font_size font_family : Z) (text_height : Z) : result (state * nat) :=
  do sh <- deref (st_elements s) shape;
  let text_width := nsub (e_width sh) (zq 10) in
  let text_x := nadd (e_x sh) (zq 5) in
  let text_y :=
    nadd (e_y sh) (ndiv (nsub (e_height sh) (zq text_height)) (zq 2)) in
  do (s1, t) <- make_text s label text_x text_y text_width (zq text_height)
                  (Some (e_id sh)) font_size font_family (e_strokeColor sh);
  do te <- deref (st_elements s1) t;
  Ok (with_elements
        (update_at shape
           (append_bound {| br_id := e_id te; br_type := "text" |})
           (st_elements s1)) s1, t).

(** *** Geometry: [edge_point], [route_points], [recalc_arrow_bounds] *)

Definition edge_point (shape : element) (edge : string) : result point :=
  let x := e_x shape in
  let y := e_y shape in
  let width := e_width shape in
  let height := e_height shape in
  if edge == "top" then Ok (nadd x (ndiv width (zq 2)), y)
  else if edge == "bottom" then Ok (nadd x (ndiv width (zq 2)), nadd y height)
  else if edge == "left" then Ok (x, nadd y (ndiv height (zq 2)))
  else if edge == "right" then Ok (nadd x width, nadd y (ndiv height (zq 2)))
  else Raise ("unsupported edge: " ++ edge).

Definition route_points (source_edge target_edge : string) (dx dy : num)
  : list point :=
  if (source_edge == "bottom") && (target_edge == "top") then
    if nltb (nabs dx) (zq 10) then [(zq 0, zq 0); (zq 0, dy)]
    else [(zq 0, zq 0); (dx, zq 0); (dx, dy)]
  else if (source_edge == "right") && (target_edge == "left") then
    if nltb (nabs dy) (zq 10) then [(zq 0, zq 0); (dx, zq 0)]
    else [(zq 0, zq 0); (zq 0, dy); (dx, dy)]
  else if (source_edge == "right") && (target_edge == "top") then
    [(zq 0, zq 0); (dx, zq 0); (dx, dy)]
  else if (source_edge == "left") && (target_edge == "right") then
    if nltb (nabs dy) (zq 10) then [(zq 0, zq 0); (dx, zq 0)]
    else [(zq 0, zq 0); (zq 0, dy); (dx, dy)]
  else [(zq 0, zq 0); (dx, dy)].

(** [min] and [max] of a non-empty list. *)
Definition list_min (a : num) (l : list num) : num := fold_left nmin l a.
Definition list_max (a : num) (l : list num) : num := fold_left nmax l a.

(** [arrow.get("points") or [[0, 0]]]. *)
Definition points_or (dflt : list point) (e : element) : list point :=
  match e_points e with
  | Some (p :: r) => p :: r
  | _ => dflt
  end.

Definition recalc_arrow_bounds (arrow : element) : element :=
  match points_or [(zq 0, zq 0)] arrow with
  | [] => arrow
  | p :: r =>
      let xs := map fst r in
      let ys := map snd r in
      set_height
        (nmax (nabs (list_min (snd p) ys)) (nabs (list_max (snd p) ys)))
        (set_width
           (nmax (nabs (list_min (fst p) xs)) (nabs (list_max (fst p) xs)))
           arrow)
  end.

(** *** [make_arrow] and [connect] *)

Definition new_binding (target_id : string) (edge : option string)
  : result binding :=
  let b := {| b_elementId := Some target_id; b_focus := zq 0; b_gap := zq 1;
              b_fixedPoint := None |} in
  if truthy edge then
    match EDGE_TO_FIXED_POINT (match edge with Some e => e | None => "" end) with
    | Some fp =>
        Ok {| b_elementId := Some target_id; b_focus := zq 0; b_gap := zq 1;
              b_fixedPoint := Some fp |}
    | None => Raise "KeyError"
    end
  else Ok b.

Definition make_arrow (s : state) (x y : num) (points : list point)
  (start_id end_id : option string) (stroke : string) (stroke_width : Z)
  (elbowed : bool) (source_edge target_edge : option string)
  : result (state * nat) :=
  do (s1, a) <- make_shape s "arrow" x y (zq 0) (zq 0) stroke "transparent"
                  stroke_width "solid" (if elbowed then 0 else 1) None;
  let els1 :=
    update_at a
      (fun e => recalc_arrow_bounds
                  (set_points (Some points)
                     (set_roundness (if elbowed then None else Some 2) e)))
      (st_elements s1) in
  do start_binding <-
     (if truthy start_id
      then do b <- new_binding (match start_id with Some v => v | None => "" end)
                     source_edge; Ok (Some b)
      else Ok None);
  do end_binding <-
     (if truthy end_id
      then do b <- new_binding (match end_id with Some v => v | None => "" end)
                     target_edge; Ok (Some b)
      else Ok None);
  let upd e :=
    set_elbowed (Some elbowed)
      (set_endArrowhead (Some "arrow")
        (set_startArrowhead None
          (set_endBinding end_binding
            (set_startBinding start_binding e)))) in
  Ok (with_elements (update_at a upd els1) s1, a).

Definition connect (s : state) (source target : nat)
  (source_edge target_edge : string) (stroke : string) (elbowed : bool)
  : result (state * nat) :=
  do src <- deref (st_elements s) source;
  do tgt <- deref (st_elements s) target;
  do (sx, sy) <- edge_point src source_edge;
  do (tx, ty) <- edge_point tgt target_edge;
  let dx := nsub tx sx in
  let dy := nsub ty sy in
  let points := route_points source_edge target_edge dx dy in
  do (s1, a) <- make_arrow s sx sy points (Some (e_id src)) (Some (e_id tgt))
                  stroke 2 elbowed (Some source_edge) (Some target_edge);
  do ar <- deref (st_elements s1) a;
  let item := {| br_id := e_id ar; br_type := "arrow" |} in
  let els2 := update_at source (append_bound item) (st_elements s1) in
  let els3 := update_at target (append_bound item) els2 in
  Ok (with_elements els3 s1, a).

(** *** Views of the element list *)

(** [active_elements]: the references of the elements not soft-deleted. *)
Fixpoint active_from (i : nat) (els : list element) : list nat :=
  match els with
  | [] => []
  | e :: r =>
      if e_isDeleted e then active_from (S i) r else i :: active_from (S i) r
  end.

Definition active_elements (els : list element) : list nat := active_from 0 els.

(** [build_id_index]: a dict comprehension, so the last element carrying an
    id is the one the id maps to. *)
Fixpoint index_from (i : nat) (els : list element) (k : string) : option nat :=
  match els with
  | [] => None
  | e :: r =>
      match index_from (S i) r k with
      | Some j => Some j
      | None => if e_id e == k then Some i else None
      end
  end.

Definition build_id_index (els : list element) : string -> option nat :=
  index_from 0 els.

(** [id_index.get(key)] for a key that may be [None]. *)
Definition index_get (idx : string -> option nat) (k : option string)
  : option nat :=
  match k with
  | Some v => idx v
  | None => None
  end.

Definition opt_eqb (o : option string) (v : string) : bool :=
  match o with
  | Some w => w == v
  | None => false
  end.

Definition is_text_of (container_id : string) (e : element) : bool :=
  (e_type e == "text") && opt_eqb (e_containerId e) container_id.

Fixpoint first_ref (p : element -> bool) (els : list element) (refs : list nat)
  : option nat :=
  match refs with
  | [] => None
  | i :: r =>
      match nth_error els i with
      | Some e => if p e then Some i else first_ref p els r
      | None => first_ref p els r
      end
  end.

Definition text_for_container (els : list element) (container_id : string)
  : option nat :=
  first_ref (is_text_of container_id) els (active_elements els).

Definition arrow_endpoints (arrow : element) : point * point :=
  let x := e_x arrow in
  let y := e_y arrow in
  let points := points_or [(zq 0, zq 0); (zq 0, zq 0)] arrow in
  let end_ := last points (zq 0, zq 0) in
  ((x, y), (nadd x (fst end_), nadd y (snd end_))).

(** [binding.get(key)] on [arrow.get("startBinding") or {}]. *)
Definition binding_elementId (b : option binding) : option string :=
  match b with
  | Some v => b_elementId v
  | None => None
  end.

Definition infer_edge_from_fixed_point (b : option binding) : option string :=
  match b with
  | Some v =>
      match b_fixedPoint v with
      | Some [a; c] => FIXED_POINT_TO_EDGE (a, c)
      | _ => None
      end
  | None => None
  end.

(** [list.sort(key=...)]: a stable sort, here by insertion. *)
Fixpoint insert_by {A} (le : A -> A -> bool) (a : A) (l : list A) : list A :=
  match l with
  | [] => [a]
  | b :: r => if le a b then a :: b :: r else b :: insert_by le a r
  end.

Fixpoint sort_by {A} (le : A -> A -> bool) (l : list A) : list A :=
  match l with
  | [] => []
  | a :: r => insert_by le a (sort_by le r)
  end.

Definition infer_edge_by_proximity (shape : element) (pt : point)
  : result string :=
  let (px, py) := pt in
  let dist edge :=
    do (ex, ey) <- edge_point shape edge;
    Ok (nadd (nabs (nsub px ex)) (nabs (nsub py ey)), edge) in
  do d1 <- dist "top";
  do d2 <- dist "bottom";
  do d3 <- dist "left";
  do d4 <- dist "right";
  match sort_by (fun a b => nleb (fst a) (fst b)) [d1; d2; d3; d4] with
  | d :: _ => Ok (snd d)
  | [] => Raise "IndexError"
  end.

(** [infer_edge_from_fixed_point(binding) or infer_edge_by_proximity(...)]. *)
Definition infer_edge (b : option binding) (shape : element) (pt : point)
  : result string :=
  match infer_edge_from_fixed_point b with
  | Some e => if e == "" then infer_edge_by_proximity shape pt else Ok e
  | None => infer_edge_by_proximity shape pt
  end.

(** *** [touch] *)

Definition touch (e : element) (factory : option IdFactory) (ts : option Z)
  (w : world) : element * option IdFactory * world :=
  let (t, w1) :=
    match ts with
    | Some v => (v, w)
    | None => now_ms w
    end in
  let e1 := set_version (e_version e + 1) (set_updated t e) in
  match factory with
  | None =>
      let (v, r) := randint (w_random w1) 1 NONCE_MAX in
      (set_versionNonce v e1, None,
       {| w_ticks := w_ticks w1; w_random := r |})
  | Some f =>
      let (v, f') := nonce f in
      (set_versionNonce v e1, Some f', w1)
  end.

(** *** [reroute_arrow] *)

(** [binding["fixedPoint"] = EDGE_TO_FIXED_POINT[edge]] when the edge is a
    key of the table. *)
Definition set_fixed_point (edge : string) (b : option binding)
  : option binding :=
  match EDGE_TO_FIXED_POINT edge, b with
  | Some fp, Some v =>
      Some {| b_elementId := b_elementId v; b_focus := b_focus v;
              b_gap := b_gap v; b_fixedPoint := Some fp |}
  | _, _ => b
  end.

(** Resolution of a binding to a live element. *)
Definition resolve (els : list element) (idx : string -> option nat)
  (b : option binding) : option element :=
  match index_get idx (binding_elementId b) with
  | Some i =>
      match nth_error els i with
      | Some e => if e_isDeleted e then None else Some e
      | None => None
      end
  | None => None
  end.

(** The body of [reroute_arrow] on the arrow and the two resolved ends: the
    arrow as the call leaves it, and the returned flag. *)
Definition reroute (arrow : element) (source target : option element)
  : result (element * bool) :=
  let start_binding := e_startBinding arrow in
  let end_binding := e_endBinding arrow in
  let (start_pt, end_pt) := arrow_endpoints arrow in
  match source, target with
  | Some src, Some tgt =>
      do source_edge <- infer_edge start_binding src start_pt;
      do target_edge <- infer_edge end_binding tgt end_pt;
      do (sx, sy) <- edge_point src source_edge;
      do (tx, ty) <- edge_point tgt target_edge;
      let dx := nsub tx sx in
      let dy := nsub ty sy in
      Ok (recalc_arrow_bounds
            (set_endBinding (set_fixed_point target_edge end_binding)
              (set_startBinding (set_fixed_point source_edge start_binding)
                (set_points (Some (route_points source_edge target_edge dx dy))
                  (set_y sy (set_x sx arrow))))), true)
  | Some src, None =>
      do source_edge <- infer_edge start_binding src start_pt;
      do (sx, sy) <- edge_point src source_edge;
      Ok (recalc_arrow_bounds
            (set_startBinding (set_fixed_point source_edge start_binding)
              (set_y sy (set_x sx arrow))), true)
  | None, Some tgt =>
      do target_edge <- infer_edge end_binding tgt end_pt;
      do (tx, ty) <- edge_point tgt target_edge;
      let new_end := (nsub tx (e_x arrow), nsub ty (e_y arrow)) in
      let points :=
        match e_points arrow with
        | Some (p :: q :: r) => removelast (p :: q :: r) ++ [new_end]
        | _ => [(zq 0, zq 0); new_end]
        end%list in
      Ok (recalc_arrow_bounds
            (set_endBinding (set_fixed_point target_edge end_binding)
              (set_points (Some points) arrow)), true)
  | None, None => Ok (arrow, false)
  end.

Definition reroute_arrow (els : list element) (idx : string -> option nat)
  (a : nat) : result (list element * bool) :=
  do arrow <- deref els a;
  let source := resolve els idx (e_startBinding arrow) in
  let target := resolve els idx (e_endBinding arrow) in
  do (arrow', changed) <- reroute arrow source target;
  Ok (update_at a (fun _ => arrow') els, changed).

(** *** [move_shape_and_dependents] *)

(** What the three passes thread: the elements, the factory, the process and
    [moved_arrow_ids]. *)
Record mover : Type := {
  m_elements : list element;
  m_ids : option IdFactory;
  m_world : world;
  m_moved : list string
}.

Definition touch_at (i : nat) (m : mover) : result mover :=
  do e <- deref (m_elements m) i;
  let '(e', f, w) := touch e (m_ids m) None (m_world m) in
  Ok {| m_elements := update_at i (fun _ => e') (m_elements m);
        m_ids := f; m_world := w; m_moved := m_moved m |}.

Definition translate_at (i : nat) (dx dy : num) (m : mover) : result mover :=
  do e <- deref (m_elements m) i;
  let e' := set_y (nadd (e_y e) dy) (set_x (nadd (e_x e) dx) e) in
  touch_at i {| m_elements := update_at i (fun _ => e') (m_elements m);
                m_ids := m_ids m; m_world := m_world m;
                m_moved := m_moved m |}.

(** One iteration of the loop over the active elements. *)
Definition move_arrow_step (idx : string -> option nat) (shape : nat)
  (m : mover) (a : nat) : result mover :=
  do arrow <- deref (m_elements m) a;
  if negb (e_type arrow == "arrow") then Ok m
  else
    do sh <- deref (m_elements m) shape;
    let start_match :=
      opt_eqb (binding_elementId (e_startBinding arrow)) (e_id sh) in
    let end_match :=
      opt_eqb (binding_elementId (e_endBinding arrow)) (e_id sh) in
    if start_match || end_match then
      do (els', changed) <- reroute_arrow (m_elements m) idx a;
      if changed then
        do m1 <- touch_at a {| m_elements := els'; m_ids := m_ids m;
                               m_world := m_world m; m_moved := m_moved m |};
        Ok {| m_elements := m_elements m1; m_ids := m_ids m1;
              m_world := m_world m1; m_moved := e_id arrow :: m_moved m1 |}
      else Ok {| m_elements := els'; m_ids := m_ids m; m_world := m_world m;
                 m_moved := m_moved m |}
    else Ok m.

(** One iteration of the loop over [shape["boundElements"]]. *)
Definition move_bound_step (idx : string -> option nat) (dx dy : num)
  (m : mover) (item : bound_ref) : result mover :=
  if negb (br_type item == "arrow") then Ok m
  else
    match idx (br_id item) with
    | None => Ok m
    | Some a =>
        do arrow <- deref (m_elements m) a;
        if mem (e_id arrow) (m_moved m) || e_isDeleted arrow then Ok m
        else translate_at a dx dy m
    end.

(** A [for] loop whose body may raise. *)
Fixpoint for_each {A S} (body : S -> A -> result S) (l : list A) (s : S)
  : result S :=
  match l with
  | [] => Ok s
  | a :: r => do s' <- body s a; for_each body r s'
  end.

Definition move_shape_and_dependents (els : list element) (shape : nat)
  (dx dy : num) (ids : option IdFactory) (w : world) : result mover :=
  let id_index := build_id_index els in
  let m0 := {| m_elements := els; m_ids := ids; m_world := w;
               m_moved := [] |} in
  do m1 <- translate_at shape dx dy m0;
  do sh <- deref (m_elements m1) shape;
  do m2 <- match text_for_container (m_elements m1) (e_id sh) with
           | Some label => translate_at label dx dy m1
           | None => Ok m1
           end;
  do m3 <- for_each (move_arrow_step id_index shape)
             (active_elements (m_elements m2)) m2;
  do sh3 <- deref (m_elements m3) shape;
  for_each (move_bound_step id_index dx dy) (bound_list sh3) m3.

End Core.

(** ** Compact specs ([build.py], [spec.py])

    A spec is typed: a key is absent ([None]) or holds a value of the type the
    code converts it to, so the [isinstance] checks of [_require_list] and
    [_read_style] always pass. *)

Record style_spec : Type := {
  sty_fontFamily : option Z;
  sty_roughness : option Z
}.

Record node_spec : Type := {
  n_id : option string;
  n_type : option string;
  n_x : option num;
  n_y : option num;
  n_width : option num;
  n_height : option num;
  n_label : option string;
  n_stroke : option string;
  n_background : option string;
  n_strokeWidth : option Z;
  n_strokeStyle : option string;
  n_roughness : option Z;
  n_fontSize : option Z;
  n_fontFamily : option Z
}.

Record edge_spec : Type := {
  g_from : option string;
  g_to : option string;
  g_fromEdge : option string;
  g_toEdge : option string;
  g_stroke : option string;
  g_elbowed : option bool;
  g_label : option string;
  g_fontSize : option Z;
  g_fontFamily : option Z
}.

Record spec : Type := {
  sp_seed : option Z;
  sp_nodes : list node_spec;
  sp_edges : list edge_spec;
  sp_updated : option Z;
  sp_style : option style_spec
}.

Record app_state : Type := {
  gridSize : Z;
  gridStep : Z;
  gridModeEnabled : bool;
  viewBackgroundColor : string
}.

Record document : Type := {
  d_type : string;
  d_version : Z;
  d_source : string;
  d_elements : list element;
  d_appState : app_state;
  d_files : list (string * string)
}.

Definition DEFAULT_APP_STATE : app_state :=
  {| gridSize := 20; gridStep := 5; gridModeEnabled := false;
     viewBackgroundColor := "#ffffff" |}.

Definition new_document (elements : list element) : document :=
  {| d_type := "excalidraw"; d_version := 2;
     d_source := "https://excalidraw.com"; d_elements := elements;
     d_appState := DEFAULT_APP_STATE; d_files := [] |}.

(** [dict.get(key, default)]. *)
Definition get_or {A} (o : option A) (d : A) : A :=
  match o with
  | Some v => v
  | None => d
  end.

Definition VALID_SHAPES (t : string) : bool :=
  (t == "rectangle") || (t == "ellipse") || (t == "diamond").

(** [aliases]: the dict from a node alias to its shape. *)
Fixpoint alias_get (aliases : list (string * nat)) (k : string) : option nat :=
  match aliases with
  | [] => None
  | (a, i) :: r => if a == k then Some i else alias_get r k
  end.

Section Build.

Context {G : RandomGen}.
Variable clk : clock.
Variable fuel : nat.

Definition _read_style (sp : spec) : Z * Z :=
  match sp_style sp with
  | Some st => (get_or (sty_fontFamily st) 1, get_or (sty_roughness st) 1)
  | None => (1, 1)
  end.

(** The body of the loop over [nodes]. *)
Definition build_node (style : Z * Z) (acc : state * list (string * nat))
  (node : node_spec) : result (state * list (string * nat)) :=
  let (s, aliases) := acc in
  match n_id node with
  | None => Raise "nodes[idx].id must be a non-empty string"
  | Some alias =>
      if alias == "" then Raise "nodes[idx].id must be a non-empty string"
      else
        match alias_get aliases alias with
        | Some _ => Raise ("duplicate node id: " ++ alias)
        | None =>
            let ntype := get_or (n_type node) "rectangle" in
            if negb (VALID_SHAPES ntype)
            then Raise "nodes[idx].type must be one of: diamond, ellipse, rectangle"
            else
              let x := get_or (n_x node) (zq 0) in
              let y := get_or (n_y node) (zq 0) in
              let width := get_or (n_width node) (zq 200) in
              let height := get_or (n_height node) (zq 80) in
              let stroke := get_or (n_stroke node) "#1e1e1e" in
              let background := get_or (n_background node) "transparent" in
              let stroke_width := get_or (n_strokeWidth node) 2 in
              let stroke_style := get_or (n_strokeStyle node) "solid" in
              let roughness := get_or (n_roughness node) (snd style) in
              do (s1, shape) <- make_shape clk fuel s ntype x y width height
                                  stroke background stroke_width stroke_style
                                  roughness (Some alias);
              let aliases1 := ((alias, shape) :: aliases)%list in
              if truthy (n_label node) then
                do (s2, _) <- add_label clk fuel s1 shape
                                (get_or (n_label node) "")
                                (get_or (n_fontSize node) 20)
                                (get_or (n_fontFamily node) (fst style)) 25;
                Ok (s2, aliases1)
              else Ok (s1, aliases1)
        end
  end.

(** The body of the loop over [edges]. *)
Definition build_edge (style : Z * Z) (aliases : list (string * nat))
  (s : state) (edge : edge_spec) : result state :=
  match index_get (alias_get aliases) (g_from edge) with
  | None => Raise "edges[idx].from references unknown node"
  | Some src =>
      match index_get (alias_get aliases) (g_to edge) with
      | None => Raise "edges[idx].to references unknown node"
      | Some dst =>
          do (s1, a) <- connect clk fuel s src dst
                          (get_or (g_fromEdge edge) "bottom")
                          (get_or (g_toEdge edge) "top")
                          (get_or (g_stroke edge) "#1e1e1e")
                          (get_or (g_elbowed edge) false);
          if truthy (g_label edge) then
            do arrow <- deref (st_elements s1) a;
            let end_ := last (get_or (e_points arrow) []) (zq 0, zq 0) in
            let label_x :=
              nsub (nadd (e_x arrow) (ndiv (fst end_) (zq 2))) (zq 35) in
            let label_y :=
              nsub (nadd (e_y arrow) (ndiv (snd end_) (zq 2))) (zq 10) in
            do (s2, _) <- make_text clk fuel s1 (get_or (g_label edge) "")
                            label_x label_y (zq 70) (zq 20) None
                            (get_or (g_fontSize edge) 14)
                            (get_or (g_fontFamily edge) (fst style))
                            (get_or (g_stroke edge) "#1e1e1e");
            Ok s2
          else Ok s1
      end
  end.

(** [build]: the elements, the factory and the process as the call leaves
    them. *)
Definition build_state (w : world) (sp : spec) : result state :=
  let style := _read_style sp in
  let (ids, w0) := IdFactory_init clk (Some (get_or (sp_seed sp) 42)) 0 [] w in
  let s0 := {| st_elements := []; st_ids := ids; st_world := w0 |} in
  do (s1, aliases) <- for_each (build_node style) (sp_nodes sp) (s0, []);
  do s2 <- for_each (build_edge style aliases) (sp_edges sp) s1;
  match sp_updated sp with
  | Some updated_ts =>
      Ok (with_elements (map (set_updated updated_ts) (st_elements s2)) s2)
  | None => Ok s2
  end.

Definition build (w : world) (sp : spec) : result document :=
  do s <- build_state w sp;
  Ok (new_document (st_elements s)).

End Build.

(** ** Extraction ([spec.py])

    Extraction only reads the elements, so it works on their values:
    [active_values] is [active_elements] dereferenced. *)

Definition is_space (c : ascii) : bool :=
  let n := nat_of_ascii c in
  ((9 <=? n) && (n <=? 13) || (28 <=? n) && (n <=? 32))%nat.

Fixpoint lstrip (s : string) : string :=
  match s with
  | EmptyString => EmptyString
  | String c r => if is_space c then lstrip r else s
  end.

Fixpoint rstrip (s : string) : string :=
  match s with
  | EmptyString => EmptyString
  | String c r =>
      match rstrip r with
      | EmptyString => if is_space c then EmptyString else String c EmptyString
      | r' => String c r'
      end
  end.

(** [str.strip()], on ASCII white space. *)
Definition strip (s : string) : string := rstrip (lstrip s).

(** [s or None] for a string. *)
Definition nonempty (s : string) : option string :=
  if s == "" then None else Some s.

Definition NODE_TYPES (t : string) : bool :=
  (t == "rectangle") || (t == "ellipse") || (t == "diamond").

Definition DEFAULT_NODE_STROKE : string := "#1e1e1e".
Definition DEFAULT_NODE_BACKGROUND : string := "transparent".
Definition DEFAULT_EDGE_STROKE : string := "#1e1e1e".

Definition active_values (els : list element) : list element :=
  filter (fun e => negb (e_isDeleted e)) els.

(** [id_index.get(key)], dereferenced. *)
Definition index_value (els : list element) (k : option string)
  : option element :=
  match index_get (build_id_index els) k with
  | Some i => nth_error els i
  | None => None
  end.

(** [_find_bound_labels]: the dict, as the function from a key to its value;
    a later text of the same container overwrites an earlier one. *)
Definition _find_bound_labels (els : list element) : string -> option element :=
  fold_left
    (fun (labels : string -> option element) elem =>
       if negb (e_type elem == "text") then labels
       else
         match e_containerId elem with
         | Some container_id =>
             if container_id == "" then labels
             else fun k => if k == container_id then Some elem else labels k
         | None => labels
         end)
    (active_values els) (fun _ => None).

Definition _standalone_texts (els : list element) : list element :=
  filter (fun elem => (e_type elem == "text") && negb (truthy (e_containerId elem)))
    (active_values els).

Definition _text_center (text : element) : point :=
  (nadd (e_x text) (ndiv (e_width text) (zq 2)),
   nadd (e_y text) (ndiv (e_height text) (zq 2))).

(** Present only when it differs from the default. *)
Definition unless_default {A} (eqb : A -> A -> bool) (dflt v : A) : option A :=
  if eqb v dflt then None else Some v.

Definition _extract_node (shape : element) (label : option string) : node_spec :=
  {| n_id := Some (e_id shape);
     n_type := Some (e_type shape);
     n_x := Some (e_x shape);
     n_y := Some (e_y shape);
     n_width := Some (e_width shape);
     n_height := Some (e_height shape);
     n_label := if truthy label then label else None;
     n_stroke := unless_default String.eqb DEFAULT_NODE_STROKE (e_strokeColor shape);
     n_background :=
       unless_default String.eqb DEFAULT_NODE_BACKGROUND (e_backgroundColor shape);
     n_strokeWidth := unless_default Z.eqb 2 (e_strokeWidth shape);
     n_strokeStyle := unless_default String.eqb "solid" (e_strokeStyle shape);
     n_roughness := unless_default Z.eqb 1 (e_roughness shape);
     n_fontSize := None;
     n_fontFamily := None |}.

Definition nmul (a b : num) : num := Qcmult a b.

(** The square of the Euclidean distance: [dist] is only ever compared, and
    the comparisons are made on the squares. *)
Definition dist2 (p q : point) : num :=
  nadd (nmul (nsub (fst p) (fst q)) (nsub (fst p) (fst q)))
       (nmul (nsub (snd p) (snd q)) (nsub (snd p) (snd q))).

Definition MAX_DISTANCE2 : num := zq (64 * 64).

(** The loop of [_infer_arrow_label] over the standalone texts. *)
Fixpoint nearest_text (midpoint : point) (used_ids : list string)
  (texts : list element) (best : option (num * element))
  : option (num * element) :=
  match texts with
  | [] => best
  | text :: r =>
      let text_id := e_id text in
      if (text_id == "") || mem text_id used_ids
      then nearest_text midpoint used_ids r best
      else
        let dist := dist2 (_text_center text) midpoint in
        if nltb MAX_DISTANCE2 dist then nearest_text midpoint used_ids r best
        else
          match best with
          | None => nearest_text midpoint used_ids r (Some (dist, text))
          | Some (d, _) =>
              if nltb dist d
              then nearest_text midpoint used_ids r (Some (dist, text))
              else nearest_text midpoint used_ids r best
          end
  end.

Definition _infer_arrow_label (arrow : element) (standalone_texts : list element)
  (used_ids : list string) : option string * list string :=
  let (start, end_) := arrow_endpoints arrow in
  let midpoint := (ndiv (nadd (fst start) (fst end_)) (zq 2),
                   ndiv (nadd (snd start) (snd end_)) (zq 2)) in
  match nearest_text midpoint used_ids standalone_texts None with
  | None => (None, used_ids)
  | Some (_, text) =>
      let text_id := e_id text in
      let used := if text_id == "" then used_ids else text_id :: used_ids in
      (nonempty (strip (get_or (e_text text) "")), used)
  end.

(** Lexicographic order of sort keys. *)
Definition then_cmp (c d : comparison) : comparison :=
  match c with
  | Eq => d
  | _ => c
  end.

Definition cmp_le (c : comparison) : bool :=
  match c with
  | Gt => false
  | _ => true
  end.

Definition node_key_le (a b : node_spec) : bool :=
  cmp_le
    (then_cmp (Qccompare (get_or (n_y a) (zq 0)) (get_or (n_y b) (zq 0)))
      (then_cmp (Qccompare (get_or (n_x a) (zq 0)) (get_or (n_x b) (zq 0)))
        (String.compare (get_or (n_id a) "") (get_or (n_id b) "")))).

(** [edge_sort_key]; [id_index[...]] raises [KeyError] on a missing key. *)
Definition edge_sort_key (els : list element) (edge : edge_spec)
  : result (num * num * num * num * string * string) :=
  match index_value els (g_from edge), index_value els (g_to edge) with
  | Some source, Some target =>
      Ok (e_y source, e_x source, e_y target, e_x target,
          get_or (g_from edge) "", get_or (g_to edge) "")
  | _, _ => Raise "KeyError"
  end.

Definition edge_key_le (a b : num * num * num * num * string * string) : bool :=
  let '(sy1, sx1, ty1, tx1, f1, t1) := a in
  let '(sy2, sx2, ty2, tx2, f2, t2) := b in
  cmp_le
    (then_cmp (Qccompare sy1 sy2)
      (then_cmp (Qccompare sx1 sx2)
        (then_cmp (Qccompare ty1 ty2)
          (then_cmp (Qccompare tx1 tx2)
            (then_cmp (String.compare f1 f2) (String.compare t1 t2)))))).

(** The body of the loop of [_extract_edges] over the active elements. *)
Definition extract_edge (els : list element) (standalone_texts : list element)
  (acc : list edge_spec * list string) (elem : element)
  : result (list edge_spec * list string) :=
  let (edges, used_text_ids) := acc in
  if negb (e_type elem == "arrow") then Ok acc
  else
    let start_binding := e_startBinding elem in
    let end_binding := e_endBinding elem in
    let start_id := binding_elementId start_binding in
    let end_id := binding_elementId end_binding in
    match index_value els start_id, index_value els end_id with
    | Some source, Some target =>
        if negb (NODE_TYPES (e_type source)) || negb (NODE_TYPES (e_type target))
        then Ok acc
        else
          let (start_pt, end_pt) := arrow_endpoints elem in
          do from_edge <- infer_edge start_binding source start_pt;
          do to_edge <- infer_edge end_binding target end_pt;
          let (label, used') :=
            _infer_arrow_label elem standalone_texts used_text_ids in
          let edge :=
            {| g_from := start_id;
               g_to := end_id;
               g_fromEdge := Some from_edge;
               g_toEdge := Some to_edge;
               g_stroke :=
                 unless_default String.eqb DEFAULT_EDGE_STROKE (e_strokeColor elem);
               g_elbowed := if get_or (e_elbowed elem) false then Some true else None;
               g_label := if truthy label then label else None;
               g_fontSize := None;
               g_fontFamily := None |} in
          Ok ((edges ++ [edge])%list, used')
    | _, _ => Ok acc
    end.

Definition _extract_edges (els : list element) (standalone_texts : list element)
  : result (list edge_spec) :=
  do (edges, _) <- for_each (extract_edge els standalone_texts)
                     (active_values els) ([], []);
  do keyed <- for_each
                (fun acc edge =>
                   do k <- edge_sort_key els edge; Ok (acc ++ [(k, edge)])%list)
                edges [];
  Ok (map snd (sort_by (fun a b => edge_key_le (fst a) (fst b)) keyed)).

Definition diagram_to_spec (data : document) (existing_spec : option spec)
  : result spec :=
  let elements := d_elements data in
  let labels := _find_bound_labels elements in
  let nodes :=
    map (fun elem =>
           let label :=
             match labels (e_id elem) with
             | Some label_elem => nonempty (strip (get_or (e_text label_elem) ""))
             | None => None
             end in
           _extract_node elem label)
        (filter (fun elem => NODE_TYPES (e_type elem)) (active_values elements)) in
  let nodes := sort_by node_key_le nodes in
  let standalone := _standalone_texts elements in
  do edges <- _extract_edges elements standalone;
  Ok {| sp_seed :=
          Some (get_or (match existing_spec with
                        | Some ex => sp_seed ex
                        | None => None
                        end) 42);
        sp_nodes := nodes;
        sp_edges := edges;
        sp_updated :=
          match existing_spec with
          | Some ex => sp_updated ex
          | None => None
          end;
        sp_style := None |}.

(** ** Edits ([edit.py])

    A command loads a document, mutates it in place and saves it; here it
    maps the loaded document to the saved one.  [str.lower()] is taken on
    ASCII letters. *)

Definition lower_char (c : ascii) : ascii :=
  let n := nat_of_ascii c in
  if ((65 <=? n) && (n <=? 90))%nat then ascii_of_nat (n + 32) else c.

Fixpoint lower (s : string) : string :=
  match s with
  | EmptyString => EmptyString
  | String c r => String (lower_char c) (lower r)
  end.

(** [needle in haystack]. *)
Fixpoint contains (needle haystack : string) : bool :=
  String.prefix needle haystack ||
  match haystack with
  | EmptyString => false
  | String _ r => contains needle r
  end.

(** The references of a comprehension [[elem for elem in elements if p(elem)]]. *)
Fixpoint refs_from (i : nat) (p : element -> bool) (els : list element)
  : list nat :=
  match els with
  | [] => []
  | e :: r => if p e then i :: refs_from (S i) p r else refs_from (S i) p r
  end.

Definition refs_where (p : element -> bool) (els : list element) : list nat :=
  refs_from 0 p els.

(** [next((c for c in elements if p(c)), None)]. *)
Definition first_where (p : element -> bool) (els : list element) : option nat :=
  hd_error (refs_where p els).

Section Edit.

Context {G : RandomGen}.
Variable clk : clock.
Variable fuel : nat.

Definition _build_factory (els : list element) (w : world) : IdFactory * world :=
  IdFactory_init clk None (Z.of_nat (List.length els)) (map e_id els) w.

(** The loop of [_match_text]; [partial] is [(partial_shape, partial_text)]. *)
Fixpoint match_loop (els : list element) (label_norm : string)
  (refs : list nat) (partial : option (option nat * nat))
  : option nat * option nat :=
  match refs with
  | [] =>
      match partial with
      | Some (sh, t) => (sh, Some t)
      | None => (None, None)
      end
  | i :: r =>
      match nth_error els i with
      | None => match_loop els label_norm r partial
      | Some elem =>
          if e_isDeleted elem || negb (e_type elem == "text")
          then match_loop els label_norm r partial
          else
            let text_value := strip (get_or (e_text elem) "") in
            if text_value == "" then match_loop els label_norm r partial
            else
              let container :=
                match e_containerId elem with
                | Some container_id =>
                    if container_id == "" then None
                    else first_where
                           (fun c => (e_id c == container_id)
                                     && negb (e_isDeleted c)) els
                | None => None
                end in
              if lower text_value == label_norm then (container, Some i)
              else if contains label_norm (lower text_value)
                   then match partial with
                        | None => match_loop els label_norm r
                                    (Some (container, i))
                        | Some _ => match_loop els label_norm r partial
                        end
                   else match_loop els label_norm r partial
      end
  end.

Definition _match_text (els : list element) (label : string)
  : option nat * option nat :=
  match_loop els (strip (lower label)) (seq 0 (List.length els)) None.

Definition _required_shape_by_label (els : list element) (label : string)
  : result nat :=
  match _match_text els label with
  | (_, None) => Raise ("could not find label: " ++ label)
  | (None, Some _) =>
      Raise ("label is standalone text, not a shape label: " ++ label)
  | (Some shape, Some _) => Ok shape
  end.

Definition _required_text_by_label (els : list element) (label : string)
  : result nat :=
  match _match_text els label with
  | (_, None) => Raise ("could not find label: " ++ label)
  | (_, Some text) => Ok text
  end.

Definition with_doc_elements (els : list element) (d : document) : document :=
  {| d_type := d_type d; d_version := d_version d; d_source := d_source d;
     d_elements := els; d_appState := d_appState d; d_files := d_files d |}.

Definition cmd_move (data : document) (w : world) (label : string)
  (dx dy : num) : result document :=
  let elements := d_elements data in
  let (factory, w1) := _build_factory elements w in
  do shape <- _required_shape_by_label elements label;
  do m <- move_shape_and_dependents clk elements shape dx dy (Some factory) w1;
  Ok (with_doc_elements (m_elements m) data).

Definition cmd_relabel (data : document) (w : world) (label text : string)
  : result document :=
  let elements := d_elements data in
  let (factory, w1) := _build_factory elements w in
  do t <- _required_text_by_label elements label;
  do e <- deref elements t;
  let e1 := set_originalText (Some text) (set_text (Some text) e) in
  let '(e2, _, _) := touch clk e1 (Some factory) None w1 in
  Ok (with_doc_elements (update_at t (fun _ => e2) elements) data).

Definition cmd_recolor (data : document) (w : world) (label : string)
  (stroke background : option string) : result document :=
  let elements := d_elements data in
  let (factory, w1) := _build_factory elements w in
  do shape <- _required_shape_by_label elements label;
  do e <- deref elements shape;
  let e1 := if truthy stroke then set_strokeColor (get_or stroke "") e else e in
  let e2 :=
    if truthy background then set_backgroundColor (get_or background "") e1
    else e1 in
  let '(e3, f1, w2) := touch clk e2 (Some factory) None w1 in
  let els1 := update_at shape (fun _ => e3) elements in
  match first_where
          (fun elem => negb (e_isDeleted elem) && (e_type elem == "text")
                       && opt_eqb (e_containerId elem) (e_id e3)) els1 with
  | Some t =>
      if truthy stroke then
        do te <- deref els1 t;
        let '(te1, _, _) :=
          touch clk (set_strokeColor (get_or stroke "") te) f1 None w2 in
        Ok (with_doc_elements (update_at t (fun _ => te1) els1) data)
      else Ok (with_doc_elements els1 data)
  | None => Ok (with_doc_elements els1 data)
  end.

(** The body of the loop of [cmd_delete] over [targets]. *)
Definition delete_step (m : mover) (i : nat) : result mover :=
  do e <- deref (m_elements m) i;
  if e_isDeleted e then Ok m
  else
    touch_at clk i
      {| m_elements := update_at i (set_isDeleted true) (m_elements m);
         m_ids := m_ids m; m_world := m_world m; m_moved := m_moved m |}.

Definition cmd_delete (data : document) (w : world) (label : string)
  : result document :=
  let elements := d_elements data in
  let (factory, w1) := _build_factory elements w in
  match _match_text elements label with
  | (_, None) => Raise ("could not find label: " ++ label)
  | (shape, Some text) =>
      do targets <-
         match shape with
         | Some sh =>
             do she <- deref elements sh;
             Ok ([sh]
                 ++ refs_where
                      (fun elem => negb (e_isDeleted elem)
                                   && (e_type elem == "text")
                                   && opt_eqb (e_containerId elem) (e_id she))
                      elements
                 ++ refs_where
                      (fun elem => negb (e_isDeleted elem)
                                   && (e_type elem == "arrow")
                                   && (opt_eqb (binding_elementId (e_startBinding elem))
                                               (e_id she)
                                       || opt_eqb (binding_elementId (e_endBinding elem))
                                                  (e_id she)))
                      elements)%list
         | None => Ok [text]
         end;
      do m <- for_each delete_step targets
                {| m_elements := elements; m_ids := Some factory;
                   m_world := w1; m_moved := [] |};
      Ok (with_doc_elements (m_elements m) data)
  end.

Definition cmd_add_box (data : option document) (w : world) (label : string)
  (x y width height : num) (stroke background : string)
  (font_size font_family : Z) (dashed crisp : bool) : result document :=
  let data0 :=
    match data with
    | Some d => if d_type d == "excalidraw" then d else new_document (d_elements d)
    | None => new_document []
    end in
  let elements := d_elements data0 in
  let (factory, w1) := _build_factory elements w in
  let s0 := {| st_elements := elements; st_ids := factory; st_world := w1 |} in
  do (s1, shape) <- make_shape clk fuel s0 "rectangle" x y width height
                      stroke background 2
                      (if dashed then "dashed" else "solid")
                      (if crisp then 0 else 1) None;
  do (s2, _) <- add_label clk fuel s1 shape label font_size font_family 25;
  Ok (with_doc_elements (st_elements s2) data0).

Definition cmd_connect (data : document) (w : world)
  (from_label to_label from_edge to_edge stroke : string) (elbowed : bool)
  (label : option string) (font_size font_family : Z) : result document :=
  let elements := d_elements data in
  let (factory, w1) := _build_factory elements w in
  do source <- _required_shape_by_label elements from_label;
  do target <- _required_shape_by_label elements to_label;
  let s0 := {| st_elements := elements; st_ids := factory; st_world := w1 |} in
  do (s1, a) <- connect clk fuel s0 source target from_edge to_edge stroke
                  elbowed;
  if truthy label then
    do arrow <- deref (st_elements s1) a;
    let end_ := last (get_or (e_points arrow) []) (zq 0, zq 0) in
    let label_x := nsub (nadd (e_x arrow) (ndiv (fst end_) (zq 2))) (zq 35) in
    let label_y := nsub (nadd (e_y arrow) (ndiv (snd end_) (zq 2))) (zq 10) in
    do (s2, _) <- make_text clk fuel s1 (get_or label "") label_x label_y
                    (zq 70) (zq 20) None font_size font_family stroke;
    Ok (with_doc_elements (st_elements s2) data)
  else Ok (with_doc_elements (st_elements s1) data).

End Edit.

(** ** Normal forms of the constructors

    What [make_shape] draws from the factory, in the order it draws it: the
    id (reserved or sampled), the order index and the two nonces.  The
    constructors are characterised below as one allocation followed by one
    append and, for a label or an arrow, the back-references. *)

Section Allocation.

Context {G : RandomGen}.
Variable fuel : nat.

Definition allocate (f : IdFactory) (element_id : option string)
  : result (string * string * Z * Z * IdFactory) :=
  do f0 <- match element_id with
           | Some v => reserve_id v f
           | None => Ok f
           end;
  do (eid, f1) <- match element_id with
                  | Some v => Ok (v, f0)
                  | None => random_id fuel "el" f0
                  end;
  do (idx, f2) <- next_index f1;
  let (seed, f3) := nonce f2 in
  let (vnonce, f4) := nonce f3 in
  Ok (eid, idx, seed, vnonce, f4).

(** The process after one reading of the clock. *)
Definition tick (w : world) : world :=
  {| w_ticks := S (w_ticks w); w_random := w_random w |}.

End Allocation.

(** The text dict [make_text] leaves in the list. *)
Definition text_dict (eid content : string) (x y width height : num)
  (container_id : option string) (font_size font_family : Z) (stroke : string)
  (idx : string) (seed vnonce ts : Z) : element :=
  set_autoResize (Some true)
    (set_originalText (Some content)
      (set_containerId container_id
        (set_verticalAlign
           (Some (if truthy container_id then "middle" else "top"))
          (set_textAlign (Some "center")
            (set_fontFamily (Some font_family)
              (set_fontSize (Some font_size)
                (set_text (Some content)
                  (set_roundness None
                    (shape_dict eid "text" x y width height stroke
                       "transparent" 2 "solid" 1 idx
                       (shape_roundness "text") seed vnonce ts))))))))).

(** The arrow dict [make_arrow] leaves in the list. *)
Definition arrow_dict (eid : string) (x y : num) (points : list point)
  (start_binding end_binding : option binding) (stroke : string)
  (stroke_width : Z) (elbowed : bool) (idx : string) (seed vnonce ts : Z)
  : element :=
  set_elbowed (Some elbowed)
    (set_endArrowhead (Some "arrow")
      (set_startArrowhead None
        (set_endBinding end_binding
          (set_startBinding start_binding
            (recalc_arrow_bounds
              (set_points (Some points)
                (set_roundness (if elbowed then None else Some 2)
                  (shape_dict eid "arrow" x y (zq 0) (zq 0) stroke
                     "transparent" stroke_width "solid"
                     (if elbowed then 0 else 1) idx
                     (shape_roundness "arrow") seed vnonce ts)))))))).

(** The binding [make_arrow] builds for an end attached to [target_id] on a
    named edge; none when the id is empty. *)
Definition bind_to (target_id edge : string) : option binding :=
  if target_id == "" then None
  else Some {| b_elementId := Some target_id; b_focus := zq 0; b_gap := zq 1;
               b_fixedPoint := EDGE_TO_FIXED_POINT edge |}.

(** ** Fixtures

    A small linear congruential generator stands in for [random.Random]
    wherever an example has to run. *)

#[local] Instance lcg : RandomGen := {|
  rng_state := Z;
  rng_seed := fun seed => seed mod 2147483648;
  rng_below := fun r n =>
    let r' := (1103515245 * r + 12345) mod 2147483648 in (r' mod n, r')
|}.

Definition world0 : world := {| w_ticks := 0; w_random := rng_seed 7 |}.

(** An element dict with every key of [make_shape], as a loaded file has it. *)
Definition plain_element (eid etype : string) (x y width height : Z) : element :=
  {| e_id := eid; e_type := etype; e_x := zq x; e_y := zq y;
     e_width := zq width; e_height := zq height; e_angle := zq 0;
     e_strokeColor := "#1e1e1e"; e_backgroundColor := "transparent";
     e_fillStyle := "solid"; e_strokeWidth := 2; e_strokeStyle := "solid";
     e_roughness := 1; e_opacity := 100; e_groupIds := []; e_frameId := None;
     e_index := "a0"; e_roundness := None; e_seed := 1; e_version := 1;
     e_versionNonce := 1; e_isDeleted := false; e_boundElements := Some [];
     e_updated := 0; e_link := None; e_locked := false;
     e_text := None; e_fontSize := None; e_fontFamily := None;
     e_textAlign := None; e_verticalAlign := None; e_containerId := None;
     e_originalText := None; e_autoResize := None;
     e_points := None; e_startBinding := None; e_endBinding := None;
     e_startArrowhead := None; e_endArrowhead := None; e_elbowed := None |}.

Definition plain_binding (target : string) (fp : option (list num)) : binding :=
  {| b_elementId := Some target; b_focus := zq 0; b_gap := zq 1;
     b_fixedPoint := fp |}.

(** An arrow from [src] to [dst] with the given origin and points. *)
Definition plain_arrow (eid src dst : string) (x y : Z) (pts : list (Z * Z))
  (width height : Z) (fp_start fp_end : option (list num)) : element :=
  set_elbowed (Some false)
    (set_endArrowhead (Some "arrow")
      (set_endBinding (Some (plain_binding dst fp_end))
        (set_startBinding (Some (plain_binding src fp_start))
          (set_points (Some (map (fun p => (zq (fst p), zq (snd p))) pts))
            (plain_element eid "arrow" x y width height))))).

(** Two rectangles one above the other and the arrow [connect] draws from the
    bottom of the first to the top of the second. *)
Definition linked_pair : list element :=
  [ set_roundness (Some 3)
      (set_boundElements (Some [{| br_id := "arrow-1"; br_type := "arrow" |}])
         (plain_element "A" "rectangle" 0 0 200 80));
    set_roundness (Some 3)
      (set_boundElements (Some [{| br_id := "arrow-1"; br_type := "arrow" |}])
         (plain_element "B" "rectangle" 0 200 200 80));
    set_roundness (Some 2)
      (plain_arrow "arrow-1" "A" "B" 100 80 [(0, 0); (0, 120)] 0 120
         (Some [half; zq 1]) (Some [half; zq 0])) ].

(** An arrow whose two bindings name elements that are not in the list. *)
Definition dangling_arrow : list element :=
  [ plain_arrow "arrow-1" "gone-1" "gone-2" 10 20 [(0, 0); (30, 40)] 30 40
      None None ].

(** ** Vocabulary of the statements *)

(** The four edge names. *)
Definition is_edge (e : string) : Prop :=
  e = "top" \/ e = "bottom" \/ e = "left" \/ e = "right".

(** The arrow a reference points to, before and after a call. *)
Definition same_arrow (els els' : list element) (a : nat) : Prop :=
  nth_error els' a = nth_error els a.

(** Whether a binding resolved. *)
Definition resolves (o : option element) : bool :=
  match o with
  | Some _ => true
  | None => false
  end.

(** A document in which the rectangle ["A"] has been soft-deleted while the
    arrow from ["A"] to ["B"] is still active. *)
Definition orphan_edge_doc : document :=
  new_document
    [ set_isDeleted true (plain_element "A" "rectangle" 0 0 200 80);
      plain_element "B" "rectangle" 0 200 200 80;
      plain_arrow "arrow-1" "A" "B" 100 80 [(0, 0); (0, 120)] 0 120
        (Some [half; zq 1]) (Some [half; zq 0]) ].

(** The spec of the concrete scenario: two labelled rectangles and the edge
    from the bottom of the first to the top of the second. *)
Definition box_node (alias : string) (x y : Z) (label : string) : node_spec :=
  {| n_id := Some alias; n_type := Some "rectangle";
     n_x := Some (zq x); n_y := Some (zq y);
     n_width := Some (zq 200); n_height := Some (zq 80);
     n_label := Some label; n_stroke := None; n_background := None;
     n_strokeWidth := None; n_strokeStyle := None; n_roughness := None;
     n_fontSize := None; n_fontFamily := None |}.

Definition plain_edge (src dst from_edge to_edge : string) : edge_spec :=
  {| g_from := Some src; g_to := Some dst; g_fromEdge := Some from_edge;
     g_toEdge := Some to_edge; g_stroke := None; g_elbowed := None;
     g_label := None; g_fontSize := None; g_fontFamily := None |}.

Definition two_boxes : spec :=
  {| sp_seed := Some 42;
     sp_nodes := [box_node "A" 0 0 "Start"; box_node "B" 0 200 "End"];
     sp_edges := [plain_edge "A" "B" "bottom" "top"];
     sp_updated := None;
     sp_style := None |}.

Definition of_type (t : string) (els : list element) : list element :=
  filter (fun e => e_type e == t) els.

(** What the scenario asks of the built document. *)
Definition two_boxes_built (d : document) : Prop :=
  let els := d_elements d in
  List.length els = 5%nat
  /\ map e_id (of_type "rectangle" els) = ["A"; "B"]
  /\ map e_containerId (of_type "text" els) = [Some "A"; Some "B"]
  /\ List.length (of_type "arrow" els) = 1%nat
  /\ (forall e, In e (of_type "arrow" els) ->
        e_points e = Some [(zq 0, zq 0); (zq 0, zq 120)]
        /\ e_width e = zq 0 /\ e_height e = zq 120
        /\ e_roundness e = Some 2)
  /\ (forall e, In e (of_type "rectangle" els) -> e_roundness e = Some 3).

(** *** Two runs side by side *)



Section Runs.

Context {G : RandomGen}.




(** [n] nonces drawn in a row. *)
Fixpoint nonces (n : nat) (f : IdFactory) : list Z :=
  match n with
  | O => []
  | S n' => let (v, f') := nonce f in v :: nonces n' f'
  end.

End Runs.

(** A spec without and with the [updated] override. *)
Definition one_box : spec :=
  {| sp_seed := Some 42;
     sp_nodes := [box_node "A" 0 0 "Start"];
     sp_edges := [];
     sp_updated := None;
     sp_style := None |}.


(** *** Order indices in a row *)

(** The order index of a rank, for ranks that have one. *)
Definition index_of (r : nat) : string :=
  match index_for_rank (Z.of_nat r) with
  | Ok s => s
  | _ => EmptyString
  end.

(** Each string sorts strictly before the next one. *)
Fixpoint chainb (l : list string) : bool :=
  match l with
  | a :: ((b :: _) as r) => String.ltb a b && chainb r
  | _ => true
  end.

(** The value of a base-62 digit string, and of one digit. *)
Fixpoint find_char (c : ascii) (s : string) (k : Z) : Z :=
  match s with
  | EmptyString => -1
  | String d r => if Ascii.eqb c d then k else find_char c r (k + 1)
  end.

Definition digit_value (c : ascii) : Z := find_char c INDEX_CHARS 0.

Fixpoint digits_value (s : string) (acc : Z) : Z :=
  match s with
  | EmptyString => acc
  | String c r => digits_value r (acc * 62 + digit_value c)
  end.

(** *** Geometry *)




(** A factory over the reference generator with the given reserved ids. *)
Definition lcg_factory (ids : list string) : @IdFactory lcg :=
  {| f_rng := rng_seed 0; f_next_rank := 0; f_ids := ids |}.

(** *** Cross-references *)

(** [s["boundElements"]] holds [{id: i, type: t}]. *)
Definition has_ref (s : element) (i t : string) : Prop :=
  In {| br_id := i; br_type := t |} (bound_list s).

(** Every active text with a container and every active arrow with a bound
    end is listed in the [boundElements] of the element it names. *)
Definition reciprocated (els : list element) : Prop :=
  (forall t c,
     In t els -> e_isDeleted t = false -> e_type t = "text" ->
     e_containerId t = Some c ->
     exists s, In s els /\ e_id s = c /\ has_ref s (e_id t) "text")
  /\ (forall a sid,
        In a els -> e_isDeleted a = false -> e_type a = "arrow" ->
        (binding_elementId (e_startBinding a) = Some sid
         \/ binding_elementId (e_endBinding a) = Some sid) ->
        exists s, In s els /\ e_id s = sid /\ has_ref s (e_id a) "arrow").

(** Ids are unique and the cross-references are reciprocated. *)
Definition well_linked (els : list element) : Prop :=
  NoDup (map e_id els) /\ reciprocated els.

(** What a mutation may do to an element without touching the links: keep
    its id, type, container and bound ends, never revive it, and only add to
    its [boundElements]. *)
Definition evolves (e e' : element) : Prop :=
  e_id e' = e_id e
  /\ e_type e' = e_type e
  /\ e_containerId e' = e_containerId e
  /\ binding_elementId (e_startBinding e')
     = binding_elementId (e_startBinding e)
  /\ binding_elementId (e_endBinding e') = binding_elementId (e_endBinding e)
  /\ (e_isDeleted e' = false -> e_isDeleted e = false)
  /\ incl (bound_list e) (bound_list e').

Section Reachability.

Context {G : RandomGen}.

(** A state whose factory knows every id in the list. *)
Definition linked_state (s : state) : Prop :=
  well_linked (st_elements s)
  /\ incl (map e_id (st_elements s)) (f_ids (st_ids s)).

(** The documents the tools produce: built from a spec, then edited any
    number of times, each run with its own clock, fuel and process. *)
Inductive reachable : document -> Prop :=
| reach_build clk fuel w sp d :
    build clk fuel w sp = Ok d -> reachable d
| reach_move clk w label dx dy d d' :
    reachable d -> cmd_move clk d w label dx dy = Ok d' -> reachable d'
| reach_relabel clk w label text d d' :
    reachable d -> cmd_relabel clk d w label text = Ok d' -> reachable d'
| reach_recolor clk w label stroke background d d' :
    reachable d ->
    cmd_recolor clk d w label stroke background = Ok d' -> reachable d'
| reach_delete clk w label d d' :
    reachable d -> cmd_delete clk d w label = Ok d' -> reachable d'
| reach_add_box clk fuel w label x y width height stroke background
    font_size font_family dashed crisp d d' :
    reachable d ->
    cmd_add_box clk fuel (Some d) w label x y width height stroke background
      font_size font_family dashed crisp = Ok d' ->
    reachable d'
| reach_new_box clk fuel w label x y width height stroke background
    font_size font_family dashed crisp d' :
    cmd_add_box clk fuel None w label x y width height stroke background
      font_size font_family dashed crisp = Ok d' ->
    reachable d'
| reach_connect clk fuel w from_label to_label from_edge to_edge stroke
    elbowed label font_size font_family d d' :
    reachable d ->
    cmd_connect clk fuel d w from_label to_label from_edge to_edge stroke
      elbowed label font_size font_family = Ok d' ->
    reachable d'.

End Reachability.

(** A state over the reference generator whose factory is the one an edit
    command builds for the list. *)
Definition lcg_state (els : list element) : @state lcg :=
  {| st_elements := els; st_ids := lcg_factory (map e_id els);
     st_world := world0 |}.

(** * Properties *)

(** ** Numbers and small facts *)

Lemma nltb_spec (a b : num) : nltb a b = true <-> (a < b)%Qc.
Proof.
  unfold nltb, Qclt, Qccompare. rewrite Qlt_alt.
  destruct (a ?= b)%Q; split; congruence.
Qed.

Lemma update_at_same (els : list element) :
  forall i e, nth_error els i = Some e -> update_at i (fun _ => e) els = els.
Proof.
  induction els as [|x r IH]; intros [|i] e H; simpl in *; try discriminate.
  - congruence.
  - f_equal. now apply IH.
Qed.

(** Closed equations between computed values: evaluate, then compare the
    rationals by their numerators and denominators. *)
Ltac by_evaluation :=
  vm_compute; repeat f_equal; try (apply Qc_is_canon; reflexivity);
  try reflexivity.

(** ** Order indices *)

(** C2.  The order index of rank 3844 is ["b100"], which sorts before
    ["b11"], the index issued earlier for rank 63: beyond two digits the
    prefix ["b"] no longer orders the indices by rank. *)
Theorem index_for_rank_order_breaks :
  index_for_rank 63 = Ok "b11" /\
  index_for_rank 3844 = Ok "b100" /\
  str_lt "b100" "b11".
Proof. repeat split. Qed.

(** ** Routing *)

(** C6.  The routing table: bottom to top is one vertical segment when
    [|dx| < 10] and an L through the horizontal offset otherwise; right to
    left and left to right are one horizontal segment when [|dy| < 10] and an
    L through the vertical offset otherwise; right to top is always the L
    through the horizontal offset; every other pair of edges is the direct
    segment. *)
Theorem route_points_table (se te : string) (dx dy : num) :
  (se = "bottom" /\ te = "top" ->
     ((nabs dx < zq 10)%Qc ->
        route_points se te dx dy = [(zq 0, zq 0); (zq 0, dy)]) /\
     (~ (nabs dx < zq 10)%Qc ->
        route_points se te dx dy = [(zq 0, zq 0); (dx, zq 0); (dx, dy)])) /\
  ((se = "right" /\ te = "left") \/ (se = "left" /\ te = "right") ->
     ((nabs dy < zq 10)%Qc ->
        route_points se te dx dy = [(zq 0, zq 0); (dx, zq 0)]) /\
     (~ (nabs dy < zq 10)%Qc ->
        route_points se te dx dy = [(zq 0, zq 0); (zq 0, dy); (dx, dy)])) /\
  (se = "right" /\ te = "top" ->
     route_points se te dx dy = [(zq 0, zq 0); (dx, zq 0); (dx, dy)]) /\
  (~ (se = "bottom" /\ te = "top") ->
   ~ (se = "right" /\ te = "left") ->
   ~ (se = "left" /\ te = "right") ->
   ~ (se = "right" /\ te = "top") ->
     route_points se te dx dy = [(zq 0, zq 0); (dx, dy)]).
Proof.
  split; [|split; [|split]].
  - intros [-> ->]. split; intros H; unfold route_points; simpl.
    + apply nltb_spec in H. now rewrite H.
    + destruct (nltb (nabs dx) (zq 10)) eqn:E; [|reflexivity].
      apply nltb_spec in E. contradiction.
  - intros [[-> ->]|[-> ->]]; split; intros H; unfold route_points; simpl;
      destruct (nltb (nabs dy) (zq 10)) eqn:E; try reflexivity;
      try (apply nltb_spec in E; contradiction);
      apply nltb_spec in H; congruence.
  - intros [-> ->]. reflexivity.
  - intros H1 H2 H3 H4. unfold route_points.
    destruct (String.eqb_spec se "bottom"), (String.eqb_spec te "top");
      simpl; try tauto;
      destruct (String.eqb_spec se "right"), (String.eqb_spec te "left");
      simpl; try tauto;
      destruct (String.eqb_spec se "left"), (String.eqb_spec te "right");
      simpl; try tauto; subst; try discriminate; try tauto.
Qed.

Lemma route_points_table_witness :
  route_points "bottom" "top" (zq 0) (zq 120) = [(zq 0, zq 0); (zq 0, zq 120)]
  /\ route_points "top" "bottom" (zq 5) (zq 7) = [(zq 0, zq 0); (zq 5, zq 7)].
Proof.
  split.
  - destruct (route_points_table "bottom" "top" (zq 0) (zq 120))
      as [H _].
    apply H; [split|]; reflexivity.
  - destruct (route_points_table "top" "bottom" (zq 5) (zq 7))
      as [_ [_ [_ H]]].
    apply H; intros [H1 H2]; discriminate.
Defined.

(** ** Rerouting *)

(** C9.  An arrow neither of whose bindings resolves to a live element is
    left exactly as it is: [reroute_arrow] returns [False], raises nothing and
    the element list, the arrow included, is unchanged. *)
Theorem reroute_arrow_dangling (els : list element)
  (idx : string -> option nat) (a : nat) (arrow : element) :
  nth_error els a = Some arrow ->
  resolve els idx (e_startBinding arrow) = None ->
  resolve els idx (e_endBinding arrow) = None ->
  reroute_arrow els idx a = Ok (els, false).
Proof.
  intros Ha Hs Ht. unfold reroute_arrow, deref. rewrite Ha. simpl.
  rewrite Hs, Ht. unfold reroute.
  destruct (arrow_endpoints arrow). simpl.
  now rewrite (update_at_same els a Ha).
Qed.

Lemma reroute_arrow_dangling_witness :
  reroute_arrow dangling_arrow (build_id_index dangling_arrow) 0
  = Ok (dangling_arrow, false).
Proof.
  apply (@reroute_arrow_dangling dangling_arrow
           (build_id_index dangling_arrow) 0
           (plain_arrow "arrow-1" "gone-1" "gone-2" 10 20 [(0, 0); (30, 40)]
              30 40 None None)); reflexivity.
Defined.

(** *** Edge inference never fails *)

Lemma is_edge_point (shape : element) (e : string) :
  is_edge e -> exists p, edge_point shape e = Ok p.
Proof.
  intros [ -> | [ -> | [ -> | -> ] ] ]; unfold edge_point; simpl; eauto.
Qed.

Lemma FIXED_POINT_TO_EDGE_is_edge (k : num * num) (e : string) :
  FIXED_POINT_TO_EDGE k = Some e -> is_edge e.
Proof.
  destruct k as [a b]. unfold FIXED_POINT_TO_EDGE, is_edge.
  repeat match goal with
         | |- context [if ?c then _ else _] => destruct c
         end; intros H; inversion H; auto.
Qed.

Lemma infer_edge_from_fixed_point_is_edge (b : option binding) (e : string) :
  infer_edge_from_fixed_point b = Some e -> is_edge e.
Proof.
  unfold infer_edge_from_fixed_point.
  destruct b as [v|]; [|discriminate].
  destruct (b_fixedPoint v) as [[|a [|c [|? ?]]]|]; try discriminate.
  apply FIXED_POINT_TO_EDGE_is_edge.
Qed.

Lemma insert_by_In {A} (le : A -> A -> bool) (a x : A) (l : list A) :
  In x (insert_by le a l) <-> x = a \/ In x l.
Proof.
  induction l as [|b r IH]; simpl.
  - intuition.
  - destruct (le a b); simpl; [intuition|].
    rewrite IH. intuition.
Qed.

Lemma sort_by_In {A} (le : A -> A -> bool) (x : A) (l : list A) :
  In x (sort_by le l) <-> In x l.
Proof.
  induction l as [|a r IH]; simpl; [tauto|].
  rewrite insert_by_In, IH. intuition.
Qed.

Lemma infer_edge_by_proximity_is_edge (shape : element) (pt : point) :
  exists e, infer_edge_by_proximity shape pt = Ok e /\ is_edge e.
Proof.
  destruct pt as [px py]. unfold infer_edge_by_proximity, edge_point.
  cbn [String.eqb Ascii.eqb Bool.eqb bind].
  match goal with
  | |- context [sort_by ?le ?l] =>
      pose proof (fun x => proj1 (sort_by_In le x l)) as Hin;
      destruct (sort_by le l) as [|d r] eqn:E
  end.
  - exfalso.
    match type of E with
    | sort_by ?le (?a :: ?r) = [] =>
        assert (H : In a (sort_by le (a :: r)))
          by (apply sort_by_In; now left);
        rewrite E in H; destruct H
    end.
  - exists (snd d). split; [reflexivity|].
    specialize (Hin d (or_introl eq_refl)).
    unfold is_edge.
    destruct Hin as [ <- | [ <- | [ <- | [ <- | [] ] ] ] ]; simpl; auto.
Qed.

Lemma infer_edge_is_edge (b : option binding) (shape : element) (pt : point) :
  exists e, infer_edge b shape pt = Ok e /\ is_edge e.
Proof.
  unfold infer_edge.
  destruct (infer_edge_from_fixed_point b) as [e|] eqn:E.
  - destruct (e == "") eqn:Ee.
    + apply infer_edge_by_proximity_is_edge.
    + exists e. split; [reflexivity|].
      eapply infer_edge_from_fixed_point_is_edge; eauto.
  - apply infer_edge_by_proximity_is_edge.
Qed.

(** *** What the flag of [reroute_arrow] reports *)

Lemma reroute_total (arrow : element) (source target : option element) :
  exists arrow',
    reroute arrow source target
    = Ok (arrow', resolves source || resolves target)
    /\ (source = None -> target = None -> arrow' = arrow).
Proof.
  unfold reroute. destruct (arrow_endpoints arrow) as [start_pt end_pt].
  destruct source as [src|], target as [tgt|]; simpl.
  - destruct (infer_edge_is_edge (e_startBinding arrow) src start_pt)
      as (se & -> & Hse).
    destruct (infer_edge_is_edge (e_endBinding arrow) tgt end_pt)
      as (te & -> & Hte).
    destruct (is_edge_point src Hse) as ([sx sy] & Es).
    destruct (is_edge_point tgt Hte) as ([tx ty] & Et).
    simpl. rewrite Es. simpl. rewrite Et. simpl.
    eexists. split; [reflexivity|discriminate].
  - destruct (infer_edge_is_edge (e_startBinding arrow) src start_pt)
      as (se & -> & Hse).
    destruct (is_edge_point src Hse) as ([sx sy] & Es).
    simpl. rewrite Es. simpl.
    eexists. split; [reflexivity|discriminate].
  - destruct (infer_edge_is_edge (e_endBinding arrow) tgt end_pt)
      as (te & -> & Hte).
    destruct (is_edge_point tgt Hte) as ([tx ty] & Et).
    simpl. rewrite Et. simpl.
    eexists. split; [reflexivity|discriminate].
  - eexists. split; [reflexivity|reflexivity].
Qed.

(** C8, as the code has it.  [reroute_arrow] never raises, and its flag says
    whether a binding resolved to a live element: it is [True] exactly when
    the start or the end binding resolves, and when it is [False] nothing has
    changed. *)
Theorem reroute_arrow_flag (els : list element) (idx : string -> option nat)
  (a : nat) (arrow : element) :
  nth_error els a = Some arrow ->
  exists els' flag,
    reroute_arrow els idx a = Ok (els', flag)
    /\ (flag = true <->
        resolve els idx (e_startBinding arrow) <> None
        \/ resolve els idx (e_endBinding arrow) <> None)
    /\ (flag = false -> els' = els).
Proof.
  intros Ha. unfold reroute_arrow, deref. rewrite Ha. simpl.
  destruct (reroute_total arrow (resolve els idx (e_startBinding arrow))
              (resolve els idx (e_endBinding arrow))) as (arrow' & E & Hsame).
  rewrite E. simpl. do 2 eexists. split; [reflexivity|]. split.
  - destruct (resolve els idx (e_startBinding arrow)),
             (resolve els idx (e_endBinding arrow)); simpl;
      split; intros H; try reflexivity; try discriminate;
      try (left; discriminate); try (right; discriminate).
    destruct H as [H|H]; congruence.
  - destruct (resolve els idx (e_startBinding arrow)),
             (resolve els idx (e_endBinding arrow)); simpl;
      try discriminate.
    intros _. rewrite (Hsame eq_refl eq_refl). now apply update_at_same.
Qed.

Lemma reroute_arrow_flag_witness :
  exists els' flag,
    reroute_arrow linked_pair (build_id_index linked_pair) 2 = Ok (els', flag)
    /\ flag = true.
Proof.
  destruct (@reroute_arrow_flag linked_pair (build_id_index linked_pair) 2
              (set_roundness (Some 2)
                 (plain_arrow "arrow-1" "A" "B" 100 80 [(0, 0); (0, 120)] 0 120
                    (Some [half; zq 1]) (Some [half; zq 0]))) eq_refl)
    as (els' & flag & E & Hflag & _).
  exists els', flag. split; [exact E|].
  apply Hflag. left. vm_compute. discriminate.
Defined.

(** C8, as the claim has it, fails: on an arrow that already is where its
    two shapes put it the call changes nothing and still returns [True]. *)
Lemma reroute_arrow_true_without_change :
  ~ (forall els idx a els' flag,
       reroute_arrow els idx a = Ok (els', flag) ->
       (flag = true <-> els' <> els)).
Proof.
  intros H.
  assert (E : reroute_arrow linked_pair (build_id_index linked_pair) 2
              = Ok (linked_pair, true)) by by_evaluation.
  apply (H _ _ _ _ _ E); reflexivity.
Qed.

(** ** Extraction and soft-deleted shapes *)

(** C10.  On a document whose arrow is still bound to a soft-deleted
    rectangle, extraction lists only the live rectangle as a node and still
    emits the edge from the deleted one; synthesis rejects that spec. *)
Theorem extraction_emits_edge_of_deleted_shape :
  exists sp,
    diagram_to_spec orphan_edge_doc None = Ok sp
    /\ map n_id (sp_nodes sp) = [Some "B"]
    /\ map g_from (sp_edges sp) = [Some "A"]
    /\ forall clk fuel w,
         build clk fuel w sp = Raise "edges[idx].from references unknown node".
Proof.
  eexists. split; [vm_compute; reflexivity|].
  split; [reflexivity|]. split; [reflexivity|].
  intros clk fuel w. reflexivity.
Qed.

(** ** The store *)

Lemma update_at_length (f : element -> element) (l : list element) :
  forall i, List.length (update_at i f l) = List.length l.
Proof.
  induction l as [|e r IH]; intros [|i]; simpl; auto.
Qed.

Lemma update_at_app_l (f : element -> element) (l r : list element) :
  forall i, (i < List.length l)%nat ->
            update_at i f (l ++ r) = (update_at i f l ++ r)%list.
Proof.
  induction l as [|e l IH]; intros [|i] H; simpl in *; try lia; auto.
  f_equal. apply IH. lia.
Qed.

Lemma update_at_app_last (f : element -> element) (l : list element)
  (e : element) :
  update_at (List.length l) f (l ++ [e]) = (l ++ [f e])%list.
Proof.
  induction l as [|x l IH]; simpl; [reflexivity|]. now rewrite IH.
Qed.

Lemma update_at_out (f : element -> element) (l : list element) :
  forall i, (List.length l <= i)%nat -> update_at i f l = l.
Proof.
  induction l as [|e l IH]; intros [|i] H; simpl in *; try lia; auto.
  f_equal. apply IH. lia.
Qed.

Lemma nth_error_update_at (f : element -> element) (l : list element) :
  forall i j,
    nth_error (update_at i f l) j
    = if Nat.eqb i j then option_map f (nth_error l j) else nth_error l j.
Proof.
  induction l as [|e l IH]; intros [|i] [|j]; simpl; auto.
  now destruct (Nat.eqb i j).
Qed.

Lemma nth_error_app_last {A} (l : list A) (e : A) :
  nth_error (l ++ [e]) (List.length l) = Some e.
Proof.
  rewrite nth_error_app2 by lia. now rewrite Nat.sub_diag.
Qed.

Lemma deref_Ok (els : list element) (i : nat) (e : element) :
  deref els i = Ok e <-> nth_error els i = Some e.
Proof.
  unfold deref. destruct (nth_error els i); split; congruence.
Qed.

Lemma deref_lt (els : list element) (i : nat) (e : element) :
  deref els i = Ok e -> (i < List.length els)%nat.
Proof.
  intros H. apply deref_Ok in H. apply nth_error_Some. congruence.
Qed.

(** ** Normal forms of the constructors *)

Section NormalForms.

Context {G : RandomGen}.
Variable clk : clock.
Variable fuel : nat.

Lemma make_shape_nf (s : state) (etype : string) (x y width height : num)
  (stroke background : string) (stroke_width : Z) (stroke_style : string)
  (roughness : Z) (element_id : option string) :
  make_shape clk fuel s etype x y width height stroke background stroke_width
    stroke_style roughness element_id
  = do (eid, idx, seed, vnonce, f) <- allocate fuel (st_ids s) element_id;
    Ok ({| st_elements :=
             (st_elements s
              ++ [shape_dict eid etype x y width height stroke background
                    stroke_width stroke_style roughness idx
                    (shape_roundness etype) seed vnonce
                    (clk (w_ticks (st_world s)))])%list;
           st_ids := f; st_world := tick (st_world s) |},
        List.length (st_elements s)).
Proof.
  unfold make_shape, allocate.
  destruct element_id as [v|]; simpl;
    [destruct (reserve_id v (st_ids s)) as [f0| |]
    |destruct (random_id fuel "el" (st_ids s)) as [[eid f0]| |]];
    simpl; try reflexivity;
    (destruct (next_index f0) as [[idx f2]| |]; simpl; try reflexivity;
     destruct (nonce f2) as [seed f3]; destruct (nonce f3) as [vn f4];
     reflexivity).
Qed.

Lemma make_text_nf (s : state) (content : string) (x y width height : num)
  (container_id : option string) (font_size font_family : Z) (stroke : string) :
  make_text clk fuel s content x y width height container_id font_size
    font_family stroke
  = do (eid, idx, seed, vnonce, f) <- allocate fuel (st_ids s) None;
    Ok ({| st_elements :=
             (st_elements s
              ++ [text_dict eid content x y width height container_id
                    font_size font_family stroke idx seed vnonce
                    (clk (w_ticks (st_world s)))])%list;
           st_ids := f; st_world := tick (st_world s) |},
        List.length (st_elements s)).
Proof.
  unfold make_text. rewrite make_shape_nf.
  destruct (allocate fuel (st_ids s) None) as [[[[[eid idx] seed] vn] f]| |];
    simpl; auto.
  unfold with_elements. simpl. rewrite update_at_app_last. reflexivity.
Qed.

Lemma add_label_nf (s : state) (shape : nat) (label : string)
  (font_size font_family text_height : Z) :
  add_label clk fuel s shape label font_size font_family text_height
  = do sh <- deref (st_elements s) shape;
    do (eid, idx, seed, vnonce, f) <- allocate fuel (st_ids s) None;
    Ok ({| st_elements :=
             (update_at shape
                (append_bound {| br_id := eid; br_type := "text" |})
                (st_elements s)
              ++ [text_dict eid label (nadd (e_x sh) (zq 5))
                    (nadd (e_y sh)
                       (ndiv (nsub (e_height sh) (zq text_height)) (zq 2)))
                    (nsub (e_width sh) (zq 10)) (zq text_height)
                    (Some (e_id sh)) font_size font_family (e_strokeColor sh)
                    idx seed vnonce (clk (w_ticks (st_world s)))])%list;
           st_ids := f; st_world := tick (st_world s) |},
        List.length (st_elements s)).
Proof.
  unfold add_label.
  destruct (deref (st_elements s) shape) as [sh| |] eqn:Esh; simpl; auto.
  rewrite make_text_nf.
  destruct (allocate fuel (st_ids s) None) as [[[[[eid idx] seed] vn] f]| |];
    simpl; auto.
  unfold deref. rewrite nth_error_app_last. simpl.
  unfold with_elements. simpl.
  rewrite update_at_app_l by (eapply deref_lt; eauto). reflexivity.
Qed.

Lemma recalc_arrow_bounds_id (e : element) :
  e_id (recalc_arrow_bounds e) = e_id e.
Proof.
  unfold recalc_arrow_bounds. now destruct (points_or _ e).
Qed.

Lemma edge_point_Ok_is_edge (shape : element) (e : string) (p : point) :
  edge_point shape e = Ok p -> is_edge e.
Proof.
  unfold edge_point, is_edge.
  destruct (String.eqb_spec e "top"); auto.
  destruct (String.eqb_spec e "bottom"); auto.
  destruct (String.eqb_spec e "left"); auto.
  destruct (String.eqb_spec e "right"); auto.
  discriminate.
Qed.

Lemma new_binding_edge (target_id edge : string) :
  is_edge edge ->
  (if truthy (Some target_id)
   then do b <- new_binding target_id (Some edge); Ok (Some b)
   else Ok None)
  = Ok (bind_to target_id edge).
Proof.
  intros He. unfold bind_to, new_binding. simpl.
  destruct (target_id == ""); simpl; [reflexivity|].
  destruct He as [ -> | [ -> | [ -> | -> ] ] ]; reflexivity.
Qed.

Lemma connect_nf (s : state) (source target : nat)
  (source_edge target_edge stroke : string) (elbowed : bool) :
  connect clk fuel s source target source_edge target_edge stroke elbowed
  = do src <- deref (st_elements s) source;
    do tgt <- deref (st_elements s) target;
    do (sx, sy) <- edge_point src source_edge;
    do (tx, ty) <- edge_point tgt target_edge;
    do (eid, idx, seed, vnonce, f) <- allocate fuel (st_ids s) None;
    let item := {| br_id := eid; br_type := "arrow" |} in
    Ok ({| st_elements :=
             (update_at target (append_bound item)
                (update_at source (append_bound item) (st_elements s))
              ++ [arrow_dict eid sx sy
                    (route_points source_edge target_edge (nsub tx sx)
                       (nsub ty sy))
                    (bind_to (e_id src) source_edge)
                    (bind_to (e_id tgt) target_edge)
                    stroke 2 elbowed idx seed vnonce
                    (clk (w_ticks (st_world s)))])%list;
           st_ids := f; st_world := tick (st_world s) |},
        List.length (st_elements s)).
Proof.
  unfold connect.
  destruct (deref (st_elements s) source) as [src| |] eqn:Es; simpl; auto.
  destruct (deref (st_elements s) target) as [tgt| |] eqn:Et; simpl; auto.
  destruct (edge_point src source_edge) as [[sx sy]| |] eqn:Eps; simpl; auto.
  destruct (edge_point tgt target_edge) as [[tx ty]| |] eqn:Ept; simpl; auto.
  unfold make_arrow. rewrite make_shape_nf.
  destruct (allocate fuel (st_ids s) None) as [[[[[eid idx] seed] vn] f]| |];
    cbn [bind]; auto.
  rewrite (new_binding_edge (e_id src) (edge_point_Ok_is_edge _ _ Eps)).
  rewrite (new_binding_edge (e_id tgt) (edge_point_Ok_is_edge _ _ Ept)).
  cbn [bind]. unfold with_elements. cbn [st_elements st_ids st_world].
  rewrite !update_at_app_last.
  unfold deref. rewrite nth_error_app_last. cbn [bind st_elements].
  cbn [e_id set_elbowed set_endArrowhead set_startArrowhead set_endBinding
       set_startBinding].
  rewrite recalc_arrow_bounds_id. cbn [e_id set_points set_roundness shape_dict].
  rewrite update_at_app_l by (eapply deref_lt; eauto).
  rewrite update_at_app_l
    by (rewrite update_at_length; eapply deref_lt; eauto).
  reflexivity.
Qed.

End NormalForms.

(** ** The factory *)

Section Factory.

Context {G : RandomGen}.
Variable fuel : nat.

Lemma mem_In (v : string) (l : list string) : mem v l = true <-> In v l.
Proof.
  unfold mem. rewrite existsb_exists. split.
  - intros (x & Hx & E). apply String.eqb_eq in E. now subst.
  - intros H. exists v. split; [assumption|apply String.eqb_refl].
Qed.

Lemma mem_false (v : string) (l : list string) : mem v l = false <-> ~ In v l.
Proof.
  rewrite <- mem_In. destruct (mem v l); split; congruence.
Qed.

Lemma random_id_loop_inv (prefix : string) :
  forall n f v f',
    random_id_loop n prefix f = Ok (v, f') ->
    mem v (f_ids f) = false
    /\ (exists r, f' = {| f_rng := r; f_next_rank := f_next_rank f;
                          f_ids := v :: f_ids f |})
    /\ exists suffix, v = prefix ++ "-" ++ suffix.
Proof.
  induction n as [|n IH]; intros f v f' H; cbn [random_id_loop] in H;
    [discriminate|].
  destruct (random_suffix 12 (f_rng f)) as [suffix r].
  destruct (mem (prefix ++ "-" ++ suffix) (f_ids f)) eqn:E.
  - apply IH in H. cbn [f_ids f_next_rank] in H. exact H.
  - inversion H; subst; clear H.
    split; [assumption|]. split; [now exists r|]. now exists suffix.
Qed.

Lemma random_id_loop_no_raise (prefix : string) :
  forall n f msg, random_id_loop n prefix f <> Raise msg.
Proof.
  induction n as [|n IH]; intros f msg; cbn [random_id_loop];
    [discriminate|].
  destruct (random_suffix 12 (f_rng f)) as [suffix r].
  destruct (mem _ (f_ids f)); [apply IH|discriminate].
Qed.

(** What an allocation tells about the factory it leaves. *)
Lemma allocate_inv (f : IdFactory) (element_id : option string)
  (eid idx : string) (seed vnonce : Z) (f' : IdFactory) :
  allocate fuel f element_id = Ok (eid, idx, seed, vnonce, f') ->
  mem eid (f_ids f) = false
  /\ (exists r, f' = {| f_rng := r; f_next_rank := f_next_rank f + 1;
                        f_ids := eid :: f_ids f |})
  /\ index_for_rank (f_next_rank f) = Ok idx
  /\ match element_id with
     | Some v => eid = v
     | None => exists suffix, eid = "el-" ++ suffix
     end.
Proof.
  unfold allocate, next_index, nonce, reserve_id, random_id.
  destruct element_id as [v|]; simpl.
  - destruct (mem v (f_ids f)) eqn:Em; simpl; [discriminate|].
    destruct (index_for_rank (f_next_rank f)) as [i| |]; simpl;
      try discriminate.
    repeat match goal with
           | |- context [randint ?r ?a ?b] => destruct (randint r a b)
           end.
    intros H; inversion H; subst; clear H. simpl. eauto 6.
  - destruct (random_id_loop fuel "el" f) as [[v f1]| |] eqn:Er; simpl;
      try discriminate.
    apply random_id_loop_inv in Er. destruct Er as (Hm & (r & ->) & Hs).
    cbn [f_next_rank f_rng f_ids].
    destruct (index_for_rank (f_next_rank f)) as [i| |]; simpl;
      try discriminate.
    repeat match goal with
           | |- context [randint ?r ?a ?b] => destruct (randint r a b)
           end.
    intros H; inversion H; subst; clear H. simpl. eauto 6.
Qed.

(** An allocation raises only on a duplicate id or a negative rank. *)
Lemma allocate_raise (f : IdFactory) (element_id : option string)
  (msg : string) :
  allocate fuel f element_id = Raise msg ->
  (exists v, element_id = Some v /\ mem v (f_ids f) = true)
  \/ f_next_rank f < 0.
Proof.
  unfold allocate, next_index, nonce, reserve_id, random_id.
  assert (Hrank : forall r, index_for_rank r = Raise msg -> r < 0).
  { intros r. unfold index_for_rank.
    destruct (Z.ltb_spec r 0); [auto|].
    destruct (r <? _); discriminate. }
  destruct element_id as [v|]; simpl.
  - destruct (mem v (f_ids f)) eqn:Em; simpl; [eauto|].
    destruct (index_for_rank (f_next_rank f)) as [i| |] eqn:Ei; simpl.
    + repeat match goal with
             | |- context [randint ?r ?a ?b] => destruct (randint r a b)
             end.
      discriminate.
    + intros H; inversion H; subst. right. now apply Hrank.
    + discriminate.
  - destruct (random_id_loop fuel "el" f) as [[v f1]| |] eqn:Er; simpl.
    + apply random_id_loop_inv in Er. destruct Er as (_ & (r & ->) & _).
      cbn [f_next_rank].
      destruct (index_for_rank (f_next_rank f)) as [i| |] eqn:Ei; simpl.
      * repeat match goal with
               | |- context [randint ?r ?a ?b] => destruct (randint r a b)
               end.
        discriminate.
      * intros H; inversion H; subst. right. now apply Hrank.
      * discriminate.
    + intros H. exfalso. eapply random_id_loop_no_raise; eauto.
    + discriminate.
Qed.

End Factory.

(** ** The concrete scenario *)

Section Scenario.

Context {G : RandomGen}.
Variable clk : clock.
Variable fuel : nat.

(** One allocation of the run: it succeeds, or the resampling loop ran out of
    fuel; with the ids issued so far it cannot raise. *)
Ltac alloc_step :=
  lazymatch goal with
  | |- context [allocate fuel ?f ?eid] =>
      let E := fresh "E" in
      destruct (allocate fuel f eid) as [[[[[? ?] ?] ?] ?]| ? |] eqn:E;
      [ apply allocate_inv in E;
        destruct E as (_ & (? & ->) & _ & E);
        try (destruct E as (? & ->)); try subst;
        cbn [bind f_ids f_next_rank]
      | apply allocate_raise in E; exfalso;
        cbn [f_ids f_next_rank] in E;
        destruct E as [(? & E & Em)|E];
        [inversion E; subst; cbn in Em; discriminate| lia]
      | exact I ]
  end.

Ltac spec_fields :=
  cbn [sp_seed sp_nodes sp_edges sp_updated sp_style get_or _read_style
       IdFactory_init for_each bind build_node build_edge box_node plain_edge
       n_id n_type n_x n_y n_width n_height n_label n_stroke n_background
       n_strokeWidth n_strokeStyle n_roughness n_fontSize n_fontFamily
       g_from g_to g_fromEdge g_toEdge g_stroke g_elbowed g_label g_fontSize
       g_fontFamily index_get alias_get truthy String.eqb Ascii.eqb Bool.eqb
       negb VALID_SHAPES orb snd fst].

Ltac store_fields :=
  cbn [st_ids st_elements st_world app List.length deref nth_error bind
       update_at].

Lemma build_two_boxes_outcome (w : world) :
  match build clk fuel w two_boxes with
  | Ok d => two_boxes_built d
  | Raise _ => False
  | OutOfFuel => True
  end.
Proof.
  unfold build, build_state, two_boxes. spec_fields.
  rewrite make_shape_nf. store_fields. alloc_step.
  rewrite add_label_nf. store_fields. alloc_step.
  spec_fields.
  rewrite make_shape_nf. store_fields. alloc_step.
  rewrite add_label_nf. store_fields. alloc_step.
  spec_fields.
  rewrite connect_nf. store_fields.
  repeat match goal with
         | |- context [edge_point ?e ?s] =>
             let v := eval vm_compute in (edge_point e s) in
             change (edge_point e s) with v
         end.
  cbn [bind]. alloc_step.
  unfold two_boxes_built, of_type.
  cbn [d_elements new_document st_elements].
  vm_compute.
  repeat split; intros;
    repeat match goal with
           | H : _ \/ _ |- _ => destruct H as [H|H]
           | H : False |- _ => destruct H
           end;
    subst; reflexivity.
Qed.

End Scenario.

(** C5.  Building the spec of two labelled rectangles [A] (at 0,0) and [B]
    (at 0,200), both 200 by 80, with one edge from the bottom of [A] to the
    top of [B], yields five elements: the two rectangles, each with
    roundness type 3, the two texts bound to them, and one arrow with points
    [[0,0],[0,120]], width 0, height 120 and roundness type 2.  This is the
    only outcome whatever the generator draws, short of the resampling of an
    id never ending; with the reference generator the build returns. *)
Theorem build_two_boxes :
  (forall (G : RandomGen) (clk : clock) (fuel : nat) (w : world),
     match build clk fuel w two_boxes with
     | Ok d => two_boxes_built d
     | Raise _ => False
     | OutOfFuel => True
     end)
  /\ (forall (clk : clock) (w : @world lcg),
        exists d, build clk 1 w two_boxes = Ok d /\ two_boxes_built d).
Proof.
  split.
  - intros G clk fuel w. apply build_two_boxes_outcome.
  - intros clk w. pose proof (@build_two_boxes_outcome lcg clk 1%nat w) as H.
    destruct (build clk 1 w two_boxes) as [d| |] eqn:E.
    + exists d. split; [reflexivity|exact H].
    + destruct H.
    + exfalso. revert E. vm_compute. discriminate.
Qed.

(** ** Determinism of synthesis *)

Section Determinism.

Context {G : RandomGen}.
Variable fuel : nat.














End Determinism.

Section BuildDeterminism.

Context {G : RandomGen}.
Variable fuel : nat.





End BuildDeterminism.


(** ** More on the factory *)

Section FactoryFacts.

Context {G : RandomGen}.

(** Python's contract for [_randbelow]. *)
Hypothesis rng_below_range :
  forall r n, 0 < n -> 0 <= fst (rng_below r n) < n.

(** A nonce lies in [[1, 2^31 - 1]], and drawing it leaves the reserved ids
    and the next rank of the factory as they were. *)
Theorem nonce_range (f : IdFactory) :
  1 <= fst (nonce f) <= 2 ^ 31 - 1
  /\ f_ids (snd (nonce f)) = f_ids f
  /\ f_next_rank (snd (nonce f)) = f_next_rank f.
Proof.
  unfold nonce, randint, NONCE_MAX.
  change (2 ^ 31 - 1 - 1 + 1) with 2147483647.
  change (2 ^ 31 - 1) with 2147483647.
  assert (H : 0 <= fst (rng_below (f_rng f) 2147483647) < 2147483647)
    by (apply rng_below_range; lia).
  destruct (rng_below (f_rng f) 2147483647) as [k r].
  cbn [fst snd f_ids f_next_rank] in *.
  split; [lia|]. split; reflexivity.
Qed.

End FactoryFacts.

Lemma lcg_below_range (r : Z) (n : Z) :
  0 < n -> 0 <= fst (rng_below (RandomGen := lcg) r n) < n.
Proof.
  intros Hn. simpl. apply Z.mod_pos_bound. exact Hn.
Qed.

Lemma nonce_range_witness :
  1 <= fst (nonce (G := lcg) {| f_rng := 7; f_next_rank := 0; f_ids := [] |})
  <= 2 ^ 31 - 1.
Proof.
  exact (proj1 (@nonce_range lcg lcg_below_range
                  {| f_rng := 7; f_next_rank := 0; f_ids := [] |})).
Defined.

(** ** More on order indices *)

Lemma ascii_compare_trans (a b c : ascii) :
  Ascii.compare a b = Lt -> Ascii.compare b c = Lt -> Ascii.compare a c = Lt.
Proof.
  unfold Ascii.compare. rewrite !N.compare_lt_iff. apply N.lt_trans.
Qed.

Lemma ascii_compare_eq (a b : ascii) : Ascii.compare a b = Eq -> a = b.
Proof.
  unfold Ascii.compare. intros H. apply N.compare_eq in H.
  rewrite <- (ascii_N_embedding a), <- (ascii_N_embedding b). now rewrite H.
Qed.

Lemma str_lt_trans (a b c : string) : str_lt a b -> str_lt b c -> str_lt a c.
Proof.
  unfold str_lt. revert b c.
  induction a as [|x a IH]; intros [|y b] [|z c]; simpl; try discriminate; auto.
  destruct (Ascii.compare x y) eqn:Exy; try discriminate;
    destruct (Ascii.compare y z) eqn:Eyz; try discriminate; intros H1 H2.
  - apply ascii_compare_eq in Exy, Eyz. subst.
    replace (Ascii.compare z z) with Eq
      by (symmetry; unfold Ascii.compare; apply N.compare_refl).
    eapply IH; eauto.
  - apply ascii_compare_eq in Exy. subst. now rewrite Eyz.
  - apply ascii_compare_eq in Eyz. subst. now rewrite Exy.
  - now rewrite (ascii_compare_trans _ _ _ Exy Eyz).
Qed.

Lemma chainb_pairs (l : list string) :
  chainb l = true ->
  forall j i a b, (i < j)%nat ->
                  nth_error l i = Some a -> nth_error l j = Some b ->
                  str_lt a b.
Proof.
  intros Hc.
  assert (Hstep : forall l, chainb l = true ->
            forall i a b, nth_error l i = Some a ->
                          nth_error l (S i) = Some b -> str_lt a b).
  { clear. induction l as [|x r IH]; intros Hc i a b Ha Hb.
    - destruct i; discriminate.
    - destruct i as [|i]; simpl in Ha, Hb.
      + destruct r as [|y r]; [discriminate|]. simpl in Hc, Hb.
        apply andb_prop in Hc. destruct Hc as [Hxy _].
        inversion Ha; inversion Hb; subst.
        unfold String.ltb in Hxy. unfold str_lt.
        destruct (String.compare a b); congruence.
      + apply (IH) with (i := i); auto.
        destruct r as [|y r]; [reflexivity|]. simpl in Hc.
        apply andb_prop in Hc. tauto. }
  induction j as [|j IH]; intros i a b Hij Ha Hb; [lia|].
  destruct (Nat.eq_dec i j) as [->|Hne].
  - eapply Hstep; eauto.
  - destruct (nth_error l j) as [m|] eqn:Em.
    + eapply str_lt_trans; [eapply (IH i a m); eauto; lia|].
      eapply Hstep; eauto.
    + exfalso. apply nth_error_None in Em.
      assert (nth_error l (S j) = None) by (apply nth_error_None; lia).
      congruence.
Qed.

(** Below rank 3844 order indices are issued in increasing order: of two
    ranks in [[0, 3844)] the smaller has the index that sorts strictly
    first. *)
Theorem index_for_rank_increasing (r1 r2 : Z) :
  0 <= r1 -> r1 < r2 -> r2 < 3844 ->
  exists s1 s2,
    index_for_rank r1 = Ok s1 /\ index_for_rank r2 = Ok s2 /\ str_lt s1 s2.
Proof.
  intros H0 H12 H2.
  assert (Hok : forall r, 0 <= r ->
            index_for_rank r = Ok (index_of (Z.to_nat r))).
  { intros r Hr. unfold index_of. rewrite Z2Nat.id by exact Hr.
    unfold index_for_rank.
    destruct (Z.ltb_spec r 0); [lia|].
    now destruct (r <? _). }
  exists (index_of (Z.to_nat r1)), (index_of (Z.to_nat r2)).
  split; [apply Hok; lia|]. split; [apply Hok; lia|].
  assert (Hc : chainb (map index_of (seq 0 3844)) = true)
    by (vm_compute; reflexivity).
  eapply chainb_pairs with (j := Z.to_nat r2) (i := Z.to_nat r1);
    [exact Hc|lia| |];
    rewrite nth_error_map, nth_error_seq;
    match goal with
    | |- context [Nat.ltb ?a ?b] =>
        destruct (Nat.ltb_spec a b); [reflexivity|lia]
    end.
Qed.

Lemma index_for_rank_increasing_witness :
  exists s1 s2,
    index_for_rank 61 = Ok s1 /\ index_for_rank 62 = Ok s2 /\ str_lt s1 s2.
Proof.
  apply (@index_for_rank_increasing 61 62); lia.
Defined.

Lemma digit_value_index_char (k : Z) :
  0 <= k < 62 -> digit_value (index_char k) = k.
Proof.
  intros Hk. rewrite <- (Z2Nat.id k) by lia.
  assert (Hn : (Z.to_nat k < 62)%nat) by lia.
  remember (Z.to_nat k) as n eqn:En. clear En Hk.
  do 62 (destruct n as [|n]; [reflexivity|]). lia.
Qed.

Lemma digits_value_index_digits :
  forall fuel n out,
    0 <= n -> (Z.to_nat n <= fuel)%nat ->
    digits_value (index_digits fuel n out) 0 = digits_value out n.
Proof.
  induction fuel as [|fuel IH]; intros n out Hn Hf; simpl.
  - replace n with 0 by lia. reflexivity.
  - destruct (Z.eqb_spec n 0) as [->|Hne]; [reflexivity|].
    assert (Hdiv : 0 <= n / 62 < n)
      by (split; [apply Z.div_pos; lia|apply Z.div_lt; lia]).
    rewrite IH by lia. simpl.
    rewrite digit_value_index_char by (apply Z.mod_pos_bound; lia).
    f_equal. pose proof (Z.div_mod n 62). lia.
Qed.

(** [index_for_rank] raises exactly on a negative rank, and on the others it
    is one-to-one: two ranks with the same order index are the same rank. *)
Theorem index_for_rank_injective (r1 r2 : Z) :
  (index_for_rank r1 = Raise "rank must be non-negative" <-> r1 < 0)
  /\ (forall s, index_for_rank r1 = Ok s -> index_for_rank r2 = Ok s ->
                r1 = r2).
Proof.
  assert (Hval : forall r s, index_for_rank r = Ok s ->
            0 <= r
            /\ ((r < 62 /\ s = String "a" (String (index_char r) EmptyString))
                \/ (62 <= r /\ exists d, s = String "b" d
                                         /\ digits_value d 0 = r))).
  { intros r s. unfold index_for_rank.
    destruct (Z.ltb_spec r 0); [discriminate|].
    change (Z.of_nat (String.length INDEX_CHARS)) with 62.
    destruct (Z.ltb_spec r 62); intros E; inversion E; subst; clear E.
    - split; [lia|]. left. split; [lia|reflexivity].
    - split; [lia|]. right. split; [lia|]. eexists. split; [reflexivity|].
      rewrite digits_value_index_digits by lia. reflexivity. }
  split.
  - unfold index_for_rank. destruct (Z.ltb_spec r1 0).
    + split; auto.
    + split; [|lia]. destruct (r1 <? _); discriminate.
  - intros s E1 E2. apply Hval in E1, E2.
    destruct E1 as [P1 [[L1 S1]|[L1 (d1 & S1 & V1)]]],
             E2 as [P2 [[L2 S2]|[L2 (d2 & S2 & V2)]]]; subst s;
      try discriminate.
    + inversion S2 as [Hc].
      rewrite <- (@digit_value_index_char r1), <- (@digit_value_index_char r2)
        by lia.
      now rewrite Hc.
    + inversion S2; subst. congruence.
Qed.

Lemma index_for_rank_injective_witness :
  index_for_rank 70 = Ok "b18" /\ 70 = 70.
Proof.
  split; [reflexivity|].
  apply (proj2 (index_for_rank_injective 70 70) "b18"); reflexivity.
Defined.

(** ** More on geometry *)

Lemma nabs_Q (a : num) : Qeq (nabs a) (Qabs a).
Proof. unfold nabs. simpl. apply Qred_correct. Qed.

Lemma nltb_false (a b : num) : nltb a b = false -> (b <= a)%Qc.
Proof.
  intros H. apply Qcnot_lt_le. intros Hlt. apply nltb_spec in Hlt. congruence.
Qed.

Lemma nmax_ge (a b : num) : (a <= nmax a b)%Qc /\ (b <= nmax a b)%Qc.
Proof.
  unfold nmax. destruct (nltb a b) eqn:E.
  - apply nltb_spec in E. split; [now apply Qclt_le_weak|apply Qcle_refl].
  - apply nltb_false in E. split; [apply Qcle_refl|exact E].
Qed.

Lemma nmin_le (a b : num) : (nmin a b <= a)%Qc /\ (nmin a b <= b)%Qc.
Proof.
  unfold nmin. destruct (nltb b a) eqn:E.
  - apply nltb_spec in E. split; [now apply Qclt_le_weak|apply Qcle_refl].
  - apply nltb_false in E. split; [apply Qcle_refl|exact E].
Qed.

Lemma list_min_le (l : list num) :
  forall a, (list_min a l <= a)%Qc
            /\ forall x, In x l -> (list_min a l <= x)%Qc.
Proof.
  unfold list_min. induction l as [|b l IH]; intros a; simpl.
  - split; [apply Qcle_refl|tauto].
  - destruct (IH (nmin a b)) as [H1 H2]. destruct (nmin_le a b) as [Ha Hb].
    split; [eapply Qcle_trans; eauto|].
    intros x [<-|Hx]; [eapply Qcle_trans; eauto|auto].
Qed.

Lemma list_max_ge (l : list num) :
  forall a, (a <= list_max a l)%Qc
            /\ forall x, In x l -> (x <= list_max a l)%Qc.
Proof.
  unfold list_max. induction l as [|b l IH]; intros a; simpl.
  - split; [apply Qcle_refl|tauto].
  - destruct (IH (nmax a b)) as [H1 H2]. destruct (nmax_ge a b) as [Ha Hb].
    split; [eapply Qcle_trans; eauto|].
    intros x [<-|Hx]; [eapply Qcle_trans; eauto|auto].
Qed.

Lemma nabs_between (lo hi x : num) :
  (lo <= x)%Qc -> (x <= hi)%Qc -> (nabs x <= nmax (nabs lo) (nabs hi))%Qc.
Proof.
  intros Hlo Hhi. destruct (nmax_ge (nabs lo) (nabs hi)) as [H1 H2].
  unfold Qcle in *. rewrite nabs_Q in *.
  pose proof (Qle_Qabs hi) as A1.
  pose proof (Qle_Qabs (- lo)) as A2. rewrite Qabs_opp in A2.
  apply Qabs_Qle_condition. split; lra.
Qed.

(** After [recalc_arrow_bounds] the declared width and height cover every
    point of the arrow: each point [[px, py]] has [|px| <= width] and
    [|py| <= height]; no other field of the arrow has changed. *)
Theorem recalc_arrow_bounds_cover (arrow : element) (p : point) :
  In p (points_or [(zq 0, zq 0)] arrow) ->
  (nabs (fst p) <= e_width (recalc_arrow_bounds arrow))%Qc
  /\ (nabs (snd p) <= e_height (recalc_arrow_bounds arrow))%Qc
  /\ set_height (e_height arrow)
       (set_width (e_width arrow) (recalc_arrow_bounds arrow)) = arrow.
Proof.
  unfold recalc_arrow_bounds.
  destruct (points_or [(zq 0, zq 0)] arrow) as [|q r]; [intros []|].
  intros Hin. cbn [e_width e_height set_height set_width].
  split; [|split].
  - destruct (list_min_le (map fst r) (fst q)) as [L1 L2].
    destruct (list_max_ge (map fst r) (fst q)) as [M1 M2].
    destruct Hin as [<-|Hin]; apply nabs_between; auto;
      [apply L2|apply M2]; now apply in_map.
  - destruct (list_min_le (map snd r) (snd q)) as [L1 L2].
    destruct (list_max_ge (map snd r) (snd q)) as [M1 M2].
    destruct Hin as [<-|Hin]; apply nabs_between; auto;
      [apply L2|apply M2]; now apply in_map.
  - destruct arrow. reflexivity.
Qed.

Lemma recalc_arrow_bounds_cover_witness :
  Qcle (nabs (zq (-40)))
    (e_height (recalc_arrow_bounds
                 (plain_arrow "a" "s" "t" 0 0 [(0, 0); (30, -40)] 0 0
                    None None))).
Proof.
  apply (@recalc_arrow_bounds_cover
           (plain_arrow "a" "s" "t" 0 0 [(0, 0); (30, -40)] 0 0 None None)
           (zq 30, zq (-40))).
  simpl. right. left. reflexivity.
Defined.


(** *** The stable sort and the nearest edge *)





(** *** Bindings store the edge they were made for *)

(** The binding [make_arrow] builds for a named edge reads back as that edge:
    for one of the four edge names [infer_edge_from_fixed_point] returns the
    name the binding was built with.  Any other non-empty name raises
    [KeyError], and with an empty name the binding has no fixed point. *)
Theorem new_binding_round_trip (target_id edge : string) :
  match new_binding target_id (Some edge) with
  | Ok b =>
      b_elementId b = Some target_id
      /\ ((is_edge edge /\ infer_edge_from_fixed_point (Some b) = Some edge)
          \/ (edge = "" /\ b_fixedPoint b = None))
  | Raise _ => edge <> "" /\ ~ is_edge edge
  | OutOfFuel => False
  end.
Proof.
  unfold new_binding, truthy, is_edge.
  destruct (String.eqb_spec edge "") as [->|Hne]; simpl; [auto|].
  unfold EDGE_TO_FIXED_POINT.
  destruct (String.eqb_spec edge "top") as [->|H1];
    [split; [reflexivity|left; split; [auto|reflexivity]]|].
  destruct (String.eqb_spec edge "bottom") as [->|H2];
    [split; [reflexivity|left; split; [auto|reflexivity]]|].
  destruct (String.eqb_spec edge "left") as [->|H3];
    [split; [reflexivity|left; split; [auto|reflexivity]]|].
  destruct (String.eqb_spec edge "right") as [->|H4];
    [split; [reflexivity|left; split; [auto|reflexivity]]|].
  split; [assumption|tauto].
Qed.

(** ** Ids never collide *)

Section Ids.

Context {G : RandomGen}.
Variable fuel : nat.

Lemma random_suffix_chars :
  forall k r,
    String.length (fst (random_suffix k r)) = k
    /\ forall c, In c (list_ascii_of_string (fst (random_suffix k r))) ->
                 In c (list_ascii_of_string ID_CHARS).
Proof.
  assert (Hchar : forall i, In (id_char i) (list_ascii_of_string ID_CHARS)).
  { intros i. unfold id_char.
    destruct (String.get (Z.to_nat i) ID_CHARS) as [c|] eqn:E;
      [|simpl; auto].
    revert E. generalize (Z.to_nat i). generalize ID_CHARS.
    induction s as [|d s IH]; intros [|n] E; simpl in E; try discriminate.
    - inversion E. now left.
    - right. eapply IH; eauto. }
  induction k as [|k IH]; intros r; simpl.
  - split; [reflexivity|intros c []].
  - destruct (rng_below r 36) as [i r1].
    specialize (IH r1). destruct (random_suffix k r1) as [rest r2].
    simpl in *. destruct IH as [Hl Hc]. split; [now rewrite Hl|].
    intros c [<-|Hin]; auto.
Qed.

(** [random_id] never raises and never returns an id that is reserved or
    was issued before: the id it returns is new, is recorded in the factory,
    and is the prefix, a dash and twelve characters of the lowercase
    alphanumeric alphabet. *)
Theorem random_id_fresh (prefix : string) (f : IdFactory) :
  match random_id fuel prefix f with
  | Ok (v, f') =>
      ~ In v (f_ids f)
      /\ f_ids f' = v :: f_ids f
      /\ f_next_rank f' = f_next_rank f
      /\ exists suffix,
           v = prefix ++ "-" ++ suffix
           /\ String.length suffix = 12%nat
           /\ forall c, In c (list_ascii_of_string suffix) ->
                        In c (list_ascii_of_string ID_CHARS)
  | Raise _ => False
  | OutOfFuel => True
  end.
Proof.
  unfold random_id. revert f.
  induction fuel as [|n IH]; intros f; cbn [random_id_loop]; [exact I|].
  pose proof (random_suffix_chars 12 (f_rng f)) as [Hl Hc].
  destruct (random_suffix 12 (f_rng f)) as [suffix r].
  cbn [fst] in Hl, Hc.
  destruct (mem (prefix ++ "-" ++ suffix) (f_ids f)) eqn:Em.
  - specialize (IH {| f_rng := r; f_next_rank := f_next_rank f;
                      f_ids := f_ids f |}).
    destruct (random_id_loop n prefix _) as [[v f']| |]; auto.
  - apply mem_false in Em. repeat split; auto. now exists suffix.
Qed.

(** [reserve_id] fails with "duplicate element id" exactly when the id is
    already reserved or issued; otherwise it records the id, so that
    reserving it again fails. *)
Theorem reserve_id_duplicate (v : string) (f : IdFactory) :
  (In v (f_ids f) ->
   reserve_id v f = Raise ("duplicate element id: " ++ v))
  /\ (~ In v (f_ids f) ->
      exists f', reserve_id v f = Ok f'
                 /\ f_ids f' = v :: f_ids f
                 /\ reserve_id v f' = Raise ("duplicate element id: " ++ v)).
Proof.
  unfold reserve_id. split; intros H.
  - apply mem_In in H. now rewrite H.
  - apply mem_false in H. rewrite H. eexists. split; [reflexivity|].
    split; [reflexivity|]. cbn [f_ids]. unfold mem. simpl.
    now rewrite String.eqb_refl.
Qed.

End Ids.

Lemma reserve_id_duplicate_witness :
  reserve_id "A" (lcg_factory ["A"]) = Raise "duplicate element id: A".
Proof.
  apply (proj1 (@reserve_id_duplicate lcg "A" (lcg_factory ["A"]))).
  simpl. auto.
Defined.

(** ** The id index *)

Lemma index_from_spec (els : list element) (k : string) :
  forall n,
    match index_from n els k with
    | Some i =>
        (n <= i)%nat
        /\ (exists e, nth_error els (i - n) = Some e /\ e_id e = k)
        /\ forall j e', nth_error els j = Some e' -> e_id e' = k ->
                        (n + j <= i)%nat
    | None => forall e, In e els -> e_id e <> k
    end.
Proof.
  induction els as [|x els IH]; intros n; simpl; [intros e []|].
  specialize (IH (S n)).
  destruct (index_from (S n) els k) as [i|].
  - destruct IH as (Hle & (e & He & Hk) & Hlast). split; [lia|]. split.
    + exists e. split; [|exact Hk].
      replace (i - n)%nat with (S (i - S n)) by lia. exact He.
    + intros [|j] e' He' Hk'; [lia|].
      specialize (Hlast j e' He' Hk'). lia.
  - destruct (String.eqb_spec (e_id x) k) as [Hx|Hx].
    + split; [lia|]. split.
      * exists x. rewrite Nat.sub_diag. auto.
      * intros [|j] e' He' Hk'; [lia|]. simpl in He'.
        exfalso. apply (IH e'); [eapply nth_error_In; eauto|exact Hk'].
    + intros e [<-|Hin]; auto.
Qed.

(** [build_id_index] maps an id to the last element that carries it: a
    lookup that succeeds returns a position holding an element with that id
    and no later position does; a lookup that fails means no element has the
    id. *)
Theorem build_id_index_last (els : list element) (k : string) :
  match build_id_index els k with
  | Some i =>
      (exists e, nth_error els i = Some e /\ e_id e = k)
      /\ forall j e', nth_error els j = Some e' -> e_id e' = k -> (j <= i)%nat
  | None => forall e, In e els -> e_id e <> k
  end.
Proof.
  unfold build_id_index. pose proof (index_from_spec els k 0) as H.
  destruct (index_from 0 els k) as [i|]; [|exact H].
  destruct H as (_ & He & Hlast). rewrite Nat.sub_0_r in He. split; auto.
Qed.

(** ** What the constructors establish *)

(** Equations between rationals built from the arithmetic of the source. *)
Ltac qc_field :=
  apply Qc_is_canon; unfold nadd, ndiv, nsub, nmul, zq, half;
  unfold Qcdiv, Qcminus, Qcplus, Qcmult, Qcinv, Qcopp, Q2Qc; cbn [this];
  rewrite ?Qred_correct; unfold inject_Z; field.

Lemma recalc_arrow_bounds_fields (e : element) :
  e_id (recalc_arrow_bounds e) = e_id e
  /\ e_type (recalc_arrow_bounds e) = e_type e
  /\ e_x (recalc_arrow_bounds e) = e_x e
  /\ e_y (recalc_arrow_bounds e) = e_y e
  /\ e_points (recalc_arrow_bounds e) = e_points e
  /\ e_startBinding (recalc_arrow_bounds e) = e_startBinding e
  /\ e_endBinding (recalc_arrow_bounds e) = e_endBinding e
  /\ e_isDeleted (recalc_arrow_bounds e) = e_isDeleted e
  /\ e_containerId (recalc_arrow_bounds e) = e_containerId e
  /\ e_boundElements (recalc_arrow_bounds e) = e_boundElements e.
Proof.
  unfold recalc_arrow_bounds. destruct (points_or _ e); repeat split.
Qed.

Section Constructors.

Context {G : RandomGen}.
Variable clk : clock.
Variable fuel : nat.

(** A label added by [add_label] is a text element appended to the list,
    with a new id, bound to the shape in both directions (its [containerId]
    is the shape's id and the shape's [boundElements] gains the text), and
    centred on the shape: the centres of the two boxes coincide.  Nothing
    else in the list changes. *)
Theorem add_label_links (s s' : state) (shape t : nat) (label : string)
  (font_size font_family text_height : Z) :
  add_label clk fuel s shape label font_size font_family text_height
  = Ok (s', t) ->
  exists sh te,
    nth_error (st_elements s) shape = Some sh
    /\ t = List.length (st_elements s)
    /\ st_elements s'
       = (update_at shape
            (append_bound {| br_id := e_id te; br_type := "text" |})
            (st_elements s) ++ [te])%list
    /\ ~ In (e_id te) (f_ids (st_ids s))
    /\ e_type te = "text" /\ e_text te = Some label
    /\ e_containerId te = Some (e_id sh)
    /\ nadd (e_x te) (ndiv (e_width te) (zq 2))
       = nadd (e_x sh) (ndiv (e_width sh) (zq 2))
    /\ nadd (e_y te) (ndiv (e_height te) (zq 2))
       = nadd (e_y sh) (ndiv (e_height sh) (zq 2)).
Proof.
  rewrite add_label_nf.
  destruct (deref (st_elements s) shape) as [sh| |] eqn:Esh; simpl;
    try discriminate.
  destruct (allocate fuel (st_ids s) None)
    as [[[[[eid idx] seed] vn] f]| |] eqn:Ea; simpl; try discriminate.
  intros H. inversion H; subst; clear H.
  apply allocate_inv in Ea. destruct Ea as (Hm & _ & _ & _).
  apply deref_Ok in Esh. apply mem_false in Hm.
  exists sh.
  eexists (text_dict eid label _ _ _ _ _ font_size font_family _ idx seed vn _).
  split; [exact Esh|]. split; [reflexivity|].
  split; [reflexivity|]. cbn -[nadd ndiv nsub zq].
  repeat split; auto; qc_field.
Qed.

(** An arrow made by [connect] is appended to the list with a new id; it
    starts at the midpoint of the requested edge of the source, follows the
    route for the offset to the target's edge midpoint, is bound to both
    shapes, and both shapes gain the arrow in their [boundElements].  An
    edge name other than top, bottom, left, right makes [connect] raise. *)
Theorem connect_links (s : state) (source target : nat)
  (source_edge target_edge stroke : string) (elbowed : bool) :
  (forall s' a,
     connect clk fuel s source target source_edge target_edge stroke elbowed
     = Ok (s', a) ->
     exists src tgt ar sx sy tx ty,
       nth_error (st_elements s) source = Some src
       /\ nth_error (st_elements s) target = Some tgt
       /\ edge_point src source_edge = Ok (sx, sy)
       /\ edge_point tgt target_edge = Ok (tx, ty)
       /\ a = List.length (st_elements s)
       /\ st_elements s'
          = (update_at target
               (append_bound {| br_id := e_id ar; br_type := "arrow" |})
               (update_at source
                  (append_bound {| br_id := e_id ar; br_type := "arrow" |})
                  (st_elements s)) ++ [ar])%list
       /\ ~ In (e_id ar) (f_ids (st_ids s))
       /\ e_type ar = "arrow" /\ e_x ar = sx /\ e_y ar = sy
       /\ e_points ar
          = Some (route_points source_edge target_edge (nsub tx sx)
                    (nsub ty sy))
       /\ e_startBinding ar = bind_to (e_id src) source_edge
       /\ e_endBinding ar = bind_to (e_id tgt) target_edge)
  /\ (forall src tgt,
        nth_error (st_elements s) source = Some src ->
        nth_error (st_elements s) target = Some tgt ->
        ~ (is_edge source_edge /\ is_edge target_edge) ->
        exists msg,
          connect clk fuel s source target source_edge target_edge stroke
            elbowed = Raise msg).
Proof.
  rewrite connect_nf. split.
  - intros s' a.
    destruct (deref (st_elements s) source) as [src| |] eqn:Es; simpl;
      try discriminate.
    destruct (deref (st_elements s) target) as [tgt| |] eqn:Et; simpl;
      try discriminate.
    destruct (edge_point src source_edge) as [[sx sy]| |] eqn:Eps; simpl;
      try discriminate.
    destruct (edge_point tgt target_edge) as [[tx ty]| |] eqn:Ept; simpl;
      try discriminate.
    destruct (allocate fuel (st_ids s) None)
      as [[[[[eid idx] seed] vn] f]| |] eqn:Ea; simpl; try discriminate.
    intros H. inversion H; subst; clear H.
    apply allocate_inv in Ea. destruct Ea as (Hm & _ & _ & _).
    apply deref_Ok in Es, Et. apply mem_false in Hm.
    match goal with
    | |- context [(_ ++ [?x])%list] => set (ar := x)
    end.
    assert (Hid : e_id ar = eid).
    { unfold ar, arrow_dict.
      cbn [e_id set_elbowed set_endArrowhead set_startArrowhead set_endBinding
           set_startBinding].
      now rewrite recalc_arrow_bounds_id. }
    exists src, tgt, ar, sx, sy, tx, ty. rewrite Hid.
    repeat split; auto; unfold ar, arrow_dict;
      cbn [e_type e_x e_y e_points e_startBinding e_endBinding set_elbowed
           set_endArrowhead set_startArrowhead set_endBinding
           set_startBinding];
      try reflexivity;
      match goal with
      | |- context [recalc_arrow_bounds ?e] =>
          destruct (recalc_arrow_bounds_fields e)
            as (_ & Ht' & Hx & Hy & Hp & _);
          first [rewrite Ht'|rewrite Hx|rewrite Hy|rewrite Hp]; reflexivity
      end.
  - intros src tgt Es Et Hne. unfold deref. rewrite Es, Et. simpl.
    destruct (edge_point src source_edge) as [[sx sy]| |] eqn:Eps; simpl;
      eauto.
    + destruct (edge_point tgt target_edge) as [[tx ty]| |] eqn:Ept; simpl;
        eauto.
      * exfalso. apply Hne.
        split; eapply edge_point_Ok_is_edge; eauto.
      * exfalso. revert Ept. unfold edge_point.
        repeat match goal with
               | |- context [if ?c then _ else _] => destruct c
               end; discriminate.
    + exfalso. revert Eps. unfold edge_point.
      repeat match goal with
             | |- context [if ?c then _ else _] => destruct c
             end; discriminate.
Qed.

End Constructors.

(** ** Cross-references stay reciprocated *)

Lemma evolves_refl (e : element) : evolves e e.
Proof. unfold evolves. repeat split; auto. apply incl_refl. Qed.

Lemma evolves_trans (a b c : element) :
  evolves a b -> evolves b c -> evolves a c.
Proof.
  unfold evolves. intros (A1 & A2 & A3 & A4 & A5 & A6 & A7)
                         (B1 & B2 & B3 & B4 & B5 & B6 & B7).
  repeat split; try congruence; auto.
  eapply incl_tran; eauto.
Qed.

Lemma evolves_list_refl (l : list element) : Forall2 evolves l l.
Proof. induction l; constructor; auto using evolves_refl. Qed.

Lemma evolves_list_trans (l1 l2 l3 : list element) :
  Forall2 evolves l1 l2 -> Forall2 evolves l2 l3 -> Forall2 evolves l1 l3.
Proof.
  intros H. revert l3.
  induction H as [|a b l1 l2 Hab H IH]; intros l3 H3; inversion H3; subst;
    constructor; eauto using evolves_trans.
Qed.

Lemma evolves_update_at (f : element -> element) (l : list element) (i : nat) :
  (forall e, nth_error l i = Some e -> evolves e (f e)) ->
  Forall2 evolves l (update_at i f l).
Proof.
  revert i. induction l as [|a l IH]; intros [|i] H; simpl; constructor;
    auto using evolves_list_refl, evolves_refl.
Qed.

Lemma evolves_ids (l l' : list element) :
  Forall2 evolves l l' -> map e_id l' = map e_id l.
Proof.
  induction 1 as [|a b l l' Hab H IH]; simpl; [reflexivity|].
  destruct Hab as (Hid & _). congruence.
Qed.

Lemma evolves_In (l l' : list element) :
  Forall2 evolves l l' ->
  (forall e', In e' l' -> exists e, In e l /\ evolves e e')
  /\ (forall e, In e l -> exists e', In e' l' /\ evolves e e').
Proof.
  induction 1 as [|a b l l' Hab H [IH1 IH2]]; simpl.
  - split; intros e [].
  - split.
    + intros e' [<-|Hin]; [exists a; auto|].
      destruct (IH1 e' Hin) as (e & He & Hev). exists e; auto.
    + intros e [<-|Hin]; [exists b; auto|].
      destruct (IH2 e Hin) as (e' & He & Hev). exists e'; auto.
Qed.

Lemma reciprocated_evolves (l l' : list element) :
  Forall2 evolves l l' -> reciprocated l -> reciprocated l'.
Proof.
  intros Hev [Ht Ha]. destruct (evolves_In Hev) as [Hback Hfwd]. split.
  - intros t' c Hin Hact Hty Hc.
    destruct (Hback t' Hin) as (t & Hint & (E1 & E2 & E3 & _ & _ & E6 & _)).
    assert (Hty' : e_type t = "text") by congruence.
    assert (Hc' : e_containerId t = Some c) by congruence.
    destruct (Ht t c Hint (E6 Hact) Hty' Hc') as (s & Hs & Hsid & Href).
    destruct (Hfwd s Hs) as (s' & Hs' & (F1 & _ & _ & _ & _ & _ & F7)).
    exists s'. split; [exact Hs'|]. split; [congruence|].
    unfold has_ref in *. rewrite E1. now apply F7.
  - intros a' sid Hin Hact Hty Hb.
    destruct (Hback a' Hin) as (a & Hina & (E1 & E2 & _ & E4 & E5 & E6 & _)).
    assert (Hb' : binding_elementId (e_startBinding a) = Some sid
                  \/ binding_elementId (e_endBinding a) = Some sid)
      by (rewrite <- E4, <- E5; exact Hb).
    assert (Hty' : e_type a = "arrow") by congruence.
    destruct (Ha a sid Hina (E6 Hact) Hty' Hb') as (s & Hs & Hsid & Href).
    destruct (Hfwd s Hs) as (s' & Hs' & (F1 & _ & _ & _ & _ & _ & F7)).
    exists s'. split; [exact Hs'|]. split; [congruence|].
    unfold has_ref in *. rewrite E1. now apply F7.
Qed.

(** Appending an element whose own references are reciprocated. *)
Lemma reciprocated_app (l : list element) (e : element) :
  reciprocated l ->
  (forall c, e_isDeleted e = false -> e_type e = "text" ->
             e_containerId e = Some c ->
             exists s, In s l /\ e_id s = c /\ has_ref s (e_id e) "text") ->
  (forall sid, e_isDeleted e = false -> e_type e = "arrow" ->
               (binding_elementId (e_startBinding e) = Some sid
                \/ binding_elementId (e_endBinding e) = Some sid) ->
               exists s, In s l /\ e_id s = sid /\ has_ref s (e_id e) "arrow") ->
  reciprocated (l ++ [e]).
Proof.
  intros [Ht Ha] Het Hea. split.
  - intros t c Hin Hact Hty Hc. apply in_app_or in Hin.
    destruct Hin as [Hin|[<-|[]]].
    + destruct (Ht t c Hin Hact Hty Hc) as (s & Hs & H1 & H2).
      exists s. split; [apply in_or_app; now left|auto].
    + destruct (Het c Hact Hty Hc) as (s & Hs & H1 & H2).
      exists s. split; [apply in_or_app; now left|auto].
  - intros a sid Hin Hact Hty Hb. apply in_app_or in Hin.
    destruct Hin as [Hin|[<-|[]]].
    + destruct (Ha a sid Hin Hact Hty Hb) as (s & Hs & H1 & H2).
      exists s. split; [apply in_or_app; now left|auto].
    + destruct (Hea sid Hact Hty Hb) as (s & Hs & H1 & H2).
      exists s. split; [apply in_or_app; now left|auto].
Qed.

Lemma NoDup_app_one (l : list string) (x : string) :
  NoDup l -> ~ In x l -> NoDup (l ++ [x]).
Proof.
  intros Hl Hx. apply NoDup_app; auto.
  - constructor; [intros []|constructor].
  - intros a Ha [<-|[]]. contradiction.
Qed.

Lemma evolves_append_bound (item : bound_ref) (e : element) :
  evolves e (append_bound item e).
Proof.
  unfold evolves, append_bound. cbn. repeat split; auto.
  unfold bound_list. cbn. intros x Hx. apply in_or_app. now left.
Qed.

Lemma nth_error_update_at_same (f : element -> element) (l : list element)
  (i : nat) (e : element) :
  nth_error l i = Some e -> nth_error (update_at i f l) i = Some (f e).
Proof.
  intros H. rewrite nth_error_update_at, Nat.eqb_refl, H. reflexivity.
Qed.

Section LinkedConstructors.

Context {G : RandomGen}.
Variable clk : clock.
Variable fuel : nat.

Lemma linked_append (s : state) (els1 : list element) (e : element)
  (f' : IdFactory) (w : world) :
  linked_state s ->
  Forall2 evolves (st_elements s) els1 ->
  mem (e_id e) (f_ids (st_ids s)) = false ->
  f_ids f' = e_id e :: f_ids (st_ids s) ->
  (forall c, e_isDeleted e = false -> e_type e = "text" ->
             e_containerId e = Some c ->
             exists x, In x els1 /\ e_id x = c /\ has_ref x (e_id e) "text") ->
  (forall sid, e_isDeleted e = false -> e_type e = "arrow" ->
               (binding_elementId (e_startBinding e) = Some sid
                \/ binding_elementId (e_endBinding e) = Some sid) ->
               exists x, In x els1 /\ e_id x = sid
                         /\ has_ref x (e_id e) "arrow") ->
  linked_state {| st_elements := (els1 ++ [e])%list; st_ids := f';
                  st_world := w |}.
Proof.
  intros [[Hnd Hrec] Hincl] Hev Hm Hids Ht Ha.
  pose proof (evolves_ids Hev) as Hmap. apply mem_false in Hm.
  unfold linked_state, well_linked. cbn [st_elements st_ids].
  rewrite map_app, Hmap. cbn [map]. split; [split|].
  - apply NoDup_app_one; auto.
  - apply reciprocated_app; auto. eapply reciprocated_evolves; eauto.
  - rewrite Hids. intros x Hx. apply in_app_or in Hx.
    destruct Hx as [Hx|[<-|[]]]; [right; auto|now left].
Qed.

Lemma make_shape_linked (s s' : state) (i : nat) (etype : string)
  (x y width height : num) (stroke background : string) (stroke_width : Z)
  (stroke_style : string) (roughness : Z) (element_id : option string) :
  linked_state s ->
  make_shape clk fuel s etype x y width height stroke background stroke_width
    stroke_style roughness element_id = Ok (s', i) ->
  linked_state s'.
Proof.
  intros Hs. rewrite make_shape_nf.
  destruct (allocate fuel (st_ids s) element_id)
    as [[[[[eid idx] seed] vn] f]| |] eqn:Ea; simpl; try discriminate.
  intros H. inversion H; subst; clear H.
  apply allocate_inv in Ea. destruct Ea as (Hm & (r & ->) & _ & _).
  apply linked_append with (s := s); auto using evolves_list_refl; cbn; intros;
    try discriminate;
    try match goal with H : _ \/ _ |- _ => destruct H; discriminate end.
Qed.

Lemma make_text_linked (s s' : state) (i : nat) (content : string)
  (x y width height : num) (font_size font_family : Z) (stroke : string) :
  linked_state s ->
  make_text clk fuel s content x y width height None font_size font_family
    stroke = Ok (s', i) ->
  linked_state s'.
Proof.
  intros Hs. rewrite make_text_nf.
  destruct (allocate fuel (st_ids s) None)
    as [[[[[eid idx] seed] vn] f]| |] eqn:Ea; simpl; try discriminate.
  intros H. inversion H; subst; clear H.
  apply allocate_inv in Ea. destruct Ea as (Hm & (r & ->) & _ & _).
  apply linked_append with (s := s); auto using evolves_list_refl; cbn; intros;
    try discriminate;
    try match goal with H : _ \/ _ |- _ => destruct H; discriminate end.
Qed.

Lemma add_label_linked (s s' : state) (shape i : nat) (label : string)
  (font_size font_family text_height : Z) :
  linked_state s ->
  add_label clk fuel s shape label font_size font_family text_height
  = Ok (s', i) ->
  linked_state s'.
Proof.
  intros Hs. rewrite add_label_nf.
  destruct (deref (st_elements s) shape) as [sh| |] eqn:Esh; simpl;
    try discriminate.
  destruct (allocate fuel (st_ids s) None)
    as [[[[[eid idx] seed] vn] f]| |] eqn:Ea; simpl; try discriminate.
  intros H. inversion H; subst; clear H.
  apply allocate_inv in Ea. destruct Ea as (Hm & (r & ->) & _ & _).
  apply deref_Ok in Esh.
  apply linked_append with (s := s); auto.
  - apply evolves_update_at. intros. apply evolves_append_bound.
  - cbn. intros c _ _ Hc. inversion Hc; subst.
    exists (append_bound {| br_id := eid; br_type := "text" |} sh).
    split; [|split].
    + eapply nth_error_In. now apply nth_error_update_at_same.
    + reflexivity.
    + unfold has_ref, append_bound, bound_list. cbn.
      apply in_or_app. right. now left.
  - cbn. intros sid _ Hty. discriminate.
Qed.

Lemma bind_to_elementId (target_id edge sid : string) :
  binding_elementId (bind_to target_id edge) = Some sid -> sid = target_id.
Proof.
  unfold bind_to. destruct (target_id == ""); simpl; congruence.
Qed.

Lemma arrow_dict_fields (eid : string) (x y : num) (points : list point)
  (sb eb : option binding) (stroke : string) (sw : Z) (elbowed : bool)
  (idx : string) (seed vnonce ts : Z) :
  let ar := arrow_dict eid x y points sb eb stroke sw elbowed idx seed vnonce
              ts in
  e_id ar = eid /\ e_type ar = "arrow" /\ e_startBinding ar = sb
  /\ e_endBinding ar = eb /\ e_containerId ar = None
  /\ e_isDeleted ar = false /\ e_x ar = x /\ e_y ar = y
  /\ e_points ar = Some points.
Proof.
  unfold arrow_dict.
  cbn [e_id e_type e_startBinding e_endBinding e_containerId e_isDeleted e_x
       e_y e_points set_elbowed set_endArrowhead set_startArrowhead
       set_endBinding set_startBinding].
  match goal with
  | |- context [recalc_arrow_bounds ?e] =>
      destruct (recalc_arrow_bounds_fields e)
        as (-> & -> & -> & -> & -> & _ & _ & -> & -> & _)
  end.
  repeat split.
Qed.

Lemma connect_linked (s s' : state) (source target i : nat)
  (source_edge target_edge stroke : string) (elbowed : bool) :
  linked_state s ->
  connect clk fuel s source target source_edge target_edge stroke elbowed
  = Ok (s', i) ->
  linked_state s'.
Proof.
  intros Hs. rewrite connect_nf.
  destruct (deref (st_elements s) source) as [src| |] eqn:Es; simpl;
    try discriminate.
  destruct (deref (st_elements s) target) as [tgt| |] eqn:Et; simpl;
    try discriminate.
  destruct (edge_point src source_edge) as [[sx sy]| |]; simpl;
    try discriminate.
  destruct (edge_point tgt target_edge) as [[tx ty]| |]; simpl;
    try discriminate.
  destruct (allocate fuel (st_ids s) None)
    as [[[[[eid idx] seed] vn] f]| |] eqn:Ea; simpl; try discriminate.
  intros H. inversion H; subst; clear H.
  apply allocate_inv in Ea. destruct Ea as (Hm & (r & ->) & _ & _).
  apply deref_Ok in Es, Et.
  match goal with
  | |- context [(_ ++ [?x])%list] =>
      destruct (arrow_dict_fields eid sx sy
                  (route_points source_edge target_edge (nsub tx sx)
                     (nsub ty sy))
                  (bind_to (e_id src) source_edge)
                  (bind_to (e_id tgt) target_edge) stroke 2 elbowed idx seed
                  vn (clk (w_ticks (st_world s))))
        as (Hid & Hty & Hsb & Heb & Hc & _)
  end.
  set (item := {| br_id := eid; br_type := "arrow" |}).
  set (els1 := update_at source (append_bound item) (st_elements s)).
  assert (Hev1 : Forall2 evolves (st_elements s) els1)
    by (apply evolves_update_at; intros; apply evolves_append_bound).
  assert (Hev2 : Forall2 evolves els1 (update_at target (append_bound item) els1))
    by (apply evolves_update_at; intros; apply evolves_append_bound).
  apply linked_append with (s := s); auto.
  - eapply evolves_list_trans; eauto.
  - now rewrite Hid.
  - now rewrite Hid.
  - rewrite Hc. discriminate.
  - rewrite Hid, Hsb, Heb. intros sid _ _ [Hb|Hb];
      apply bind_to_elementId in Hb; subst sid.
    + (* the source, updated once or twice *)
      assert (H1 : nth_error els1 source = Some (append_bound item src))
        by (now apply nth_error_update_at_same).
      destruct (evolves_In Hev2) as [_ Hfwd].
      destruct (Hfwd _ (nth_error_In _ _ H1))
        as (x & Hx & (X1 & _ & _ & _ & _ & _ & X7)).
      exists x. split; [exact Hx|]. split; [rewrite X1; reflexivity|].
      unfold has_ref. apply X7. unfold append_bound, bound_list. cbn.
      apply in_or_app. right. now left.
    + assert (Hlen : nth_error els1 target <> None).
      { apply nth_error_Some. unfold els1. rewrite update_at_length.
        apply nth_error_Some. congruence. }
      destruct (nth_error els1 target) as [t1|] eqn:Et1; [|congruence].
      assert (Ht1 : e_id t1 = e_id tgt).
      { unfold els1 in Et1.
        rewrite nth_error_update_at in Et1. rewrite Et in Et1.
        destruct (Nat.eqb source target); simpl in Et1;
          inversion Et1; reflexivity. }
      exists (append_bound item t1). split; [|split].
      * eapply nth_error_In. now apply nth_error_update_at_same.
      * exact Ht1.
      * unfold has_ref, append_bound, bound_list. cbn.
        apply in_or_app. right. now left.
Qed.

End LinkedConstructors.

Lemma for_each_inv {A S} (P : S -> Prop) (body : S -> A -> result S) :
  (forall s a s', P s -> body s a = Ok s' -> P s') ->
  forall l s s', P s -> for_each body l s = Ok s' -> P s'.
Proof.
  intros Hbody. induction l as [|a l IH]; intros s s' Hs H; simpl in H.
  - inversion H; subst. exact Hs.
  - destruct (body s a) as [s1| |] eqn:E; simpl in H; try discriminate.
    eapply IH; [|exact H]. eapply Hbody; eauto.
Qed.

Lemma evolves_map (f : element -> element) (l : list element) :
  (forall e, evolves e (f e)) -> Forall2 evolves l (map f l).
Proof.
  intros Hf. induction l; simpl; constructor; auto.
Qed.

Lemma well_linked_evolves (l l' : list element) :
  Forall2 evolves l l' -> well_linked l -> well_linked l'.
Proof.
  intros Hev [Hnd Hrec]. split.
  - now rewrite (evolves_ids Hev).
  - eapply reciprocated_evolves; eauto.
Qed.

Section LinkedBuild.

Context {G : RandomGen}.
Variable clk : clock.
Variable fuel : nat.

Lemma build_node_linked (style : Z * Z) (acc acc' : state * list (string * nat))
  (node : node_spec) :
  linked_state (fst acc) ->
  build_node clk fuel style acc node = Ok acc' ->
  linked_state (fst acc').
Proof.
  destruct acc as [s aliases]. cbn [fst]. intros Hs. unfold build_node.
  destruct (n_id node) as [alias|]; try discriminate.
  destruct (alias == ""); try discriminate.
  destruct (alias_get aliases alias); try discriminate.
  destruct (negb (VALID_SHAPES _)); try discriminate.
  destruct (make_shape _ _ _ _ _ _ _ _ _ _ _ _ _ _) as [[s1 shape]| |] eqn:E1;
    cbn [bind]; try discriminate.
  apply make_shape_linked in E1; [|exact Hs].
  destruct (truthy (n_label node)).
  - destruct (add_label _ _ _ _ _ _ _ _) as [[s2 t]| |] eqn:E2; cbn [bind];
      try discriminate.
    apply add_label_linked in E2; [|exact E1].
    intros H. inversion H; subst. exact E2.
  - intros H. inversion H; subst. exact E1.
Qed.

Lemma build_edge_linked (style : Z * Z) (aliases : list (string * nat))
  (s s' : state) (edge : edge_spec) :
  linked_state s ->
  build_edge clk fuel style aliases s edge = Ok s' ->
  linked_state s'.
Proof.
  intros Hs. unfold build_edge.
  destruct (index_get _ (g_from edge)); try discriminate.
  destruct (index_get _ (g_to edge)); try discriminate.
  destruct (connect _ _ _ _ _ _ _ _ _) as [[s1 a]| |] eqn:E1; cbn [bind];
    try discriminate.
  apply connect_linked in E1; [|exact Hs].
  destruct (truthy (g_label edge)).
  - destruct (deref (st_elements s1) a) as [arrow| |]; cbn [bind];
      try discriminate.
    destruct (make_text _ _ _ _ _ _ _ _ _ _ _ _) as [[s2 t]| |] eqn:E2;
      cbn [bind]; try discriminate.
    apply make_text_linked in E2; [|exact E1].
    intros H. inversion H; subst. exact E2.
  - intros H. inversion H; subst. exact E1.
Qed.

Lemma build_linked (w : world) (sp : spec) (d : document) :
  build clk fuel w sp = Ok d -> well_linked (d_elements d).
Proof.
  unfold build, build_state. cbn [IdFactory_init].
  match goal with
  | |- context [for_each _ (sp_nodes sp) (?s0, [])] =>
      assert (H0 : linked_state (fst (s0, [] : list (string * nat))))
  end.
  { cbn. repeat split; try constructor; intros ? ? [] || intros ? []. }
  destruct (for_each (build_node clk fuel (_read_style sp)) (sp_nodes sp) _)
    as [[s1 aliases]| |] eqn:En; cbn [bind]; try discriminate.
  apply (for_each_inv (fun acc => linked_state (fst acc))) in En;
    [|intros; eapply build_node_linked; eauto|exact H0].
  cbn [fst] in En.
  destruct (for_each (build_edge clk fuel (_read_style sp) aliases)
              (sp_edges sp) s1) as [s2| |] eqn:Ee; cbn [bind];
    try discriminate.
  apply (for_each_inv linked_state) in Ee;
    [|intros; eapply build_edge_linked; eauto|exact En].
  destruct Ee as [Hwl _].
  destruct (sp_updated sp) as [ts|]; intros H; inversion H; subst; clear H;
    cbn [d_elements new_document st_elements with_elements]; auto.
  eapply well_linked_evolves; [|exact Hwl].
  apply evolves_map. intros e. unfold evolves. cbn. repeat split; auto.
  apply incl_refl.
Qed.

End LinkedBuild.

Section LinkedEdits.

Context {G : RandomGen}.
Variable clk : clock.
Variable fuel : nat.

Lemma touch_evolves (e : element) (f : option IdFactory) (ts : option Z)
  (w : world) :
  evolves e (fst (fst (touch clk e f ts w))).
Proof.
  unfold touch, nonce.
  destruct ts; cbn [now_ms]; destruct f;
    repeat match goal with
           | |- context [randint ?r ?a ?b] => destruct (randint r a b)
           end;
    unfold evolves; cbn; repeat split; auto using incl_refl.
Qed.

Lemma evolves_replace (l : list element) (i : nat) (e e' : element) :
  nth_error l i = Some e -> evolves e e' ->
  Forall2 evolves l (update_at i (fun _ => e') l).
Proof.
  intros Hn He. apply evolves_update_at. intros e0 H0. congruence.
Qed.

Lemma touch_at_evolves (i : nat) (m m' : mover) :
  touch_at clk i m = Ok m' ->
  Forall2 evolves (m_elements m) (m_elements m').
Proof.
  unfold touch_at.
  destruct (deref (m_elements m) i) as [e| |] eqn:E; cbn [bind];
    try discriminate.
  pose proof (touch_evolves e (m_ids m) None (m_world m)) as Hev.
  destruct (touch clk e (m_ids m) None (m_world m)) as [[e' f] w].
  intros H. inversion H; subst; clear H. cbn [m_elements].
  apply deref_Ok in E. eapply evolves_replace; eauto.
Qed.

Lemma translate_at_evolves (i : nat) (dx dy : num) (m m' : mover) :
  translate_at clk i dx dy m = Ok m' ->
  Forall2 evolves (m_elements m) (m_elements m').
Proof.
  unfold translate_at.
  destruct (deref (m_elements m) i) as [e| |] eqn:E; cbn [bind];
    try discriminate.
  intros H. apply touch_at_evolves in H. cbn [m_elements] in H.
  eapply evolves_list_trans; [|exact H].
  apply deref_Ok in E. eapply evolves_replace; eauto.
  unfold evolves. cbn. repeat split; auto using incl_refl.
Qed.

Lemma set_fixed_point_elementId (edge : string) (b : option binding) :
  binding_elementId (set_fixed_point edge b) = binding_elementId b.
Proof.
  unfold set_fixed_point. destruct (EDGE_TO_FIXED_POINT edge), b; reflexivity.
Qed.

Lemma evolves_recalc (e e' : element) :
  evolves e e' -> evolves e (recalc_arrow_bounds e').
Proof.
  intros H. eapply evolves_trans; [exact H|].
  destruct (recalc_arrow_bounds_fields e')
    as (H1 & H2 & _ & _ & _ & H6 & H7 & H8 & H9 & H10).
  unfold evolves, bound_list.
  rewrite H1, H2, H6, H7, H8, H9, H10. repeat split; auto using incl_refl.
Qed.

Lemma reroute_evolves (arrow arrow' : element) (source target : option element)
  (flag : bool) :
  reroute arrow source target = Ok (arrow', flag) -> evolves arrow arrow'.
Proof.
  unfold reroute. destruct (arrow_endpoints arrow) as [start_pt end_pt].
  destruct source as [src|], target as [tgt|];
    repeat match goal with
           | |- context [infer_edge ?b ?s ?p] =>
               destruct (infer_edge b s p); cbn [bind]; try discriminate
           | |- context [edge_point ?s ?e] =>
               destruct (edge_point s e) as [[? ?]| |]; cbn [bind];
               try discriminate
           end;
    intros H; inversion H; subst; clear H;
    try apply evolves_refl;
    apply evolves_recalc; unfold evolves; cbn;
    rewrite ?set_fixed_point_elementId; repeat split; auto using incl_refl.
Qed.

Lemma reroute_arrow_evolves (els els' : list element)
  (idx : string -> option nat) (a : nat) (flag : bool) :
  reroute_arrow els idx a = Ok (els', flag) -> Forall2 evolves els els'.
Proof.
  unfold reroute_arrow.
  destruct (deref els a) as [arrow| |] eqn:E; cbn [bind]; try discriminate.
  destruct (reroute arrow _ _) as [[arrow' changed]| |] eqn:Er; cbn [bind];
    try discriminate.
  intros H. inversion H; subst; clear H.
  apply deref_Ok in E. apply reroute_evolves in Er.
  eapply evolves_replace; eauto.
Qed.

Lemma move_arrow_step_evolves (idx : string -> option nat) (shape : nat)
  (m m' : mover) (a : nat) :
  move_arrow_step clk idx shape m a = Ok m' ->
  Forall2 evolves (m_elements m) (m_elements m').
Proof.
  unfold move_arrow_step.
  destruct (deref (m_elements m) a) as [arrow| |]; cbn [bind];
    try discriminate.
  destruct (negb (e_type arrow == "arrow"));
    [intros H; inversion H; subst; apply evolves_list_refl|].
  destruct (deref (m_elements m) shape) as [sh| |]; cbn [bind];
    try discriminate.
  destruct (_ || _);
    [|intros H; inversion H; subst; apply evolves_list_refl].
  destruct (reroute_arrow (m_elements m) idx a) as [[els' changed]| |] eqn:Er;
    cbn [bind]; try discriminate.
  apply reroute_arrow_evolves in Er.
  destruct changed.
  - destruct (touch_at clk a _) as [m1| |] eqn:Et; cbn [bind];
      try discriminate.
    apply touch_at_evolves in Et. cbn [m_elements] in Et.
    intros H. inversion H; subst; clear H. cbn [m_elements].
    eapply evolves_list_trans; eauto.
  - intros H. inversion H; subst; clear H. exact Er.
Qed.

Lemma move_bound_step_evolves (idx : string -> option nat) (dx dy : num)
  (m m' : mover) (item : bound_ref) :
  move_bound_step clk idx dx dy m item = Ok m' ->
  Forall2 evolves (m_elements m) (m_elements m').
Proof.
  unfold move_bound_step.
  destruct (negb (br_type item == "arrow"));
    [intros H; inversion H; subst; apply evolves_list_refl|].
  destruct (idx (br_id item)) as [a|];
    [|intros H; inversion H; subst; apply evolves_list_refl].
  destruct (deref (m_elements m) a) as [arrow| |]; cbn [bind];
    try discriminate.
  destruct (_ || _);
    [intros H; inversion H; subst; apply evolves_list_refl|].
  apply translate_at_evolves.
Qed.

Lemma move_evolves (els : list element) (shape : nat) (dx dy : num)
  (ids : option IdFactory) (w : world) (m : mover) :
  move_shape_and_dependents clk els shape dx dy ids w = Ok m ->
  Forall2 evolves els (m_elements m).
Proof.
  unfold move_shape_and_dependents.
  destruct (translate_at clk shape dx dy _) as [m1| |] eqn:E1; cbn [bind];
    try discriminate.
  apply translate_at_evolves in E1. cbn [m_elements] in E1.
  destruct (deref (m_elements m1) shape) as [sh| |]; cbn [bind];
    try discriminate.
  assert (E2 : forall m2,
             match text_for_container (m_elements m1) (e_id sh) with
             | Some label => translate_at clk label dx dy m1
             | None => Ok m1
             end = Ok m2 -> Forall2 evolves els (m_elements m2)).
  { intros m2. destruct (text_for_container _ _).
    - intros H. apply translate_at_evolves in H.
      eapply evolves_list_trans; eauto.
    - intros H. inversion H; subst. exact E1. }
  destruct (match text_for_container (m_elements m1) (e_id sh) with
            | Some label => translate_at clk label dx dy m1
            | None => Ok m1
            end) as [m2| |]; cbn [bind]; try discriminate.
  specialize (E2 m2 eq_refl).
  destruct (for_each (move_arrow_step clk (build_id_index els) shape) _ m2)
    as [m3| |] eqn:E3; cbn [bind]; try discriminate.
  apply (for_each_inv (fun x => Forall2 evolves els (m_elements x))) in E3;
    [|intros x a x' Hx Hstep; apply move_arrow_step_evolves in Hstep;
      eapply evolves_list_trans; eauto|exact E2].
  destruct (deref (m_elements m3) shape) as [sh3| |]; cbn [bind];
    try discriminate.
  intros E4.
  apply (for_each_inv (fun x => Forall2 evolves els (m_elements x))) in E4;
    [exact E4| |exact E3].
  intros x a x' Hx Hstep. apply move_bound_step_evolves in Hstep.
  eapply evolves_list_trans; eauto.
Qed.

Lemma delete_step_evolves (m m' : mover) (i : nat) :
  delete_step clk m i = Ok m' ->
  Forall2 evolves (m_elements m) (m_elements m').
Proof.
  unfold delete_step.
  destruct (deref (m_elements m) i) as [e| |] eqn:E; cbn [bind];
    try discriminate.
  destruct (e_isDeleted e);
    [intros H; inversion H; subst; apply evolves_list_refl|].
  intros H. apply touch_at_evolves in H. cbn [m_elements] in H.
  eapply evolves_list_trans; [|exact H].
  apply evolves_update_at. intros e0 _.
  unfold evolves. cbn. repeat split; auto using incl_refl. discriminate.
Qed.

End LinkedEdits.

Section LinkedCommands.

Context {G : RandomGen}.

Lemma build_factory_linked (clk : clock) (els : list element) (w : world) :
  well_linked els ->
  linked_state {| st_elements := els; st_ids := fst (_build_factory clk els w);
                  st_world := snd (_build_factory clk els w) |}.
Proof.
  intros H. split; [exact H|]. cbn. apply incl_refl.
Qed.

Lemma cmd_move_linked clk w label dx dy d d' :
  well_linked (d_elements d) ->
  cmd_move clk d w label dx dy = Ok d' -> well_linked (d_elements d').
Proof.
  intros Hd. unfold cmd_move.
  destruct (_build_factory clk (d_elements d) w) as [factory w1].
  destruct (_required_shape_by_label _ _) as [shape| |]; cbn [bind];
    try discriminate.
  destruct (move_shape_and_dependents _ _ _ _ _ _ _) as [m| |] eqn:E;
    cbn [bind]; try discriminate.
  intros H. inversion H; subst; clear H. cbn [d_elements with_doc_elements].
  apply move_evolves in E. eapply well_linked_evolves; eauto.
Qed.

Lemma cmd_relabel_linked clk w label text d d' :
  well_linked (d_elements d) ->
  cmd_relabel clk d w label text = Ok d' -> well_linked (d_elements d').
Proof.
  intros Hd. unfold cmd_relabel.
  destruct (_build_factory clk (d_elements d) w) as [factory w1].
  destruct (_required_text_by_label _ _) as [t| |]; cbn [bind];
    try discriminate.
  destruct (deref (d_elements d) t) as [e| |] eqn:E; cbn [bind];
    try discriminate.
  pose proof (touch_evolves clk
                (set_originalText (Some text) (set_text (Some text) e))
                (Some factory) None w1) as Hev.
  destruct (touch clk _ (Some factory) None w1) as [[e2 f] w2].
  intros H. inversion H; subst; clear H. cbn [d_elements with_doc_elements].
  eapply well_linked_evolves; [|exact Hd].
  apply deref_Ok in E. eapply evolves_replace; [exact E|]. exact Hev.
Qed.

Lemma cmd_recolor_linked clk w label stroke background d d' :
  well_linked (d_elements d) ->
  cmd_recolor clk d w label stroke background = Ok d' ->
  well_linked (d_elements d').
Proof.
  intros Hd. unfold cmd_recolor.
  destruct (_build_factory clk (d_elements d) w) as [factory w1].
  destruct (_required_shape_by_label _ _) as [shape| |]; cbn [bind];
    try discriminate.
  destruct (deref (d_elements d) shape) as [e| |] eqn:E; cbn [bind];
    try discriminate.
  set (e2 := if truthy background
             then set_backgroundColor (get_or background "")
                    (if truthy stroke
                     then set_strokeColor (get_or stroke "") e else e)
             else if truthy stroke
                  then set_strokeColor (get_or stroke "") e else e).
  assert (He2 : evolves e e2).
  { unfold e2. destruct (truthy background), (truthy stroke);
      unfold evolves; cbn; repeat split; auto using incl_refl. }
  pose proof (touch_evolves clk e2 (Some factory) None w1) as Hev.
  destruct (touch clk e2 (Some factory) None w1) as [[e3 f1] w2].
  cbn [fst] in Hev.
  assert (H1 : Forall2 evolves (d_elements d)
                 (update_at shape (fun _ => e3) (d_elements d))).
  { apply deref_Ok in E. eapply evolves_replace; eauto.
    eapply evolves_trans; eauto. }
  destruct (first_where _ _) as [t|];
    [|intros H; inversion H; subst; eapply well_linked_evolves; eauto].
  destruct (truthy stroke);
    [|intros H; inversion H; subst; eapply well_linked_evolves; eauto].
  destruct (deref _ t) as [te| |] eqn:Et; cbn [bind]; try discriminate.
  pose proof (touch_evolves clk (set_strokeColor (get_or stroke "") te) f1
                None w2) as Hev2.
  destruct (touch clk _ f1 None w2) as [[te1 f2] w3]. cbn [fst] in Hev2.
  intros H. inversion H; subst; clear H. cbn [d_elements with_doc_elements].
  eapply well_linked_evolves; [|exact Hd].
  eapply evolves_list_trans; [exact H1|].
  apply deref_Ok in Et. eapply evolves_replace; [exact Et|]. exact Hev2.
Qed.

Lemma cmd_delete_linked clk w label d d' :
  well_linked (d_elements d) ->
  cmd_delete clk d w label = Ok d' -> well_linked (d_elements d').
Proof.
  intros Hd. unfold cmd_delete.
  destruct (_build_factory clk (d_elements d) w) as [factory w1].
  destruct (_match_text (d_elements d) label) as [shape [text|]];
    try discriminate.
  match goal with
  | |- bind ?t _ = _ -> _ => destruct t as [targets| |]
  end; cbn [bind]; try discriminate.
  destruct (for_each (delete_step clk) targets _) as [m| |] eqn:E;
    cbn [bind]; try discriminate.
  intros H. inversion H; subst; clear H. cbn [d_elements with_doc_elements].
  apply (for_each_inv
           (fun x => Forall2 evolves (d_elements d) (m_elements x))) in E.
  - eapply well_linked_evolves; eauto.
  - intros x a x' Hx Hstep. apply delete_step_evolves in Hstep.
    eapply evolves_list_trans; eauto.
  - apply evolves_list_refl.
Qed.

Lemma cmd_add_box_linked clk fuel w label x y width height stroke background
  font_size font_family dashed crisp data d' :
  match data with
  | Some d => well_linked (d_elements d)
  | None => True
  end ->
  cmd_add_box clk fuel data w label x y width height stroke background
    font_size font_family dashed crisp = Ok d' ->
  well_linked (d_elements d').
Proof.
  intros Hd. unfold cmd_add_box.
  set (data0 := match data with
                | Some d => if d_type d == "excalidraw" then d
                            else new_document (d_elements d)
                | None => new_document []
                end).
  assert (H0 : well_linked (d_elements data0)).
  { unfold data0. destruct data as [d|].
    - destruct (d_type d == "excalidraw"); exact Hd.
    - cbn. repeat split; try constructor; intros ? ? [] || intros ? []. }
  pose proof (@build_factory_linked clk (d_elements data0) w H0) as Hs.
  destruct (_build_factory clk (d_elements data0) w) as [factory w1].
  cbn [fst snd] in Hs.
  destruct (make_shape _ _ _ _ _ _ _ _ _ _ _ _ _ _) as [[s1 shape]| |] eqn:E1;
    cbn [bind]; try discriminate.
  apply make_shape_linked in E1; [|exact Hs].
  destruct (add_label _ _ _ _ _ _ _ _) as [[s2 t]| |] eqn:E2; cbn [bind];
    try discriminate.
  apply add_label_linked in E2; [|exact E1].
  intros H. inversion H; subst; clear H. exact (proj1 E2).
Qed.

Lemma cmd_connect_linked clk fuel w from_label to_label from_edge to_edge
  stroke elbowed label font_size font_family d d' :
  well_linked (d_elements d) ->
  cmd_connect clk fuel d w from_label to_label from_edge to_edge stroke
    elbowed label font_size font_family = Ok d' ->
  well_linked (d_elements d').
Proof.
  intros Hd. unfold cmd_connect.
  pose proof (@build_factory_linked clk (d_elements d) w Hd) as Hs.
  destruct (_build_factory clk (d_elements d) w) as [factory w1].
  cbn [fst snd] in Hs.
  destruct (_required_shape_by_label _ from_label) as [source| |];
    cbn [bind]; try discriminate.
  destruct (_required_shape_by_label _ to_label) as [target| |];
    cbn [bind]; try discriminate.
  destruct (connect _ _ _ _ _ _ _ _ _) as [[s1 a]| |] eqn:E1; cbn [bind];
    try discriminate.
  apply connect_linked in E1; [|exact Hs].
  destruct (truthy label).
  - destruct (deref (st_elements s1) a) as [arrow| |]; cbn [bind];
      try discriminate.
    destruct (make_text _ _ _ _ _ _ _ _ _ _ _ _) as [[s2 t]| |] eqn:E2;
      cbn [bind]; try discriminate.
    apply make_text_linked in E2; [|exact E1].
    intros H. inversion H; subst; clear H. exact (proj1 E2).
  - intros H. inversion H; subst; clear H. exact (proj1 E1).
Qed.

(** In every document the tools produce - built from a spec and then moved,
    relabelled, recoloured, deleted from, added to or connected any number of
    times - the element ids are pairwise distinct, every active text with a
    [containerId] is listed as a text in the [boundElements] of the element
    with that id, and every active arrow is listed as an arrow in the
    [boundElements] of each element one of its bindings names. *)
Theorem reachable_well_linked (d : document) :
  reachable d -> well_linked (d_elements d).
Proof.
  induction 1.
  - eapply build_linked; eauto.
  - eapply cmd_move_linked; eauto.
  - eapply cmd_relabel_linked; eauto.
  - eapply cmd_recolor_linked; eauto.
  - eapply cmd_delete_linked; eauto.
  - eapply cmd_add_box_linked with (data := Some d); eauto.
  - eapply cmd_add_box_linked with (data := None); eauto.
  - eapply cmd_connect_linked; eauto.
Qed.

End LinkedCommands.

